(** * Text rendering of the schedule: [pretalx/agenda/views/schedule.py]

    A shallow embedding of the text ("curl") renderers of [ScheduleView]:
    the card formatter [_card], the border resolver [_get_line_parts], the
    grid builder [_get_dt_line] / [_get_table_for_date], the two text
    front ends [_get_text_table] and [_get_text_list], the format switch of
    [get_text] and the list data of [get_schedule_data_list].

    Conventions.
    - A Python [str] is a list of Unicode code points ([pystr]); [len] is the
      number of code points, so the ellipsis U+2026 counts for one character
      and every character of an ANSI escape sequence counts for one.
    - A Python [int] is a [Z]; [//] is [Z.div] (floor).
    - A [datetime] is the number of minutes since 1970-01-01 00:00 on the
      event's wall clock; seconds are zero throughout.
    - Exceptions are values ([exn]); code that may raise returns a [result].
    - A generator is the list of lines it yields together with the way it
      stops ([Gen]). *)

From Stdlib Require Import ZArith Ascii String Sorted.
From stdpp Require Import base list gmap sorting.

Local Open Scope Z_scope.

(** ** Python strings *)

Abbreviation char := N (only parsing).
Abbreviation pystr := (list char) (only parsing).

Definition str (s : string) : pystr := N_of_ascii <$> list_ascii_of_string s.
Arguments str s%_string.

Definition len {A} (l : list A) : Z := Z.of_nat (length l).

Definition SPACE : char := 32%N.
Definition NEWLINE : char := 10%N.
Definition ESC : char := 27%N.
(** U+2026 HORIZONTAL ELLIPSIS *)
Definition ELLIPSIS : char := 8230%N.
(** U+251C and U+2524, the two T junctions written out in [_get_line_parts] *)
Definition T_LEFT : char := 9500%N.
Definition T_RIGHT : char := 9508%N.

(** [s * n]: a count below one gives the empty string. *)
Definition str_mul (s : pystr) (n : Z) : pystr :=
  mjoin (replicate (Z.to_nat n) s).

(** [sep.join(parts)] *)
Fixpoint str_join (sep : pystr) (parts : list pystr) : pystr :=
  match parts with
  | [] => []
  | [p] => p
  | p :: rest => p ++ sep ++ str_join sep rest
  end.

(** [l[:k]], for strings and lists: a negative [k] counts from the end. *)
Definition slice_to {A} (l : list A) (k : Z) : list A :=
  if 0 <=? k then take (Z.to_nat k) l
  else take (Z.to_nat (len l + k)) l.

(** [l[k:]] *)
Definition slice_from {A} (l : list A) (k : Z) : list A :=
  if 0 <=? k then drop (Z.to_nat k) l
  else drop (Z.to_nat (len l + k)) l.

(** Comparison of strings, [a < b]: lexicographic on code points. *)
Fixpoint str_ltb (a b : pystr) : bool :=
  match a, b with
  | _, [] => false
  | [], _ :: _ => true
  | x :: a', y :: b' =>
      if (x <? y)%N then true
      else if (y <? x)%N then false
      else str_ltb a' b'
  end.

Definition str_eqb (a b : pystr) : bool := bool_decide (a = b).

(** ** Exceptions *)

Inductive exn :=
  ValueError | KeyError | IndexError | AttributeError | StopIteration.

Inductive result (A : Type) :=
  | Ok (a : A)
  | Raise (e : exn).
Arguments Ok {A} a.
Arguments Raise {A} e.

#[global] Instance result_ret : MRet result := fun _ a => Ok a.
#[global] Instance result_bind : MBind result := fun _ _ f m =>
  match m with
  | Ok a => f a
  | Raise e => Raise e
  end.

(** [f"{s:<{width}}"]: left-aligned in a field of [width] characters, never
    cut; a negative width is not a valid format specifier. *)
Definition format_ljust (s : pystr) (width : Z) : result pystr :=
  if width <? 0 then Raise ValueError
  else Ok (s ++ str_mul [SPACE] (width - len s)).

(** ** Generators *)

(** The lines a generator body has yielded, and how it went on: [Ok] when
    it ran to its end, [Raise] when an exception left it. *)
Record Gen (A : Type) := MkGen { yielded : list pystr; outcome : result A }.
Arguments MkGen {A} yielded outcome.
Arguments yielded {A} g.
Arguments outcome {A} g.

#[global] Instance Gen_ret : MRet Gen := fun _ a => MkGen [] (Ok a).
#[global] Instance Gen_bind : MBind Gen := fun _ _ f m =>
  match outcome m with
  | Ok a => MkGen (yielded m ++ yielded (f a)) (outcome (f a))
  | Raise e => MkGen (yielded m) (Raise e)
  end.

Definition yield_ (line : pystr) : Gen unit := MkGen [line] (Ok tt).
Definition lift_result {A} (r : result A) : Gen A := MkGen [] r.

(** [next(g)] on a generator that has not been advanced past its lines. *)
Definition next_ (g : Gen unit) : result (pystr * Gen unit) :=
  match yielded g with
  | line :: rest => Ok (line, MkGen rest (outcome g))
  | [] =>
      match outcome g with
      | Ok _ => Raise StopIteration
      | Raise e => Raise e
      end
  end.

(** ** Data model *)

Abbreviation datetime := Z (only parsing).

Record Submission := {
  title : pystr;
  display_speaker_names : pystr;
  content_locale : pystr;
}.

(** A talk slot as the renderers read it; [room_name] is [talk.room.name]. *)
Record Talk := {
  pk : Z;
  start : datetime;
  end_ : datetime;
  real_end : datetime;
  duration : Z;
  submission : option Submission;
  description : pystr;
  room_name : pystr;
}.

(** A room of a day: [talks] is [None] when the dict has no ["talks"] key. *)
Record Room := {
  name : pystr;
  talks : option (list Talk);
}.

(** A day of [ScheduleData.data]; the optional keys are options. *)
Record DateBucket := {
  date_start : datetime;
  first_start : option datetime;
  last_end : option datetime;
  rooms : list Room;
}.

(** ** [textwrap.wrap]

    The standard library's [textwrap.wrap(text, width)] is not code of the
    schedule view.  The renderer is parameterised over the lines it returns
    for a positive width ([wrap_lines] below); the properties that depend on
    them assume what the library documents: no returned line is longer than
    [width].  The one behaviour stated here for every text is the
    [ValueError] for a width below one.

    [wrap_model] runs the library's algorithm (default options) on a text
    of words separated by ASCII blanks, without tabs and hyphens; the
    examples below instantiate the renderer with it. *)

Definition is_space (c : char) : bool := (c =? SPACE)%N.

(** [c.strip() == ''] for a chunk of the split text *)
Definition chunk_blank (c : pystr) : bool := forallb is_space c.

(** [_munge_whitespace]: every ASCII whitespace character becomes a blank. *)
Definition munge_whitespace (text : pystr) : pystr :=
  (fun c => if ((9 <=? c) && (c <=? 13))%N then SPACE else c) <$> text.

(** [_split]: maximal runs of blanks and of other characters. *)
Fixpoint split_chunks (text : pystr) : list pystr :=
  match text with
  | [] => []
  | c :: rest =>
      match split_chunks rest with
      | (d :: w) :: chunks =>
          if Bool.eqb (is_space c) (is_space d)
          then (c :: d :: w) :: chunks
          else [c] :: (d :: w) :: chunks
      | chunks => [c] :: chunks
      end
  end.

(** The inner loop of [_wrap_chunks]: chunks are moved to the current line
    while they fit. *)
Fixpoint fill_line (width : Z) (cur_line : list pystr) (cur_len : Z)
    (chunks : list pystr) : list pystr * Z * list pystr :=
  match chunks with
  | c :: rest =>
      if cur_len + len c <=? width
      then fill_line width (cur_line ++ [c]) (cur_len + len c) rest
      else (cur_line, cur_len, chunks)
  | [] => (cur_line, cur_len, [])
  end.

(** [_handle_long_word] with [break_long_words] set. *)
Definition handle_long_word (chunks cur_line : list pystr) (cur_len width : Z)
    : list pystr * list pystr :=
  match chunks with
  | chunk :: rest =>
      let space_left := if width <? 1 then 1 else width - cur_len in
      (cur_line ++ [slice_to chunk space_left],
       slice_from chunk space_left :: rest)
  | [] => (cur_line, chunks)
  end.

Definition drop_trailing_blank (cur_line : list pystr) : list pystr :=
  match last cur_line with
  | Some c => if chunk_blank c then removelast cur_line else cur_line
  | None => cur_line
  end.

(** The outer loop of [_wrap_chunks]; every round takes a chunk or a
    character off [chunks], which bounds the rounds. *)
Fixpoint wrap_chunks (fuel : nat) (width : Z) (lines chunks : list pystr)
    : list pystr :=
  match fuel with
  | O => lines
  | S fuel' =>
      match chunks with
      | [] => lines
      | c0 :: rest0 =>
          let chunks1 :=
            if chunk_blank c0 && negb (bool_decide (lines = []))
            then rest0 else chunks in
          let '(cur_line, cur_len, chunks2) := fill_line width [] 0 chunks1 in
          let '(cur_line1, chunks3) :=
            match chunks2 with
            | c :: _ =>
                if len c >? width
                then handle_long_word chunks2 cur_line cur_len width
                else (cur_line, chunks2)
            | [] => (cur_line, chunks2)
            end in
          let cur_line2 := drop_trailing_blank cur_line1 in
          let lines' :=
            match cur_line2 with
            | [] => lines
            | _ => lines ++ [mjoin cur_line2]
            end in
          wrap_chunks fuel' width lines' chunks3
      end
  end.

Definition wrap_model (text : pystr) (width : Z) : list pystr :=
  let chunks := split_chunks (munge_whitespace text) in
  wrap_chunks (2 * length text + 1) width [] chunks.

(** ** The card formatter *)

Section Renderer.

(** [textwrap.wrap(text, width)] for [0 < width] *)
Context (wrap_lines : pystr -> Z -> list pystr).

Definition textwrap_wrap (text : pystr) (width : Z) : result (list pystr) :=
  if width <=? 0 then Raise ValueError else Ok (wrap_lines text width).

(** ANSI styling sequences of the card lines *)
Definition BOLD : pystr := ESC :: str "[1m".
Definition YELLOW : pystr := ESC :: str "[33m".
Definition GREY : pystr := ESC :: str "[38;5;246m".
Definition RESET : pystr := ESC :: str "[0m".

(** [talk.submission.title if talk.submission else str(talk.description)] *)
Definition card_text (talk : Talk) : pystr :=
  match submission talk with
  | Some sub => title sub
  | None => description talk
  end.

(** [height = talk.duration // 5 - 1] *)
Definition card_height (talk : Talk) : Z := duration talk / 5 - 1.

(** [max_title_lines = 1 if height <= 5 else height - 4] *)
Definition max_title_lines (height : Z) : Z :=
  if height <=? 5 then 1 else height - 4.

(** [titlelines[-1]] *)
Definition list_last_item {A} (l : list A) : result A :=
  match last l with
  | Some x => Ok x
  | None => Raise IndexError
  end.

(** [titlelines[-1] = x] *)
Definition list_set_last {A} (l : list A) (x : A) : result (list A) :=
  match l with
  | [] => Raise IndexError
  | _ => Ok (removelast l ++ [x])
  end.

(** Lines 310 to 324: the wrapped title, cut to [max_title_lines] lines. *)
Definition card_titlelines (talk : Talk) (col_width : Z) : result (list pystr) :=
  let text_width := col_width - 4 in
  titlelines ← textwrap_wrap (card_text talk) text_width;
  let height := card_height talk in
  let max_title_lines := max_title_lines height in
  if len titlelines >? max_title_lines then
    let remainder := slice_from titlelines max_title_lines in
    let titlelines := slice_to titlelines max_title_lines in
    last_kept ← list_last_item titlelines;
    let last_line := last_kept ++ str " " ++ str_join (str " ") remainder in
    list_set_last titlelines (slice_to last_line (text_width - 1) ++ [ELLIPSIS])
  else Ok titlelines.

(** Lines 330 to 334, the cut of the speaker names:
    [s[: cutoff - 1] + "…" if len(s) > cutoff else s] *)
Definition truncate (s : pystr) (cutoff : Z) : pystr :=
  if len s >? cutoff then slice_to s (cutoff - 1) ++ [ELLIPSIS] else s.

(** [f"  \033[1m{line:<{text_width}}\033[0m  "] *)
Definition title_line (text_width : Z) (line : pystr) : result pystr :=
  cell ← format_ljust line text_width;
  Ok (str "  " ++ BOLD ++ cell ++ RESET ++ str "  ").

(** The loop over [titlelines]; [yielded_lines] is threaded through. *)
Fixpoint yield_titlelines (text_width : Z) (titlelines : list pystr)
    (yielded_lines : Z) : Gen Z :=
  match titlelines with
  | [] => mret yielded_lines
  | line :: rest =>
      l ← lift_result (title_line text_width line);
      yield_ l;;
      yield_titlelines text_width rest (yielded_lines + 1)
  end.

(** [talk.submission.<attribute>]: [None] has no attributes. *)
Definition submission_of (talk : Talk) : result Submission :=
  match submission talk with
  | Some sub => Ok sub
  | None => Raise AttributeError
  end.

(** The joined speaker and locale line, from the padded speaker cell:
    [f"  \033[33m{speaker_str:<{text_width-4}}\033[0m"
     f"  \033[38;5;246m{talk.submission.content_locale:<2}\033[0m  "] *)
Definition speaker_locale_line (speaker locale : pystr) : result pystr :=
  loc ← format_ljust locale 2;
  Ok (str "  " ++ YELLOW ++ speaker ++ RESET
      ++ str "  " ++ GREY ++ loc ++ RESET ++ str "  ").

(** The speaker line of the three-line form *)
Definition speaker_line (text_width : Z) (speaker_str : pystr) : result pystr :=
  speaker ← format_ljust speaker_str text_width;
  Ok (str "  " ++ YELLOW ++ speaker ++ RESET ++ str "  ").

(** The right-aligned locale line *)
Definition locale_line (text_width : Z) (locale : pystr) : pystr :=
  str_mul (str " ") (text_width - 2) ++ str "  " ++ GREY ++ locale ++ RESET ++ str "  ".

(** [for __ in repeat(None, n): yield line] *)
Definition yield_repeat (line : pystr) (n : Z) : Gen unit :=
  MkGen (replicate (Z.to_nat n) line) (Ok tt).

(** [_card(talk, col_width)], lines 306 to 368. *)
Definition _card (talk : Talk) (col_width : Z) : Gen unit :=
  let empty_line := str_mul (str " ") col_width in
  let text_width := col_width - 4 in
  titlelines ← lift_result (card_titlelines talk col_width);
  let height := card_height talk in
  let yielded_lines := 0 in
  let height_after_title := height - len titlelines in
  let join_speaker_and_locale :=
    (height_after_title <=? 3) && bool_decide (is_Some (submission talk)) in
  let speaker_str :=
    match submission talk with
    | Some sub => display_speaker_names sub
    | None => []
    end in
  let cutoff := if join_speaker_and_locale then text_width - 4 else text_width in
  let speaker_str := truncate speaker_str cutoff in
  yielded_lines ←
    (if height >? 4 then yield_ empty_line;; mret (yielded_lines + 1)
     else mret yielded_lines);
  yielded_lines ← yield_titlelines text_width titlelines yielded_lines;
  yielded_lines ←
    (if height_after_title >? 2 then yield_ empty_line;; mret (yielded_lines + 1)
     else mret yielded_lines);
  yielded_lines ←
    match speaker_str with
    | _ :: _ =>
        if join_speaker_and_locale then
          l ← lift_result
                (speaker ← format_ljust speaker_str (text_width - 4);
                 sub ← submission_of talk;
                 speaker_locale_line speaker (content_locale sub));
          yield_ l;;
          mret (yielded_lines + 1)
        else
          l ← lift_result (speaker_line text_width speaker_str);
          yield_ l;;
          let yielded_lines := yielded_lines + 1 in
          yielded_lines ←
            (if height_after_title >? 4
             then yield_ empty_line;; mret (yielded_lines + 1)
             else mret yielded_lines);
          sub ← lift_result (submission_of talk);
          yield_ (locale_line text_width (content_locale sub));;
          mret (yielded_lines + 1)
    | [] =>
        match submission talk with
        | Some sub =>
            yield_ (locale_line text_width (content_locale sub));;
            mret (yielded_lines + 1)
        | None => mret yielded_lines
        end
    end;
  yield_repeat empty_line (height - yielded_lines + 1).

End Renderer.

(** ** Sorting, dicts, dates *)

(** [sorted(l, key=key)] and [l.sort(key=key)]: the stable sort, which
    compares keys with [<] only.  An element is put in front of the first
    one that is not smaller than it, so equal keys keep their order. *)
Section Sorting.
Context {A K : Type} (ltb : K -> K -> bool) (key : A -> K).

Fixpoint insert_sorted (x : A) (l : list A) : list A :=
  match l with
  | [] => [x]
  | y :: l' =>
      if ltb (key y) (key x) then y :: insert_sorted x l' else x :: y :: l'
  end.

Definition sorted_by (l : list A) : list A := foldr insert_sorted [] l.

(** The order of two neighbours in a sorted list: the second key is not
    smaller than the first. *)
Definition ascending (x y : A) : Prop := ltb (key y) (key x) = false.

End Sorting.

(** A dict with string keys, in insertion order. *)
Abbreviation dict V := (list (pystr * V)) (only parsing).

(** [d[k] = v] *)
Fixpoint dict_set {V} (d : dict V) (k : pystr) (v : V) : dict V :=
  match d with
  | [] => [(k, v)]
  | (k', v') :: d' =>
      if str_eqb k' k then (k', v) :: d' else (k', v') :: dict_set d' k v
  end.

(** [d[k]] *)
Fixpoint dict_get {V} (d : dict V) (k : pystr) : result V :=
  match d with
  | [] => Raise KeyError
  | (k', v) :: d' => if str_eqb k' k then Ok v else dict_get d' k
  end.

Definition dict_keys {V} (d : dict V) : list pystr := fst <$> d.

(** [[f(x) for x in l]] where [f] may raise *)
Fixpoint result_map {A B} (f : A -> result B) (l : list A) : result (list B) :=
  match l with
  | [] => Ok []
  | x :: l' => y ← f x; ys ← result_map f l'; Ok (y :: ys)
  end.

Definition digit (n : Z) : char := (48 + Z.to_N (n mod 10))%N.
Definition pad2 (n : Z) : pystr := [digit (n / 10); digit n].
Definition pad4 (n : Z) : pystr :=
  [digit (n / 1000); digit (n / 100); digit (n / 10); digit n].

(** [f"{dt:%H:%M}"] *)
Definition strftime_HM (t : datetime) : pystr :=
  pad2 ((t / 60) mod 24) ++ str ":" ++ pad2 (t mod 60).

(** Year, month and day of a day number counted from 1970-01-01. *)
Definition civil_from_days (days : Z) : Z * Z * Z :=
  let z := days + 719468 in
  let era := z / 146097 in
  let doe := z - era * 146097 in
  let yoe := (doe - doe / 1460 + doe / 36524 - doe / 146096) / 365 in
  let doy := doe - (365 * yoe + yoe / 4 - yoe / 100) in
  let mp := (5 * doy + 2) / 153 in
  let d := doy - (153 * mp + 2) / 5 + 1 in
  let m := if mp <? 10 then mp + 3 else mp - 9 in
  let y := yoe + era * 400 + (if m <=? 2 then 1 else 0) in
  (y, m, d).

(** [f"{dt:%Y-%m-%d}"] *)
Definition strftime_Ymd (t : datetime) : pystr :=
  let '(y, m, d) := civil_from_days (t / 1440) in
  pad4 y ++ str "-" ++ pad2 m ++ str "-" ++ pad2 d.

(** [rrule.rrule(rrule.HOURLY, byminute=..., dtstart=dtstart, until=until)]:
    the instants from [dtstart] to [until], both included, whose minute of
    the hour is one of [byminute]. *)
Definition rrule_hourly (byminute : Z -> bool) (dtstart until : datetime)
    : list datetime :=
  List.filter (fun t => byminute (t mod 60))
    (seqZ dtstart (until - dtstart + 1)).

(** ["\n\033[33m{:%Y-%m-%d}\033[0m\n".format(date["start"])] *)
Definition date_header (date : DateBucket) : pystr :=
  [NEWLINE] ++ YELLOW ++ strftime_Ymd (date_start date) ++ RESET ++ [NEWLINE].

(** [(talk for room in date["rooms"] for talk in room.get("talks", []))] *)
Definition day_talks (date : DateBucket) : list Talk :=
  room ← rooms date; default [] (talks room).

(** Truth value of an object that may be [None]. *)
Definition truthy {A} (o : option A) : bool := bool_decide (is_Some o).

(** ** The list renderer *)

Section ListRenderer.

(** The translation of [_("No speakers")] in the active language *)
Context (no_speakers : pystr).

(** One item of the [join] in [_get_text_list], lines 161 to 171. *)
Definition list_entry (talk : Talk) : pystr :=
  str "* " ++ YELLOW ++ strftime_HM (start talk) ++ RESET ++ str " "
  ++ match submission talk with
     | Some sub =>
         title sub ++ str ", "
         ++ (match display_speaker_names sub with
             | [] => no_speakers
             | names => names
             end)
         ++ str " (" ++ content_locale sub ++ str "); in "
         ++ room_name talk ++ [NEWLINE]
     | None => description talk ++ str " in " ++ room_name talk
     end.

(** The body of the loop of [_get_text_list] for one date. *)
Definition text_list_date (date : DateBucket) : pystr :=
  let talk_list := sorted_by Z.ltb start (day_talks date) in
  match talk_list with
  | [] => []
  | _ => date_header date ++ mjoin (list_entry <$> talk_list)
  end.

(** [_get_text_list(data)], lines 150 to 174. *)
Definition _get_text_list (data : list DateBucket) : pystr :=
  foldl (fun result date => result ++ text_list_date date) [] data.

End ListRenderer.

(** A day after [get_schedule_data_list]: the ["rooms"] key is popped and
    the ["talks"] key holds the sorted talks. *)
Record DateTalks := {
  dt_start : datetime;
  dt_first_start : option datetime;
  dt_last_end : option datetime;
  dt_talks : list Talk;
}.

(** The sort key [(x.start, x.submission.title if x.submission else "")] *)
Definition list_key (x : Talk) : datetime * pystr :=
  (start x, match submission x with Some sub => title sub | None => [] end).

(** [<] on these pairs: the first components decide unless they are equal. *)
Definition list_key_ltb (a b : datetime * pystr) : bool :=
  if a.1 =? b.1 then str_ltb a.2 b.2 else a.1 <? b.1.

(** [get_schedule_data_list(data)["data"]], lines 529 to 537. *)
Definition get_schedule_data_list (data : list DateBucket) : list DateTalks :=
  (fun date =>
     let talks := day_talks date in
     {| dt_start := date_start date;
        dt_first_start := first_start date;
        dt_last_end := last_end date;
        dt_talks := sorted_by list_key_ltb list_key talks |}) <$> data.

(** ** The grid *)

Section Grid.

Context (wrap_lines : pystr -> Z -> list pystr).

(** [pretalx.common.console] is outside this file: the glyph table
    [get_separator] and the two line glyphs [UD] and [LR] are parameters. *)
Context (get_separator : bool -> bool -> bool -> bool -> pystr).
Context (UD LR : pystr).

(** [_get_line_parts(start1, start2, end1, end2, run1, run2, fill_char)],
    lines 370 to 384. *)
Definition _get_line_parts (start1 start2 end1 end2 run1 run2 : option Talk)
    (fill_char : pystr) : list pystr :=
  let start_end := [end2; start2; start1; end1] in
  if truthy run1 && (truthy start2 || truthy end2) then [[T_LEFT]]
  else if truthy run2 && (truthy start1 || truthy end1) then [[T_RIGHT]]
  else if existsb truthy start_end then
    [get_separator (truthy end2) (truthy start2) (truthy start1) (truthy end1)]
  else if truthy run1 || truthy run2 then [UD]
  else [fill_char].

(** The card generators, by talk id. *)
Abbreviation cards := (gmap Z (Gen unit)) (only parsing).

(** [next(cards_by_id[key])]: the generator found under [key] moves on. *)
Definition next_card (cards_by_id : cards) (key : Z) : result (pystr * cards) :=
  match cards_by_id !! key with
  | None => Raise KeyError
  | Some g => '(line, g') ← next_ g; Ok (line, <[key := g']> cards_by_id)
  end.

(** [rooms[0]] and [rooms[-1]] *)
Definition first_item {A} (l : list A) : result A :=
  match l with
  | x :: _ => Ok x
  | [] => Raise IndexError
  end.

(** The three lookups [starting_events[room], running_events[room],
    ending_events[room]] *)
Definition room_events (starting_events running_events ending_events :
    dict (option Talk)) (room : pystr)
    : result (option Talk * option Talk * option Talk) :=
  start ← dict_get starting_events room;
  run ← dict_get running_events room;
  end_ ← dict_get ending_events room;
  Ok (start, run, end_).

(** The loop of [_get_dt_line] over [zip(rooms[:-1], rooms[1:])]. *)
Fixpoint dt_line_pairs (starting_events running_events ending_events :
    dict (option Talk)) (fill_char : pystr) (col_width : Z)
    (pairs : list (pystr * pystr)) (line_parts : list pystr)
    (cards_by_id : cards) : result (list pystr * cards) :=
  match pairs with
  | [] => Ok (line_parts, cards_by_id)
  | (loc1, loc2) :: pairs' =>
      '(start1, run1, end1) ←
        room_events starting_events running_events ending_events loc1;
      '(start2, run2, end2) ←
        room_events starting_events running_events ending_events loc2;
      let line_parts :=
        line_parts ++ _get_line_parts start1 start2 end1 end2 run1 run2 fill_char in
      '(line_parts, cards_by_id) ←
        match run2 with
        | Some r =>
            '(line, cards_by_id) ← next_card cards_by_id (pk r);
            Ok (line_parts ++ [line], cards_by_id)
        | None =>
            if truthy start2 || truthy end2
            then Ok (line_parts ++ [str_mul LR col_width], cards_by_id)
            else Ok (line_parts ++ [str_mul fill_char col_width], cards_by_id)
        end;
      dt_line_pairs starting_events running_events ending_events fill_char
        col_width pairs' line_parts cards_by_id
  end.

(** [_get_dt_line], lines 240 to 304: one row of the grid. *)
Definition _get_dt_line (dt : datetime) (is_tick : bool)
    (starting_events running_events ending_events : dict (option Talk))
    (rooms : list pystr) (col_width : Z) (cards_by_id : cards)
    : result (pystr * cards) :=
  let line_parts :=
    [if is_tick then strftime_HM dt ++ str " --" else str_mul (str " ") 8] in
  let fill_char := if is_tick then str "-" else str " " in
  room ← first_item rooms;
  '(start, run, end_) ←
    room_events starting_events running_events ending_events room;
  '(line_parts, cards_by_id) ←
    (if truthy start || truthy end_ then
       Ok (line_parts
             ++ [get_separator (truthy end_) (truthy start) false false
                 ++ str_mul LR col_width], cards_by_id)
     else
       match run with
       | Some r =>
           '(line, cards_by_id) ← next_card cards_by_id (pk r);
           Ok (line_parts ++ [UD ++ line], cards_by_id)
       | None =>
           Ok (line_parts ++ [str_mul fill_char (col_width + 1)], cards_by_id)
       end);
  '(line_parts, cards_by_id) ←
    dt_line_pairs starting_events running_events ending_events fill_char
      col_width (zip (slice_to rooms (-1)) (slice_from rooms 1))
      line_parts cards_by_id;
  room ← first_item (reverse rooms);
  '(start, run, end_) ←
    room_events starting_events running_events ending_events room;
  let line_parts :=
    line_parts
      ++ [if truthy start || truthy end_
          then get_separator false false (truthy start) (truthy end_)
          else if truthy run then UD else fill_char] in
  Ok (mjoin line_parts, cards_by_id).

(** [{str(r["name"]): r["talks"] for r in date["rooms"]}] *)
Fixpoint talks_by_room_of (rooms : list Room) (d : dict (list Talk))
    : result (dict (list Talk)) :=
  match rooms with
  | [] => Ok d
  | r :: rooms' =>
      match talks r with
      | Some ts => talks_by_room_of rooms' (dict_set d (name r) ts)
      | None => Raise KeyError
      end
  end.

(** [{talk.pk: self._card(talk, col_width) for talk in talk_list}] *)
Definition cards_by_id_of (talk_list : list Talk) (col_width : Z) : cards :=
  foldl (fun m talk => <[pk talk := _card wrap_lines talk col_width]> m)
    ∅ talk_list.

(** [{room: next((e for e in talks_by_room[room] if test(e)), None)
      for room in rooms}] *)
Fixpoint events_where (test : Talk -> bool) (talks_by_room : dict (list Talk))
    (rooms : list pystr) (d : dict (option Talk)) : result (dict (option Talk)) :=
  match rooms with
  | [] => Ok d
  | room :: rooms' =>
      ts ← dict_get talks_by_room room;
      events_where test talks_by_room rooms' (dict_set d room (List.find test ts))
  end.

(** The header row, line 200 *)
Definition header_line (rooms : list pystr) (col_width : Z) : result pystr :=
  cells ← result_map (fun room => format_ljust room (col_width - 2)) rooms;
  Ok (str "        | " ++ str_join (str " | ") cells).

(** The loop of [_get_table_for_date] over the five-minute instants. *)
Fixpoint table_rows (tick_times : list datetime)
    (talks_by_room : dict (list Talk)) (rooms : list pystr) (col_width : Z)
    (hours : list datetime) (lines : list pystr) (cards_by_id : cards)
    : result (list pystr) :=
  match hours with
  | [] => Ok lines
  | hour :: hours' =>
      starting_events ←
        events_where (fun e => start e =? hour) talks_by_room rooms [];
      running_events ←
        events_where (fun e => (start e <? hour) && (hour <? real_end e))
          talks_by_room rooms [];
      ending_events ←
        events_where (fun e => real_end e =? hour) talks_by_room rooms [];
      '(line, cards_by_id) ←
        _get_dt_line hour (bool_decide (hour ∈ tick_times))
          starting_events running_events ending_events rooms col_width
          cards_by_id;
      table_rows tick_times talks_by_room rooms col_width hours'
        (lines ++ [line]) cards_by_id
  end.

(** [min(f(talk) for talk in talk_list)] and [max(...)], on a list that is
    not empty *)
Definition min_of (f : Talk -> Z) (t : Talk) (ts : list Talk) : Z :=
  foldl (fun m x => if f x <? m then f x else m) (f t) ts.
Definition max_of (f : Talk -> Z) (t : Talk) (ts : list Talk) : Z :=
  foldl (fun m x => if m <? f x then f x else m) (f t) ts.

(** [_get_table_for_date(date, col_width)], lines 187 to 238; [None] is the
    early return for a day without talks. *)
Definition _get_table_for_date (date : DateBucket) (col_width : Z)
    : result (option pystr) :=
  let talk_list := sorted_by Z.ltb start (day_talks date) in
  match talk_list with
  | [] => Ok None
  | t :: ts =>
      let global_start := default (min_of start t ts) (first_start date) in
      let global_end := default (max_of end_ t ts) (last_end date) in
      talks_by_room ← talks_by_room_of (rooms date) [];
      let cards_by_id := cards_by_id_of talk_list col_width in
      let rooms := dict_keys talks_by_room in
      header ← header_line rooms col_width;
      let lines := [header] in
      let tick_times :=
        rrule_hourly (fun m => (m =? 0) || (m =? 30)) global_start global_end in
      lines ←
        table_rows tick_times talks_by_room rooms col_width
          (rrule_hourly (fun m => m mod 5 =? 0) global_start global_end)
          lines cards_by_id;
      Ok (Some (str_join [NEWLINE] lines))
  end.

(** The body of the loop of [_get_text_table] for one date. *)
Definition text_table_date (date : DateBucket) (col_width : Z) : result pystr :=
  table ← _get_table_for_date date col_width;
  Ok (date_header date
      ++ match table with
         | Some (c :: t) => c :: t
         | _ => str "No talks on this day." ++ [NEWLINE]
         end).

(** [_get_text_table(data, col_width=20)], lines 176 to 185. *)
Fixpoint text_table_loop (data : list DateBucket) (col_width : Z)
    (result_ : pystr) : result pystr :=
  match data with
  | [] => Ok result_
  | date :: data' =>
      part ← text_table_date date col_width;
      text_table_loop data' col_width (result_ ++ part)
  end.

Definition _get_text_table (data : list DateBucket) (col_width : Z)
    : result pystr :=
  text_table_loop data col_width [].

(** ** The format switch *)

Context (no_speakers : pystr).

(** [get_text], lines 404 to 413: [format] is [request.GET.get("format")],
    [response_start] the dedented preamble and [data] the value of
    [ScheduleData(...).data]; the result is the body of the response. *)
Definition get_text (response_start : pystr) (format : option pystr)
    (data : list DateBucket) : result pystr :=
  let output_format := default (str "table") format in
  let output_format :=
    if negb (bool_decide (output_format ∈ [str "list"; str "table"]))
    then str "table" else output_format in
  result_ ←
    (if str_eqb output_format (str "list")
     then Ok (_get_text_list no_speakers data)
     else _get_text_table data 20);
  Ok (response_start ++ result_).

End Grid.

(** ** What a terminal shows of a line *)

(** The card lines carry ANSI styling sequences: ESC, an opening bracket,
    parameter characters (digits and semicolons) and a final character.  A
    terminal prints none of them. *)
Inductive ansi_state := Text | Escape | Sequence.

Definition is_parameter (c : char) : bool := ((48 <=? c) && (c <=? 63))%N.

Fixpoint strip_ansi_from (st : ansi_state) (s : pystr) : pystr :=
  match s with
  | [] => []
  | c :: rest =>
      match st with
      | Text =>
          if (c =? ESC)%N then strip_ansi_from Escape rest
          else c :: strip_ansi_from Text rest
      | Escape =>
          if (c =? 91)%N then strip_ansi_from Sequence rest
          else c :: strip_ansi_from Text rest
      | Sequence =>
          if is_parameter c then strip_ansi_from Sequence rest
          else strip_ansi_from Text rest
      end
  end.

Definition strip_ansi (s : pystr) : pystr := strip_ansi_from Text s.

(** A text without the escape character *)
Definition plain (s : pystr) : Prop := Forall (fun c => c <> ESC) s.

(** A line of at most [width] characters without the escape character *)
Definition fits (width : Z) (line : pystr) : Prop :=
  len line <= width /\ plain line.

(** The number of character cells a line takes on the terminal *)
Definition visible_width (s : pystr) : Z := len (strip_ansi s).

(** ** The lines of a card, written out

    The closed form of what [_card] yields from column width 8 on, where no
    format specifier is negative; [card_closed_form] below shows that
    [_card] yields exactly these lines. *)

Definition blank_line (col_width : Z) : pystr := str_mul (str " ") col_width.

(** [s] followed by blanks up to [width] characters *)
Definition padded (s : pystr) (width : Z) : pystr :=
  s ++ str_mul (str " ") (width - len s).

Definition title_cell (text_width : Z) (line : pystr) : pystr :=
  str "  " ++ BOLD ++ padded line text_width ++ RESET ++ str "  ".

Definition card_speaker_lines (talk : Talk) (col_width height_after_title : Z)
    : list pystr :=
  let text_width := col_width - 4 in
  match submission talk with
  | None => []
  | Some sub =>
      let joined := height_after_title <=? 3 in
      let cutoff := if joined then text_width - 4 else text_width in
      match truncate (display_speaker_names sub) cutoff with
      | [] => [locale_line text_width (content_locale sub)]
      | speaker =>
          if joined then
            [str "  " ++ YELLOW ++ padded speaker (text_width - 4) ++ RESET
             ++ str "  " ++ GREY ++ padded (content_locale sub) 2 ++ RESET
             ++ str "  "]
          else
            [str "  " ++ YELLOW ++ padded speaker text_width ++ RESET ++ str "  "]
            ++ (if height_after_title >? 4 then [blank_line col_width] else [])
            ++ [locale_line text_width (content_locale sub)]
      end
  end.

Definition card_content (talk : Talk) (col_width : Z) (kept : list pystr)
    : list pystr :=
  let height := card_height talk in
  let height_after_title := height - len kept in
  (if height >? 4 then [blank_line col_width] else [])
  ++ (title_cell (col_width - 4) <$> kept)
  ++ (if height_after_title >? 2 then [blank_line col_width] else [])
  ++ card_speaker_lines talk col_width height_after_title.

Definition card_layout (talk : Talk) (col_width : Z) (kept : list pystr)
    : list pystr :=
  let content := card_content talk col_width kept in
  content
  ++ replicate (Z.to_nat (card_height talk - len content + 1))
       (blank_line col_width).

(** ** Notions for the properties of the grid *)

(** A talk is running at [hour]: the test of [running_events] *)
Definition running_at (hour : datetime) (e : Talk) : bool :=
  (start e <? hour) && (hour <? real_end e).

(** The five-minute instants of a day, the rows of its table *)
Definition row_instants (global_start global_end : datetime) : list datetime :=
  rrule_hourly (fun m => m mod 5 =? 0) global_start global_end.

(** A fragment of a row that leaves the terminal in text mode, so that what
    follows it is shown as if it stood alone *)
Definition sealed (s : pystr) : Prop :=
  forall rest, strip_ansi (s ++ rest) = strip_ansi s ++ strip_ansi rest.

(** A sealed fragment that takes [width] character cells *)
Definition cell_of (width : Z) (s : pystr) : Prop :=
  sealed s /\ visible_width s = width.

(** A string of one character that is not the escape character *)
Definition glyph (s : pystr) : Prop := exists c, s = [c] /\ c <> ESC.

(** The card of talk [r] in the store [cards_by_id] can serve the rows
    [hours]: it has not raised, it holds a line for every row at which the
    talk is running, and its lines satisfy [P]. *)
Definition card_ready (P : pystr -> Prop) (hours : list datetime)
    (cards_by_id : gmap Z (Gen unit)) (r : Talk) : Prop :=
  exists g,
    cards_by_id !! pk r = Some g
    /\ outcome g = Ok tt
    /\ (length (List.filter (fun h => running_at h r) hours)
        <= length (yielded g))%nat
    /\ Forall P (yielded g).

(** All talks of a dict of rooms *)
Definition dict_talks (talks_by_room : list (pystr * list Talk)) : list Talk :=
  mjoin (snd <$> talks_by_room).

(** The dict of events of a row that [events_where] builds from a dict of
    rooms without a repeated name *)
Definition events_of (test : Talk -> bool)
    (talks_by_room : list (pystr * list Talk)) : list (pystr * option Talk) :=
  (fun e => (e.1, List.find test e.2)) <$> talks_by_room.

(** What the alignment of the grid asks of the glyphs and of the lines in
    the store of cards: every glyph is one character, every line satisfying
    [P] takes [col_width] cells. *)
Definition grid_glyphs (get_separator : bool -> bool -> bool -> bool -> pystr)
    (UD LR : pystr) (P : pystr -> Prop) (col_width : Z) : Prop :=
  (forall a b c d, glyph (get_separator a b c d))
  /\ glyph UD /\ glyph LR
  /\ (forall line, P line -> cell_of col_width line)
  /\ 0 <= col_width.

(** [global_start] and [global_end] of [_get_table_for_date], for a day
    with talks: the declared bounds of the day, or else the earliest start
    and the latest end of its talks. *)
Definition global_bounds (date : DateBucket) : datetime * datetime :=
  match sorted_by Z.ltb start (day_talks date) with
  | [] => (0, 0)
  | t :: ts =>
      (default (min_of start t ts) (first_start date),
       default (max_of end_ t ts) (last_end date))
  end.


(** ** Strings in the views *)

(** [s.startswith(prefix)] *)
Fixpoint startswith (s prefix : pystr) : bool :=
  match prefix, s with
  | [], _ => true
  | _ :: _, [] => false
  | p :: prefix', c :: s' => (p =? c)%N && startswith s' prefix'
  end.

(** [needle in haystack] for two strings: [needle] occurs in [haystack] *)
Fixpoint str_in (needle haystack : pystr) : bool :=
  startswith haystack needle
  || match haystack with
     | [] => false
     | _ :: rest => str_in needle rest
     end.

(** The truth value of a string, and of a value that is a string or [None] *)
Definition str_truthy (s : pystr) : bool := negb (bool_decide (s = [])).
Definition opt_str_truthy (o : option pystr) : bool :=
  match o with
  | Some s => str_truthy s
  | None => false
  end.

Definition QUOTE : char := 34%N.

(** ** What a view raises *)

(** [Http404] of Django, [TypeError], and the exceptions of the renderers *)
Inductive view_exn := Http404 | TypeError | Builtin (e : exn).

Inductive view_result (A : Type) :=
  | Returned (a : A)
  | Raised (e : view_exn).
Arguments Returned {A} a.
Arguments Raised {A} e.

(** ** The exporter view *)

Module ExporterView.
Section View.

(** The type of [self.schedule], which the view hands to the exporter *)
Context {Schedule : Type}.
(** [urllib.parse.unquote], [hashlib.sha1(str(data).encode()).hexdigest()]
    and [pretalx.common.utils.safe_filename] *)
Context (unquote : pystr -> pystr).
Context (sha1_hexdigest : pystr -> pystr).
Context (safe_filename : pystr -> pystr).

(** An exporter as the view uses it: [render] reads the [schedule] and
    [is_orga] the view has set on it, and returns
    [(file_name, file_type, data)] or raises ([None]). *)
Record Exporter := {
  identifier : pystr;
  public : bool;
  cors : option pystr;
  render : Schedule -> bool -> option (pystr * pystr * pystr) }.

(** The request and what hangs on it: the resolved URL, the query
    parameters [exporter] and [lang], the attribute [is_orga] where the
    request has one, the header [If-None-Match], the locales and the default
    locale of the event, the exporters the signal
    [register_data_exporters] answers with, in its order, and the schedule
    of the view. *)
Record Request := {
  url_name : pystr;
  url_kwargs_name : option pystr;
  GET_exporter : option pystr;
  GET_lang : option pystr;
  is_orga : option bool;
  if_none_match : option pystr;
  event_locales : list pystr;
  event_locale : pystr;
  exporters : list Exporter;
  schedule : Schedule }.

(** Lines 88 to 99: the identifier the request asks for.  [unquote] of
    [None] raises [TypeError]. *)
Definition requested_identifier (request : Request) : view_result pystr :=
  let exporter :=
    if str_eqb (url_name request) (str "export") then
      if opt_str_truthy (url_kwargs_name request)
      then Returned (default [] (url_kwargs_name request))
      else match GET_exporter request with
           | Some quoted => Returned (unquote quoted)
           | None => Raised TypeError
           end
    else Returned (url_name request) in
  match exporter with
  | Returned exporter =>
      Returned (if startswith exporter (str "export.")
                then slice_from exporter (len (str "export."))
                else exporter)
  | Raised e => Raised e
  end.

(** Lines 101 to 105: the loop over the exporters; falling off its end
    returns [None].  [request.is_orga] is read for an exporter with the
    identifier that is not public, and raises [AttributeError] when the
    request has no such attribute. *)
Fixpoint exporter_loop (request : Request) (exporter : pystr)
    (responses : list Exporter) : view_result (option Exporter) :=
  match responses with
  | [] => Returned None
  | ex :: responses' =>
      if str_eqb (identifier ex) exporter then
        if public ex then Returned (Some ex)
        else match is_orga request with
             | None => Raised (Builtin AttributeError)
             | Some true => Returned (Some ex)
             | Some false => exporter_loop request exporter responses'
             end
      else exporter_loop request exporter responses'
  end.

(** [get_exporter(request)], lines 87 to 105 *)
Definition get_exporter (request : Request) : view_result (option Exporter) :=
  match requested_identifier request with
  | Returned exporter => exporter_loop request exporter (exporters request)
  | Raised e => Raised e
  end.

(** The answers of the view: [HttpResponseNotModified()], or an
    [HttpResponse] with its content, content type and the headers set on
    it, in the order of their assignment. *)
Inductive HttpResponse :=
  | NotModified
  | Response (content content_type : pystr) (headers : dict pystr).

(** Lines 111 to 115: the language [activate] is called with, if it is *)
Definition activated_language (request : Request) : option pystr :=
  match GET_lang request with
  | Some lang_code =>
      if str_truthy lang_code && bool_decide (lang_code ∈ event_locales request)
      then Some lang_code
      else Some (event_locale request)
  | None => None
  end.

(** [get(request)], lines 107 to 139: the language that has been activated
    when the view is left, and what the view returns or raises.  An
    exporter object is true, so [not exporter] holds for [None] only;
    whatever [render] raises is answered with [Http404]. *)
Definition get (request : Request) : option pystr * view_result HttpResponse :=
  match get_exporter request with
  | Raised e => (None, Raised e)
  | Returned None => (None, Raised Http404)
  | Returned (Some exporter) =>
      let activated := activated_language request in
      match render exporter (schedule request) (default false (is_orga request)) with
      | None => (activated, Raised Http404)
      | Some (file_name, file_type, data) =>
          let etag := sha1_hexdigest data in
          if bool_decide (if_none_match request = Some etag)
          then (activated, Returned NotModified)
          else
            let response := [(str "ETag", etag)] in
            let response :=
              if negb (bool_decide
                         (file_type ∈ [str "application/json"; str "text/xml"]))
              then dict_set response (str "Content-Disposition")
                     (str "attachment; filename=" ++ [QUOTE]
                      ++ safe_filename file_name ++ [QUOTE])
              else response in
            let response :=
              if opt_str_truthy (cors exporter)
              then dict_set response (str "Access-Control-Allow-Origin")
                     (default [] (cors exporter))
              else response in
            (activated, Returned (Response data file_type response))
      end
  end.

(** The request [request] sent again with the header [If-None-Match] *)
Definition with_if_none_match (request : Request) (etag : pystr) : Request :=
  {| url_name := url_name request;
     url_kwargs_name := url_kwargs_name request;
     GET_exporter := GET_exporter request;
     GET_lang := GET_lang request;
     is_orga := is_orga request;
     if_none_match := Some etag;
     event_locales := event_locales request;
     event_locale := event_locale request;
     exporters := exporters request;
     schedule := schedule request |}.

End View.
End ExporterView.

(** ** The schedule view: which answer a request gets *)

Module ScheduleView.

(** The view with its request: the header [Accept] where the request has
    one, the attribute [is_html_export] where the view has one, and whether
    [self.schedule] is the WIP schedule of the event. *)
Record View := {
  accept : option pystr;
  is_html_export : option bool;
  schedule_is_wip : bool }.

(** [answer_type], lines 415 to 421 *)
Definition answer_type (self : View) : pystr :=
  if negb (str_in (str "text/html") (default [] (accept self)))
     && negb (default false (is_html_export self))
  then str "text"
  else str "html".

(** The argument [with_accepted] of [ScheduleData], lines 390 to 391 and
    475 to 476 *)
Definition with_accepted (self : View) : bool :=
  str_eqb (answer_type self) (str "html") && schedule_is_wip self.

(** What [get] answers with: the page of the template ([super().get]), the
    text of [get_text], or the redirect with status 303 to the URL
    [url_name] of the event. *)
Inductive Answer :=
  | TemplatePage
  | PlainText
  | SeeOther (url_name : pystr).

Definition export_headers : dict (list pystr) :=
  [ (str "frab_xml", [str "application/xml"; str "text/xml"]);
    (str "frab_json", [str "application/json"]) ].

(** The loop of lines 441 to 446 *)
Fixpoint export_loop (accept_header : pystr) (items : dict (list pystr))
    : option pystr :=
  match items with
  | [] => None
  | (url_name, headers) :: items' =>
      if existsb (fun header => str_in header accept_header) headers
      then Some url_name
      else export_loop accept_header items'
  end.

(** [get(request)], lines 431 to 449 *)
Definition get (self : View) : Answer :=
  let accept_header := default [] (accept self) in
  if default false (is_html_export self) || str_in (str "text/html") accept_header
  then TemplatePage
  else if negb (str_truthy accept_header)
          || bool_decide (accept_header ∈ [str "plain"; str "text/plain"])
  then PlainText
  else match export_loop accept_header export_headers with
       | Some url_name => SeeOther url_name
       | None =>
           if str_in (str "*/*") accept_header then PlainText else TemplatePage
       end.

End ScheduleView.

(** ** The proportional view *)

Section Proportional.

(** The offset of the event's time zone from UTC at an instant, in minutes
    ([astimezone(timezone)]), and the clock ([now()]).  Instants are counted
    in minutes: [total_seconds() / 60 * 2] of a difference is twice its
    number of minutes, a whole number, which [int] leaves as it is. *)
Context (utcoffset : datetime -> Z).
Context (now : datetime).

(** What the loop sets on a talk: [top], [height] and [is_active] *)
Record TalkBox := {
  box_talk : Talk;
  box_top : Z;
  box_height : Z;
  box_is_active : bool }.

(** What the loop sets on a date that has both bounds: [display_start] (as
    an instant), [height] and [hours], and the boxes of its talks in the
    order of the assignments. *)
Record DateDisplay := {
  display_start : datetime;
  display_height : Z;
  display_hours : list pystr;
  display_boxes : list TalkBox }.

(** [first_start.astimezone(timezone).replace(second=0, minute=0)]: the
    instant at which the hour of the wall clock began. *)
Definition hour_floor (first_start : datetime) : datetime :=
  first_start - (first_start + utcoffset first_start) mod 60.

(** The loop of lines 513 to 516; [wall] is what the wall clock, which
    keeps the offset of [first_start], is ahead of the instant.  The loop
    ends when [step] reaches [end]; [fuel] bounds the number of rounds. *)
Fixpoint hours_loop (fuel : nat) (step end_ wall : Z) (hours : list pystr)
    : list pystr :=
  match fuel with
  | O => hours
  | S fuel' =>
      if step <? end_
      then hours_loop fuel' (step + 60) end_ wall
             (hours ++ [strftime_HM (step + wall)])
      else hours
  end.

(** Lines 518 to 526, for one talk *)
Definition talk_box (start_ : datetime) (talk : Talk) : TalkBox :=
  {| box_talk := talk;
     box_top := (start talk - start_) * 2;
     box_height := duration talk * 2;
     box_is_active := (start talk <=? now) && (now <=? real_end talk) |}.

(** Lines 502 to 526: the body of the loop for one date *)
Definition date_display (date : DateBucket) : option DateDisplay :=
  match first_start date, last_end date with
  | Some first, Some last =>
      let start_ := hour_floor first in
      let end_ := last in
      Some {| display_start := start_;
              display_height := (end_ - start_) * 2;
              display_hours :=
                hours_loop (Z.to_nat (end_ - start_)) start_ end_
                  (utcoffset first) [];
              display_boxes := talk_box start_ <$> day_talks date |}
  | _, _ => None
  end.

(** The loop over the dates, with [max_rooms] *)
Fixpoint proportional_loop (data : list DateBucket) (max_rooms : Z)
    : list (DateBucket * option DateDisplay) * Z :=
  match data with
  | [] => ([], max_rooms)
  | date :: data' =>
      let max_rooms :=
        if bool_decide (is_Some (date_display date))
        then Z.max max_rooms (len (rooms date))
        else max_rooms in
      let '(out, max_rooms) := proportional_loop data' max_rooms in
      ((date, date_display date) :: out, max_rooms)
  end.

(** [get_schedule_data_proportional(data)], lines 498 to 527: the dates
    with what has been set on them, and [max_rooms]. *)
Definition get_schedule_data_proportional (data : list DateBucket)
    : list (DateBucket * option DateDisplay) * Z :=
  proportional_loop data 0.

End Proportional.

(** ** Sample data for the examples *)

(** Stand-ins for the glyphs of [pretalx.common.console] *)
Definition ascii_separator (_ _ _ _ : bool) : pystr := str "+".
Definition ascii_UD : pystr := str "|".
Definition ascii_LR : pystr := str "-".

(** 2020-01-01 00:00 and 09:00 *)
Definition new_year : datetime := 18262 * 1440.
Definition nine : datetime := new_year + 9 * 60.

Definition a_talk (id : Z) (title_ speakers room : pystr) (minutes : Z) : Talk :=
  {| pk := id; start := nine; end_ := nine + minutes;
     real_end := nine + minutes; duration := minutes;
     submission := Some {| title := title_; display_speaker_names := speakers;
                           content_locale := str "en" |};
     description := []; room_name := room |}.

Definition a_break (id : Z) (text room : pystr) (minutes : Z) : Talk :=
  {| pk := id; start := nine; end_ := nine + minutes;
     real_end := nine + minutes; duration := minutes;
     submission := None; description := text; room_name := room |}.

Definition a_day (rs : list Room) : DateBucket :=
  {| date_start := new_year; first_start := None; last_end := None; rooms := rs |}.

Definition opening (minutes : Z) : Talk :=
  a_talk 1 (str "Opening") (str "Ada Lovelace") (str "Main Hall") minutes.
Definition zebra : Talk := a_talk 2 (str "Zebra") (str "Zoe") (str "Main Hall") 30.
Definition alpha : Talk := a_talk 3 (str "Alpha") (str "Al") (str "Side Room") 30.
Definition coffee : Talk := a_break 4 (str "Coffee") (str "Foyer") 30.
Definition keynote : Talk :=
  a_talk 5 (str "The quick brown fox jumps over the lazy dog")
    (str "Grace Hopper") (str "Main Hall") 30.

Definition opening_day : DateBucket :=
  a_day [ {| name := str "Main Hall"; talks := Some [opening 30] |} ].
Definition zebra_alpha_day : DateBucket :=
  a_day [ {| name := str "Main Hall"; talks := Some [zebra] |};
          {| name := str "Side Room"; talks := Some [alpha] |} ].
Definition coffee_day : DateBucket :=
  a_day [ {| name := str "Foyer"; talks := Some [coffee] |};
          {| name := str "Main Hall"; talks := Some [opening 30] |} ].
Definition empty_day : DateBucket :=
  a_day [ {| name := str "Main Hall"; talks := Some [] |} ].

(** A public exporter, an exporter for organisers only, and requests for
    them; [unquote], [sha1] and [safe_filename] are stood in for by the
    identity where an example needs them. *)
Definition json_exporter : ExporterView.Exporter (Schedule := unit) :=
  {| ExporterView.identifier := str "schedule.json";
     ExporterView.public := true;
     ExporterView.cors := Some (str "*");
     ExporterView.render := fun _ _ =>
       Some (str "schedule.json", str "application/json", str "{}") |}.

Definition speaker_exporter : ExporterView.Exporter (Schedule := unit) :=
  {| ExporterView.identifier := str "speakers.csv";
     ExporterView.public := false;
     ExporterView.cors := None;
     ExporterView.render := fun _ _ =>
       Some (str "speakers.csv", str "text/plain", str "name") |}.

Definition export_request (name_ : pystr) (orga : bool)
    : ExporterView.Request (Schedule := unit) :=
  {| ExporterView.url_name := str "export";
     ExporterView.url_kwargs_name := Some name_;
     ExporterView.GET_exporter := None;
     ExporterView.GET_lang := None;
     ExporterView.is_orga := Some orga;
     ExporterView.if_none_match := None;
     ExporterView.event_locales := [str "en"; str "de"];
     ExporterView.event_locale := str "en";
     ExporterView.exporters := [speaker_exporter; json_exporter];
     ExporterView.schedule := tt |}.

(** A request of [curl], and one that asks for plain text with a quality
    value *)
Definition curl_view : ScheduleView.View :=
  {| ScheduleView.accept := Some (str "*/*");
     ScheduleView.is_html_export := None;
     ScheduleView.schedule_is_wip := true |}.

Definition plain_q_view : ScheduleView.View :=
  {| ScheduleView.accept := Some (str "text/plain;q=0.9");
     ScheduleView.is_html_export := None;
     ScheduleView.schedule_is_wip := true |}.

(** A day from 09:10 to 11:00 in a time zone one hour ahead of UTC *)
Definition bounded_day : DateBucket :=
  {| date_start := new_year;
     first_start := Some (nine + 10); last_end := Some (nine + 120);
     rooms := [ {| name := str "Main Hall";
                   talks := Some [ {| pk := 7; start := nine + 10;
                                      end_ := nine + 40; real_end := nine + 40;
                                      duration := 30; submission := None;
                                      description := str "Welcome";
                                      room_name := str "Main Hall" |} ] |} ] |}.

(** * Properties *)

Example wrap_model_short : wrap_model (str "Opening") 16 = [str "Opening"].
Proof. reflexivity. Qed.

Example wrap_model_two_lines :
  wrap_model (str "The quick brown fox") 10 = [str "The quick"; str "brown fox"].
Proof. reflexivity. Qed.

Example wrap_model_long_word :
  wrap_model (str "ab abcdefghij") 5 = [str "ab ab"; str "cdefg"; str "hij"].
Proof. reflexivity. Qed.

(** ** Strings and slices *)

Lemma len_nonneg {A} (l : list A) : 0 <= len l.
Proof. unfold len. lia. Qed.

Lemma len_app {A} (l k : list A) : len (l ++ k) = len l + len k.
Proof. unfold len. rewrite length_app. lia. Qed.

Lemma len_singleton {A} (x : A) : len [x] = 1.
Proof. reflexivity. Qed.

Lemma len_cons {A} (x : A) (l : list A) : len (x :: l) = 1 + len l.
Proof. unfold len. simpl length. lia. Qed.

Lemma len_str_mul_char (c : char) (n : Z) : len (str_mul [c] n) = Z.max 0 n.
Proof.
  unfold str_mul, len.
  induction (Z.to_nat n) as [|k IH] eqn:E in n |- *.
  - simpl. lia.
  - simpl. specialize (IH (n - 1) ltac:(lia)). lia.
Qed.

Lemma slice_to_nonneg {A} (l : list A) (k : Z) :
  0 <= k -> slice_to l k = take (Z.to_nat k) l.
Proof. intros Hk. unfold slice_to. destruct (Z.leb_spec 0 k); [done | lia]. Qed.

Lemma slice_to_neg {A} (l : list A) (k : Z) :
  k < 0 -> slice_to l k = take (Z.to_nat (len l + k)) l.
Proof. intros Hk. unfold slice_to. destruct (Z.leb_spec 0 k); [lia | done]. Qed.

Lemma len_take {A} (l : list A) (n : nat) : len (take n l) = Z.min (Z.of_nat n) (len l).
Proof. unfold len. rewrite length_take. lia. Qed.

Lemma len_slice_to_le {A} (l : list A) (k : Z) : 0 <= k -> len (slice_to l k) <= k.
Proof. intros Hk. rewrite slice_to_nonneg, len_take by done. lia. Qed.

(** ** The cut of the speaker names *)

Lemma truncate_short (s : pystr) (cutoff : Z) :
  len s <= cutoff -> truncate s cutoff = s.
Proof. intros H. unfold truncate. destruct (Z.gtb_spec (len s) cutoff); [lia | done]. Qed.

Lemma truncate_long (s : pystr) (cutoff : Z) :
  cutoff < len s -> truncate s cutoff = slice_to s (cutoff - 1) ++ [ELLIPSIS].
Proof. intros H. unfold truncate. destruct (Z.gtb_spec (len s) cutoff); [done | lia]. Qed.

Lemma len_truncate_long (s : pystr) (cutoff : Z) :
  1 <= cutoff -> cutoff < len s -> len (truncate s cutoff) = cutoff.
Proof.
  intros H1 H2. rewrite truncate_long, len_app, slice_to_nonneg, len_take by lia.
  rewrite len_singleton. lia.
Qed.

Lemma len_truncate_le (s : pystr) (cutoff : Z) :
  1 <= cutoff -> len (truncate s cutoff) <= cutoff.
Proof.
  intros H. destruct (Z.le_gt_cases (len s) cutoff).
  - rewrite truncate_short; done.
  - rewrite len_truncate_long; lia.
Qed.

(** C9, as amended.  Cutting twice with the same limit is cutting once, for
    every string and every limit that is not negative: with a limit of at
    least one the cut string has exactly [limit] characters, and with the
    limit zero the second cut replaces the ellipsis by itself. *)
Theorem truncate_idempotent (s : pystr) (limit : Z) :
  0 <= limit -> truncate (truncate s limit) limit = truncate s limit.
Proof.
  intros Hlimit. destruct (Z.le_gt_cases (len s) limit) as [Hs|Hs].
  - rewrite (truncate_short s) by done. by apply truncate_short.
  - destruct (Z.eq_dec limit 0) as [->|Hne].
    + rewrite (truncate_long s) by done.
      rewrite truncate_long by (rewrite len_app, len_singleton;
        pose proof (len_nonneg (slice_to s (0 - 1))); lia).
      f_equal. rewrite !slice_to_neg by lia.
      rewrite len_app, len_take, len_singleton.
      rewrite take_app_le by (rewrite length_take; unfold len in *; lia).
      rewrite take_take. f_equal. unfold len in *. lia.
    + apply truncate_short. rewrite len_truncate_long; lia.
Qed.

Lemma truncate_idempotent_witness :
  truncate (truncate (str "Ada Lovelace") 8) 8 = truncate (str "Ada Lovelace") 8.
Proof. apply truncate_idempotent. lia. Defined.

(** C9, the claim as stated fails for a negative limit, which [_card]
    computes as [text_width - 4] at column width 7: the first cut of "abc"
    with limit -1 keeps "a" and the ellipsis, the second keeps the ellipsis
    only. *)
Lemma truncate_not_idempotent_negative :
  truncate (str "abc") (-1) = str "a" ++ [ELLIPSIS]
  /\ truncate (truncate (str "abc") (-1)) (-1) = [ELLIPSIS]
  /\ truncate (truncate (str "abc") (-1)) (-1) <> truncate (str "abc") (-1).
Proof.
  split; [reflexivity | split; [reflexivity |]].
  intros H. vm_compute in H. discriminate H.
Qed.

(** ** The border between two rooms *)

Section Borders.
Context (get_separator : bool -> bool -> bool -> bool -> pystr) (UD : pystr).

(** C5.  Whatever the glyph table is: when the left room is running and the
    right room starts or ends a talk, the border is the left T; when that is
    not the case, the right room is running and the left room starts or ends
    a talk, it is the right T.  Both hold whether or not any of the four
    start and end flags is set, so the table is never consulted there. *)
Theorem get_line_parts_running_overrides
    (start1 start2 end1 end2 run1 run2 : option Talk) (fill_char : pystr) :
  (is_Some run1 /\ (is_Some start2 \/ is_Some end2) ->
     _get_line_parts get_separator UD start1 start2 end1 end2 run1 run2 fill_char
     = [[T_LEFT]])
  /\ (~ (is_Some run1 /\ (is_Some start2 \/ is_Some end2)) ->
      is_Some run2 /\ (is_Some start1 \/ is_Some end1) ->
      _get_line_parts get_separator UD start1 start2 end1 end2 run1 run2 fill_char
      = [[T_RIGHT]]).
Proof.
  split.
  - intros [Hrun H].
    destruct run1 as [r1|]; [| by destruct Hrun].
    destruct start2 as [s2|]; [reflexivity |].
    destruct end2 as [e2|]; [reflexivity |].
    destruct H as [[x Hx]|[x Hx]]; discriminate Hx.
  - intros Hnot [Hrun H].
    destruct run2 as [r2|]; [| by destruct Hrun].
    assert (Hleft : truthy run1 && (truthy start2 || truthy end2) = false).
    { destruct (truthy run1 && _) eqn:E; [| done].
      exfalso. apply Hnot. apply andb_prop in E as [E1 E2].
      apply bool_decide_eq_true_1 in E1. split; [done |].
      apply orb_prop in E2 as [E2|E2]; apply bool_decide_eq_true_1 in E2; auto. }
    unfold _get_line_parts. rewrite Hleft.
    destruct start1 as [s1|]; [reflexivity |].
    destruct end1 as [e1|]; [reflexivity |].
    destruct H as [[x Hx]|[x Hx]]; discriminate Hx.
Qed.

End Borders.

Lemma get_line_parts_running_overrides_witness :
  _get_line_parts ascii_separator ascii_UD None (Some zebra) None None
    (Some alpha) None (str " ") = [[T_LEFT]]
  /\ _get_line_parts ascii_separator ascii_UD None None (Some zebra) None
       None (Some alpha) (str " ") = [[T_RIGHT]].
Proof.
  split.
  - apply (get_line_parts_running_overrides ascii_separator ascii_UD).
    split; [by eexists | left; by eexists].
  - apply (get_line_parts_running_overrides ascii_separator ascii_UD).
    + intros [[x Hx] _]. discriminate Hx.
    + split; [by eexists | right; by eexists].
Defined.

(** ** The format switch *)

(** C8.  The value "list" of [format] gives the list renderer; every other
    value, "table" and a missing one included, gives the table renderer at
    its default column width. *)
Theorem get_text_format_selection
    (wrap_lines : pystr -> Z -> list pystr)
    (get_separator : bool -> bool -> bool -> bool -> pystr)
    (UD LR no_speakers response_start : pystr)
    (format : option pystr) (data : list DateBucket) :
  (format = Some (str "list") ->
     get_text wrap_lines get_separator UD LR no_speakers response_start format data
     = Ok (response_start ++ _get_text_list no_speakers data))
  /\ (format <> Some (str "list") ->
      get_text wrap_lines get_separator UD LR no_speakers response_start format data
      = (table ← _get_text_table wrap_lines get_separator UD LR data 20;
         Ok (response_start ++ table))).
Proof.
  split.
  - intros ->. reflexivity.
  - intros Hne. unfold get_text.
    set (fmt := default (str "table") format).
    destruct (bool_decide (fmt ∈ [str "list"; str "table"])) eqn:E; simpl.
    + apply bool_decide_eq_true_1 in E.
      assert (fmt <> str "list") as Hfmt.
      { intros Heq. destruct format as [f|]; [| discriminate Heq].
        apply Hne. by f_equal. }
      unfold str_eqb. by rewrite bool_decide_eq_false_2.
    + reflexivity.
Qed.

Lemma get_text_format_selection_witness :
  get_text wrap_model ascii_separator ascii_UD ascii_LR (str "No speakers")
    (str "Schedule") (Some (str "list")) [opening_day]
  = Ok (str "Schedule" ++ _get_text_list (str "No speakers") [opening_day])
  /\ get_text wrap_model ascii_separator ascii_UD ascii_LR (str "No speakers")
       (str "Schedule") (Some (str "json")) [opening_day]
     = (table ← _get_text_table wrap_model ascii_separator ascii_UD ascii_LR
                  [opening_day] 20;
        Ok (str "Schedule" ++ table)).
Proof.
  split.
  - by apply get_text_format_selection.
  - apply get_text_format_selection. discriminate.
Defined.

(** ** The entries of the list *)

Section ListEntries.
Context (no_speakers : pystr).

Lemma text_list_date_talks (date : DateBucket) (l : list Talk) :
  sorted_by Z.ltb start (day_talks date) = l -> l <> [] ->
  text_list_date no_speakers date
  = date_header date ++ mjoin (list_entry no_speakers <$> l).
Proof. intros <- Hl. unfold text_list_date. by destruct (sorted_by _ _ _). Qed.

(** C10.  The entry of a talk with a submission ends with the newline the
    format string carries.  The entry of a break ends with the room name:
    nothing is put after it, so unless the room name itself ends with a
    newline the entry does not; and in the text of a day the bullet of the
    entry that follows a break comes right after the break's room name, on
    the same line. *)
Theorem list_entry_newline (b : Talk) :
  (is_Some (submission b) -> last (list_entry no_speakers b) = Some NEWLINE)
  /\ (submission b = None -> last (room_name b) <> Some NEWLINE ->
      last (list_entry no_speakers b) <> Some NEWLINE)
  /\ (submission b = None ->
      forall (date : DateBucket) (before after : list Talk) (next : Talk),
        sorted_by Z.ltb start (day_talks date) = before ++ b :: next :: after ->
        exists head_ tail_,
          text_list_date no_speakers date
          = head_ ++ (description b ++ str " in " ++ room_name b)
              ++ (str "* " ++ tail_)).
Proof.
  repeat split.
  - intros [sub Hsub]. unfold list_entry. rewrite Hsub.
    rewrite !app_assoc. apply last_snoc.
  - intros Hsub Hroom. unfold list_entry. rewrite Hsub.
    rewrite !last_app. destruct (last (room_name b)) as [c|]; [done |].
    discriminate.
  - intros Hsub date before after next Hsorted.
    exists (date_header date ++ mjoin (list_entry no_speakers <$> before)
            ++ str "* " ++ YELLOW ++ strftime_HM (start b) ++ RESET ++ str " ").
    exists (drop 2 (list_entry no_speakers next)
            ++ mjoin (list_entry no_speakers <$> after)).
    rewrite (text_list_date_talks date (before ++ b :: next :: after))
      by (done || by destruct before).
    rewrite fmap_app, join_app, !fmap_cons. simpl mjoin.
    unfold list_entry at 2. rewrite Hsub.
    replace (list_entry no_speakers next)
      with (str "* " ++ drop 2 (list_entry no_speakers next)) at 1 by done.
    by rewrite <- !app_assoc.
Qed.

End ListEntries.

Lemma list_entry_newline_witness :
  last (list_entry (str "No speakers") (opening 30)) = Some NEWLINE
  /\ last (list_entry (str "No speakers") coffee) <> Some NEWLINE
  /\ exists head_ tail_,
       text_list_date (str "No speakers") coffee_day
       = head_ ++ (description coffee ++ str " in " ++ room_name coffee)
           ++ (str "* " ++ tail_).
Proof.
  pose proof (list_entry_newline (str "No speakers") (opening 30)) as [H1 _].
  pose proof (list_entry_newline (str "No speakers") coffee) as (_ & H2 & H3).
  split; [| split].
  - apply H1. by eexists.
  - apply H2; [reflexivity | discriminate].
  - apply (H3 eq_refl coffee_day [] [] (opening 30)). reflexivity.
Defined.

(** ** The stable sort *)

Section SortingFacts.
Context {A K : Type} (ltb : K -> K -> bool) (key : A -> K).

Lemma insert_sorted_perm (x : A) (l : list A) :
  insert_sorted ltb key x l ≡ₚ x :: l.
Proof.
  induction l as [|y l IH]; simpl; [done |].
  destruct (ltb (key y) (key x)); [| done].
  rewrite IH. apply Permutation_swap.
Qed.

Lemma sorted_by_perm (l : list A) : sorted_by ltb key l ≡ₚ l.
Proof.
  induction l as [|x l IH]; simpl; [done |].
  by rewrite insert_sorted_perm, IH.
Qed.

Hypothesis ltb_asym : forall a b, ltb a b = true -> ltb b a = false.

Lemma insert_sorted_sorted (x : A) (l : list A) :
  Sorted (ascending ltb key) l ->
  Sorted (ascending ltb key) (insert_sorted ltb key x l).
Proof.
  induction l as [|y l IH]; intros Hl; simpl.
  - repeat constructor.
  - destruct (ltb (key y) (key x)) eqn:E.
    + apply Sorted_inv in Hl as [Hl Hhd]. constructor; [by apply IH |].
      destruct l as [|z l]; simpl.
      * constructor. by apply ltb_asym.
      * destruct (ltb (key z) (key x)).
        -- constructor. by apply HdRel_inv in Hhd.
        -- constructor. by apply ltb_asym.
    + constructor; [done |]. by constructor.
Qed.

Lemma sorted_by_sorted (l : list A) :
  Sorted (ascending ltb key) (sorted_by ltb key l).
Proof.
  induction l as [|x l IH]; simpl; [constructor |].
  by apply insert_sorted_sorted.
Qed.

(** Stability at its plainest: a list in which no key is smaller than
    another is returned as it is. *)
Lemma sorted_by_ties (l : list A) :
  (forall x y, x ∈ l -> y ∈ l -> ltb (key x) (key y) = false) ->
  sorted_by ltb key l = l.
Proof.
  induction l as [|x l IH]; intros Hties; simpl; [done |].
  rewrite IH by (intros; apply Hties; by right).
  destruct l as [|y l]; simpl; [done |].
  rewrite Hties; [done | right; left | left].
Qed.

End SortingFacts.

Lemma Z_ltb_asym (a b : Z) : (a <? b) = true -> (b <? a) = false.
Proof. lia. Qed.

Lemma str_ltb_asym (a b : pystr) : str_ltb a b = true -> str_ltb b a = false.
Proof.
  revert b. induction a as [|x a IH]; intros [|y b]; simpl; try done.
  destruct (N.ltb_spec x y), (N.ltb_spec y x); try done; try lia.
  apply IH.
Qed.

Lemma list_key_ltb_asym (a b : Z * pystr) :
  list_key_ltb a b = true -> list_key_ltb b a = false.
Proof.
  unfold list_key_ltb. destruct a as [a1 a2], b as [b1 b2]; simpl.
  destruct (Z.eqb_spec a1 b1), (Z.eqb_spec b1 a1); try lia.
  apply str_ltb_asym.
Qed.

(** The talks of the list view are the day's talks, in ascending order of
    the pair of start and title. *)
Lemma get_schedule_data_list_sorted (data : list DateBucket) :
  Forall2 (fun date out =>
             dt_talks out ≡ₚ day_talks date
             /\ Sorted (ascending list_key_ltb list_key) (dt_talks out))
    data (get_schedule_data_list data).
Proof.
  unfold get_schedule_data_list. induction data as [|date data IH]; simpl.
  - constructor.
  - constructor; [| done]. simpl. split.
    + apply sorted_by_perm.
    + apply sorted_by_sorted, list_key_ltb_asym.
Qed.

(** The talks of the text list are in ascending order of start alone, and
    talks that start together keep the order of the rooms. *)
Lemma text_list_order_by_start (date : DateBucket) :
  sorted_by Z.ltb start (day_talks date) ≡ₚ day_talks date
  /\ Sorted (ascending Z.ltb start) (sorted_by Z.ltb start (day_talks date))
  /\ ((forall x y, x ∈ day_talks date -> y ∈ day_talks date -> start x = start y) ->
      sorted_by Z.ltb start (day_talks date) = day_talks date).
Proof.
  split; [apply sorted_by_perm | split].
  - apply sorted_by_sorted, Z_ltb_asym.
  - intros Hsame. apply sorted_by_ties. intros x y Hx Hy.
    rewrite (Hsame x y Hx Hy). lia.
Qed.

(** C3, on the code.  Two talks at 09:00, "Zebra" in the first room and
    "Alpha" in the second: the text list prints "Zebra" first, because
    [_get_text_list] sorts by [start] alone; the list view data of
    [get_schedule_data_list], which sorts by the pair, has "Alpha" first. *)
Theorem text_list_ties_keep_room_order :
  start zebra = start alpha
  /\ _get_text_list (str "No speakers") [zebra_alpha_day]
     = date_header zebra_alpha_day
         ++ list_entry (str "No speakers") zebra
         ++ list_entry (str "No speakers") alpha
  /\ dt_talks <$> get_schedule_data_list [zebra_alpha_day] = [[alpha; zebra]].
Proof. repeat split. Qed.

(** ** A day without talks *)

Section EmptyDay.
Context (wrap_lines : pystr -> Z -> list pystr).
Context (get_separator : bool -> bool -> bool -> bool -> pystr).
Context (UD LR no_speakers : pystr).

Lemma get_text_list_fold (data : list DateBucket) (acc : pystr) :
  foldl (fun result date => result ++ text_list_date no_speakers date) acc data
  = acc ++ mjoin (text_list_date no_speakers <$> data).
Proof.
  revert acc. induction data as [|date data IH]; intros acc; simpl.
  - by rewrite app_nil_r.
  - by rewrite IH, app_assoc.
Qed.

Lemma get_text_list_join (data : list DateBucket) :
  _get_text_list no_speakers data = mjoin (text_list_date no_speakers <$> data).
Proof. apply (get_text_list_fold data []). Qed.

Lemma sorted_by_start_nil (date : DateBucket) :
  day_talks date = [] -> sorted_by Z.ltb start (day_talks date) = [].
Proof. by intros ->. Qed.

(** C4, as amended.  For a day without talks the table renderer returns
    the date header followed by the line "No talks on this day." and goes on
    with the days that follow; the list renderer adds nothing for such a
    day, neither header nor message.  Neither raises. *)
Theorem empty_day_rendering (date : DateBucket) (col_width : Z) :
  day_talks date = [] ->
  text_table_date wrap_lines get_separator UD LR date col_width
  = Ok (date_header date ++ str "No talks on this day." ++ [NEWLINE])
  /\ (forall (after : list DateBucket) (acc : pystr),
        text_table_loop wrap_lines get_separator UD LR (date :: after) col_width acc
        = text_table_loop wrap_lines get_separator UD LR after col_width
            (acc ++ date_header date ++ str "No talks on this day." ++ [NEWLINE]))
  /\ text_list_date no_speakers date = []
  /\ (forall before after : list DateBucket,
        _get_text_list no_speakers (before ++ date :: after)
        = _get_text_list no_speakers (before ++ after)).
Proof.
  intros Hempty.
  assert (Htable : text_table_date wrap_lines get_separator UD LR date col_width
    = Ok (date_header date ++ str "No talks on this day." ++ [NEWLINE])).
  { unfold text_table_date, _get_table_for_date.
    by rewrite sorted_by_start_nil. }
  assert (Hlist : text_list_date no_speakers date = []).
  { unfold text_list_date. by rewrite sorted_by_start_nil. }
  repeat split; [done | | done |].
  - intros after acc. simpl. by rewrite Htable.
  - intros before after. rewrite !get_text_list_join, !fmap_app, fmap_cons.
    rewrite !join_app. simpl. by rewrite Hlist.
Qed.

End EmptyDay.

Lemma empty_day_rendering_witness :
  text_table_date wrap_model ascii_separator ascii_UD ascii_LR empty_day 20
  = Ok (date_header empty_day ++ str "No talks on this day." ++ [NEWLINE])
  /\ text_list_date (str "No speakers") empty_day = [].
Proof.
  pose proof (empty_day_rendering wrap_model ascii_separator ascii_UD ascii_LR
                (str "No speakers") empty_day 20 eq_refl) as (H1 & _ & H2 & _).
  by split.
Defined.

(** C4, the claim as stated fails for the list format: a day without talks
    renders as the empty string there, without the message. *)
Lemma text_list_skips_empty_day :
  day_talks empty_day = []
  /\ _get_text_list (str "No speakers") [empty_day] = []
  /\ _get_text_table wrap_model ascii_separator ascii_UD ascii_LR [empty_day] 20
     = Ok ([NEWLINE] ++ YELLOW ++ str "2020-01-01" ++ RESET ++ [NEWLINE]
           ++ str "No talks on this day." ++ [NEWLINE]).
Proof. repeat split. Qed.

(** ** The header row *)

Lemma format_ljust_ok (s : pystr) (width : Z) :
  0 <= width ->
  format_ljust s width = Ok (s ++ str_mul (str " ") (width - len s)).
Proof. intros H. unfold format_ljust. destruct (Z.ltb_spec width 0); [lia | done]. Qed.

Lemma len_ljust (s : pystr) (width : Z) :
  len (s ++ str_mul (str " ") (width - len s)) = Z.max (len s) width.
Proof. rewrite len_app. change (str " ") with [SPACE]. rewrite len_str_mul_char. lia. Qed.

(** C7, as amended.  The header row is a gutter of eight blanks, then
    "| ", then the room cells joined by " | ".  A cell is the room name
    followed by blanks up to [col_width - 2] characters; the name is never
    cut, so a cell has [max (len room) (col_width - 2)] characters. *)
Theorem header_line_pads_only (rooms : list pystr) (col_width : Z) :
  2 <= col_width ->
  exists cells,
    header_line rooms col_width
    = Ok (str_mul (str " ") 8 ++ str "| " ++ str_join (str " | ") cells)
    /\ Forall2 (fun room cell =>
                  cell = room ++ str_mul (str " ") (col_width - 2 - len room)
                  /\ len cell = Z.max (len room) (col_width - 2))
         rooms cells.
Proof.
  intros Hw. unfold header_line.
  assert (exists cells,
    result_map (fun room => format_ljust room (col_width - 2)) rooms = Ok cells
    /\ Forall2 (fun room cell =>
                  cell = room ++ str_mul (str " ") (col_width - 2 - len room)
                  /\ len cell = Z.max (len room) (col_width - 2))
         rooms cells) as (cells & -> & Hcells).
  { induction rooms as [|room rooms (cells & IH & Hcells)]; simpl.
    - by exists [].
    - rewrite format_ljust_ok by lia. simpl. rewrite IH. simpl.
      eexists; split; [done |]. constructor; [| done].
      split; [done | apply len_ljust]. }
  exists cells. split; [vm_compute; reflexivity | done].
Qed.

Lemma header_line_pads_only_witness :
  exists cells,
    header_line [str "Main Hall"; str "Side Room"] 20
    = Ok (str_mul (str " ") 8 ++ str "| " ++ str_join (str " | ") cells)
    /\ Forall2 (fun room cell =>
                  cell = room ++ str_mul (str " ") (20 - 2 - len room)
                  /\ len cell = Z.max (len room) (20 - 2))
         [str "Main Hall"; str "Side Room"] cells.
Proof. apply header_line_pads_only. lia. Defined.

(** C7, the claim as stated fails: at column width 8 the header cell of the
    room "Main Hall" has the nine characters of the name, not six. *)
Lemma header_line_long_room_name :
  header_line [str "Main Hall"] 8 = Ok (str "        | Main Hall")
  /\ len (str "Main Hall") = 9
  /\ exists rows,
       _get_table_for_date wrap_model ascii_separator ascii_UD ascii_LR opening_day 8
       = Ok (Some (str "        | Main Hall" ++ [NEWLINE] ++ rows)).
Proof. repeat split. eexists. vm_compute. reflexivity. Qed.

(** ** Generators *)

Lemma result_bind_ok {A B} (a : A) (f : A -> result B) : Ok a ≫= f = f a.
Proof. reflexivity. Qed.

Lemma gen_bind_ok {A B} (lines : list pystr) (a : A) (f : A -> Gen B) :
  MkGen lines (Ok a) ≫= f = MkGen (lines ++ yielded (f a)) (outcome (f a)).
Proof. reflexivity. Qed.

Lemma gen_bind_raise {A B} (lines : list pystr) (e : exn) (f : A -> Gen B) :
  MkGen lines (Raise e) ≫= f = MkGen lines (Raise e).
Proof. reflexivity. Qed.

Lemma gen_eta {A} (g : Gen A) : MkGen (yielded g) (outcome g) = g.
Proof. by destruct g. Qed.

Lemma yielded_bind_prefix {A B} (m : Gen A) (f : A -> Gen B) :
  exists rest, yielded (m ≫= f) = yielded m ++ rest.
Proof.
  destruct m as [lines [a|e]].
  - rewrite gen_bind_ok. by eexists.
  - rewrite gen_bind_raise. exists []. by rewrite app_nil_r.
Qed.

Lemma gen_bind_lift_ok {A B} (a : A) (f : A -> Gen B) :
  lift_result (Ok a) ≫= f = f a.
Proof. unfold lift_result. rewrite gen_bind_ok. by destruct (f a). Qed.

Lemma gen_bind_lift_raise {A B} (e : exn) (f : A -> Gen B) :
  lift_result (Raise e) ≫= f = MkGen [] (Raise e).
Proof. reflexivity. Qed.

Lemma gen_bind_yield {B} (line : pystr) (f : unit -> Gen B) :
  yield_ line ≫= f = MkGen (line :: yielded (f tt)) (outcome (f tt)).
Proof. reflexivity. Qed.

Lemma gen_bind_ret {A B} (a : A) (f : A -> Gen B) : mret a ≫= f = f a.
Proof. apply (gen_bind_lift_ok a f). Qed.

(** The optional blank line with its count *)
Lemma gen_bind_optional {B} (b : bool) (line : pystr) (y : Z) (f : Z -> Gen B) :
  (if b then yield_ line;; mret (y + 1) else mret y) ≫= f
  = MkGen ((if b then [line] else []) ++ yielded (f (y + (if b then 1 else 0))))
      (outcome (f (y + (if b then 1 else 0)))).
Proof.
  destruct b; [reflexivity |].
  rewrite gen_bind_ret, Z.add_0_r. by destruct (f y).
Qed.

Lemma title_line_ok (text_width : Z) (line : pystr) :
  0 <= text_width -> title_line text_width line = Ok (title_cell text_width line).
Proof. intros H. unfold title_line. by rewrite format_ljust_ok. Qed.

Lemma yield_titlelines_ok (text_width : Z) (titlelines : list pystr) (y : Z) :
  0 <= text_width ->
  yield_titlelines text_width titlelines y
  = MkGen (title_cell text_width <$> titlelines) (Ok (y + len titlelines)).
Proof.
  intros H. revert y. induction titlelines as [|line rest IH]; intros y.
  - cbn [yield_titlelines]. by rewrite Z.add_0_r.
  - cbn [yield_titlelines]. rewrite title_line_ok, gen_bind_lift_ok by done.
    rewrite gen_bind_yield, IH. cbn [yielded outcome fmap list_fmap].
    rewrite len_cons. do 2 f_equal. lia.
Qed.

(** ** The title lines of a card *)

Lemma max_title_lines_pos (height : Z) : 1 <= max_title_lines height.
Proof. unfold max_title_lines. destruct (Z.leb_spec height 5); lia. Qed.

Lemma last_take_succ {A} (l : list A) (n : nat) :
  (n < length l)%nat -> last (take (S n) l) = l !! n.
Proof.
  intros Hn. destruct (lookup_lt_is_Some_2 l n Hn) as [x Hx].
  by rewrite (take_S_r l n x), last_snoc.
Qed.

Lemma removelast_take_succ {A} (l : list A) (n : nat) :
  (n < length l)%nat -> removelast (take (S n) l) = take n l.
Proof.
  intros Hn. destruct (lookup_lt_is_Some_2 l n Hn) as [x Hx].
  by rewrite (take_S_r l n x), removelast_last.
Qed.

Section CardTitle.
Context (wrap_lines : pystr -> Z -> list pystr).

(** What [card_titlelines] returns once the width leaves room for text. *)
Lemma card_titlelines_kept (talk : Talk) (col_width : Z) :
  4 < col_width ->
  let text_width := col_width - 4 in
  let wrapped := wrap_lines (card_text talk) text_width in
  let limit := max_title_lines (card_height talk) in
  exists kept,
    card_titlelines wrap_lines talk col_width = Ok kept
    /\ len kept <= limit
    /\ (len wrapped <= limit -> kept = wrapped)
    /\ (limit < len wrapped ->
        exists last_kept,
          wrapped !! (Z.to_nat limit - 1)%nat = Some last_kept
          /\ kept
             = take (Z.to_nat limit - 1) wrapped
               ++ [take (Z.to_nat (text_width - 1))
                     (last_kept ++ str " "
                      ++ str_join (str " ") (drop (Z.to_nat limit) wrapped))
                   ++ [ELLIPSIS]]).
Proof.
  intros Hw text_width wrapped limit.
  assert (Hlimit : 1 <= limit) by apply max_title_lines_pos.
  unfold card_titlelines, textwrap_wrap.
  destruct (Z.leb_spec (col_width - 4) 0) as [|_]; [lia |].
  rewrite result_bind_ok. fold text_width wrapped limit.
  destruct (Z.gtb_spec (len wrapped) limit) as [Hlong|Hshort].
  - rewrite !slice_to_nonneg by lia.
    unfold slice_from. destruct (Z.leb_spec 0 limit) as [_|]; [| lia].
    assert (Hlen : len (take (Z.to_nat limit) wrapped) <= limit)
      by (rewrite len_take; lia).
    destruct (Z.to_nat limit) as [|n] eqn:En; [lia |].
    replace (S n - 1)%nat with n by lia.
    assert (Hn : (n < length wrapped)%nat) by (unfold len in Hlong; lia).
    destruct (lookup_lt_is_Some_2 wrapped _ Hn) as [last_kept Hlast].
    unfold list_last_item.
    rewrite last_take_succ, Hlast, result_bind_ok by done.
    unfold list_set_last.
    destruct (take (S n) wrapped) as [|x0 l0] eqn:Etake.
    { apply (f_equal length) in Etake. rewrite length_take in Etake.
      cbn [length] in Etake. lia. }
    rewrite <- Etake, removelast_take_succ by done.
    eexists. split; [reflexivity |]. split; [| split].
    + rewrite len_app, len_take, len_singleton. lia.
    + lia.
    + intros _. exists last_kept. split; [done |].
      by rewrite slice_to_nonneg by (unfold text_width; lia).
  - exists wrapped. split; [done |]. split; [lia |]. split; [done | lia].
Qed.

(** C6.  At most [max_title_lines] title lines are kept, where
    [max_title_lines] is 1 up to height 5 and [height - 4] above.  When
    the wrapped title has more lines, the first [max_title_lines] are kept,
    the others are joined with blanks to the last kept one, which is cut to
    [text_width - 1] characters and gets one ellipsis; otherwise the wrapped
    title is kept as it is.  The kept lines are the title lines the card
    yields, after its top margin. *)
Theorem card_title_truncation (talk : Talk) (col_width : Z) :
  4 < col_width ->
  let text_width := col_width - 4 in
  let wrapped := wrap_lines (card_text talk) text_width in
  let height := card_height talk in
  let limit := if height <=? 5 then 1 else height - 4 in
  exists kept,
    card_titlelines wrap_lines talk col_width = Ok kept
    /\ len kept <= limit
    /\ (len wrapped <= limit -> kept = wrapped)
    /\ (limit < len wrapped ->
        exists last_kept,
          wrapped !! (Z.to_nat limit - 1)%nat = Some last_kept
          /\ kept
             = take (Z.to_nat limit - 1) wrapped
               ++ [take (Z.to_nat (text_width - 1))
                     (last_kept ++ str " "
                      ++ str_join (str " ") (drop (Z.to_nat limit) wrapped))
                   ++ [ELLIPSIS]])
    /\ exists rest,
         yielded (_card wrap_lines talk col_width)
         = (if height >? 4 then [str_mul (str " ") col_width] else [])
           ++ (title_cell text_width <$> kept) ++ rest.
Proof.
  intros Hw text_width wrapped height limit.
  destruct (card_titlelines_kept talk col_width Hw)
    as (kept & Hcard & Hlen & Hsame & Hcut).
  exists kept. do 4 (split; [done |]).
  unfold _card. rewrite Hcard, gen_bind_lift_ok. cbn zeta.
  rewrite gen_bind_optional. cbn [yielded].
  rewrite yield_titlelines_ok by lia. rewrite gen_bind_ok. cbn [yielded].
  fold height text_width. by eexists.
Qed.

End CardTitle.

Lemma card_title_truncation_witness :
  exists kept,
    card_titlelines wrap_model keynote 20 = Ok kept
    /\ len kept <= 1
    /\ kept = [str "The quick brown" ++ [ELLIPSIS]].
Proof.
  destruct (card_title_truncation wrap_model keynote 20 ltac:(lia))
    as (kept & Hcard & Hlen & _ & Hcut & _).
  exists kept. split; [exact Hcard |]. split; [exact Hlen |].
  destruct (Hcut ltac:(vm_compute; reflexivity)) as (last_kept & Hlast & ->).
  vm_compute in Hlast. injection Hlast as <-. reflexivity.
Defined.

(** ** The closed form of a card *)

Section CardLayout.
Context (wrap_lines : pystr -> Z -> list pystr).

Lemma len_fmap {A B} (f : A -> B) (l : list A) : len (f <$> l) = len l.
Proof. unfold len. by rewrite length_fmap. Qed.

Lemma len_replicate {A} (n : nat) (x : A) : len (replicate n x) = Z.of_nat n.
Proof. unfold len. by rewrite length_replicate. Qed.

Lemma app_assoc_4 {A} (a b c d e : list A) :
  a ++ b ++ c ++ d ++ e = (a ++ b ++ c ++ d) ++ e.
Proof. by rewrite <- !app_assoc. Qed.

Lemma len_optional {A} (b : bool) (x : A) :
  len (if b then [x] else []) = if b then 1 else 0.
Proof. by destruct b. Qed.

Lemma card_closed_form (talk : Talk) (col_width : Z) (kept : list pystr) :
  8 <= col_width ->
  card_titlelines wrap_lines talk col_width = Ok kept ->
  _card wrap_lines talk col_width
  = MkGen (card_layout talk col_width kept) (Ok tt).
Proof.
  intros Hw Hcard. unfold _card. rewrite Hcard, gen_bind_lift_ok. cbn zeta.
  rewrite gen_bind_optional, yield_titlelines_ok, gen_bind_ok by lia.
  cbn [yielded outcome]. rewrite gen_bind_optional. cbn [yielded outcome].
  unfold card_layout, card_content. fold (blank_line col_width).
  set (height := card_height talk).
  set (hat := height - len kept).
  set (top := height >? 4). set (mid := hat >? 2).
  set (y0 := 0 + (if top then 1 else 0) + len kept + (if mid then 1 else 0)).
  match goal with
  | |- context [yielded (?m ≫= ?k)] =>
      assert (m = MkGen (card_speaker_lines talk col_width hat)
                    (Ok (y0 + len (card_speaker_lines talk col_width hat))))
        as ->
  end.
  { unfold card_speaker_lines. destruct (submission talk) as [sub|] eqn:Esub.
    - rewrite bool_decide_eq_true_2, andb_true_r by eauto. cbn zeta.
      destruct (truncate _ _) as [|c speaker] eqn:Etr.
      + reflexivity.
      + destruct (hat <=? 3) eqn:Ejoin.
        * rewrite format_ljust_ok, result_bind_ok by lia.
          unfold submission_of. rewrite Esub, result_bind_ok.
          unfold speaker_locale_line. rewrite format_ljust_ok by lia.
          reflexivity.
        * unfold speaker_line. rewrite format_ljust_ok by lia.
          rewrite result_bind_ok, gen_bind_lift_ok, gen_bind_yield.
          rewrite gen_bind_optional. unfold submission_of. rewrite Esub.
          rewrite gen_bind_lift_ok. cbn [yielded outcome yield_ mbind Gen_bind
            mret Gen_ret app].
          destruct (hat >? 4); f_equal; try reflexivity; f_equal;
            unfold len; cbn [length app]; lia.
    - rewrite bool_decide_eq_false_2, andb_false_r by apply is_Some_None.
      rewrite truncate_short by (unfold len; cbn [length]; lia).
      cbn [mret Gen_ret]. by rewrite Z.add_0_r. }
  rewrite gen_bind_ok. unfold yield_repeat. cbn [yielded outcome].
  rewrite !len_app, len_fmap, !len_optional.
  fold top mid. rewrite app_assoc_4. do 3 f_equal. unfold y0. lia.
Qed.

End CardLayout.

(** ** The height of a card *)

Section CardHeight.
Context (wrap_lines : pystr -> Z -> list pystr).

Lemma len_card_speaker_lines (talk : Talk) (col_width hat : Z) :
  0 <= len (card_speaker_lines talk col_width hat)
  /\ len (card_speaker_lines talk col_width hat)
     <= (if hat <=? 3 then 1 else if hat >? 4 then 3 else 2)
  /\ (submission talk = None -> len (card_speaker_lines talk col_width hat) = 0).
Proof.
  split; [apply len_nonneg |]. unfold card_speaker_lines.
  destruct (submission talk) as [sub|]; [| by destruct (hat <=? 3), (hat >? 4)].
  split; [| done]. cbn zeta.
  destruct (truncate _ _) as [|c speaker];
    destruct (hat <=? 3), (hat >? 4); unfold len; cbn [length app]; lia.
Qed.

(** The lines of a card are as many as the five-minute rows of the talk,
    for every talk of ten minutes or more and for every break of five
    minutes or more. *)
Lemma card_height_invariant (talk : Talk) (col_width : Z) :
  8 <= col_width ->
  10 <= duration talk \/ (5 <= duration talk /\ submission talk = None) ->
  outcome (_card wrap_lines talk col_width) = Ok tt
  /\ len (yielded (_card wrap_lines talk col_width)) = duration talk / 5.
Proof.
  intros Hw Hduration.
  destruct (card_titlelines_kept wrap_lines talk col_width ltac:(lia))
    as (kept & Hcard & Hlen & _).
  rewrite (card_closed_form wrap_lines talk col_width kept Hw Hcard).
  split; [done |]. cbn [yielded]. unfold card_layout.
  rewrite len_app, len_replicate. unfold card_content.
  rewrite !len_app, len_fmap, !len_optional.
  pose proof (len_card_speaker_lines talk col_width
                (card_height talk - len kept)) as (Hs0 & Hs & Hbreak).
  pose proof (len_nonneg kept) as Hkept.
  revert Hlen Hs. unfold max_title_lines, card_height in *.
  set (height := duration talk / 5 - 1) in *.
  assert (Hheight : duration talk / 5 = height + 1) by (unfold height; lia).
  assert (Hh : 1 <= height \/ (0 <= height /\ submission talk = None)).
  { unfold height. destruct Hduration as [H|[H Hsub]].
    - left. assert (2 <= duration talk / 5) by (apply Z.div_le_lower_bound; lia). lia.
    - right. split; [| done].
      assert (1 <= duration talk / 5) by (apply Z.div_le_lower_bound; lia). lia. }
  rewrite Hheight. clearbody height. clear Hheight Hduration.
  generalize dependent (len (card_speaker_lines talk col_width (height - len kept))).
  intros s Hs0 Hbreak.
  destruct (Z.leb_spec height 5), (Z.gtb_spec height 4),
    (Z.gtb_spec (height - len kept) 2), (Z.leb_spec (height - len kept) 3),
    (Z.gtb_spec (height - len kept) 4); intros Hlen Hs;
    try lia; destruct Hh as [Hh|[Hh Hsub]]; try lia;
    specialize (Hbreak Hsub); lia.
Qed.

End CardHeight.

(** C2, on the code.  A five-minute talk with a submission has height 0,
    so its card should have one line; [_card] yields two, the title line
    and the joined speaker and locale line, and the padding loop, asked for
    [0 - 2 + 1] lines, adds none. *)
Theorem card_five_minute_talk_two_lines :
  duration (opening 5) = 5
  /\ duration (opening 5) / 5 = 1
  /\ outcome (_card wrap_model (opening 5) 20) = Ok tt
  /\ len (yielded (_card wrap_model (opening 5) 20)) = 2
  /\ strip_ansi <$> yielded (_card wrap_model (opening 5) 20)
     = [str "  Opening           "; str "  Ada Lovelace  en  "].
Proof. repeat split. Qed.

(** ** The width of a card *)

Lemma strip_ansi_plain_app (s rest : pystr) :
  plain s -> strip_ansi (s ++ rest) = s ++ strip_ansi rest.
Proof.
  unfold strip_ansi. induction 1 as [|c s Hc _ IH]; [done |].
  cbn [app strip_ansi_from]. destruct (N.eqb_spec c ESC); [done |].
  by rewrite IH.
Qed.

Lemma strip_ansi_plain (s : pystr) : plain s -> strip_ansi s = s.
Proof.
  intros H. rewrite <- (app_nil_r s) at 1.
  by rewrite strip_ansi_plain_app, app_nil_r.
Qed.

Lemma strip_ansi_bold (rest : pystr) : strip_ansi (BOLD ++ rest) = strip_ansi rest.
Proof. reflexivity. Qed.
Lemma strip_ansi_yellow (rest : pystr) : strip_ansi (YELLOW ++ rest) = strip_ansi rest.
Proof. reflexivity. Qed.
Lemma strip_ansi_grey (rest : pystr) : strip_ansi (GREY ++ rest) = strip_ansi rest.
Proof. reflexivity. Qed.
Lemma strip_ansi_reset (rest : pystr) : strip_ansi (RESET ++ rest) = strip_ansi rest.
Proof. reflexivity. Qed.

Lemma plain_blanks (n : Z) : plain (str_mul (str " ") n).
Proof.
  unfold plain, str_mul. induction (Z.to_nat n) as [|k IH]; [constructor |].
  cbn [replicate mjoin list_join app]. constructor; [done | apply IH].
Qed.

Lemma plain_app (s t : pystr) : plain s -> plain t -> plain (s ++ t).
Proof. apply Forall_app_2. Qed.

Lemma plain_take (s : pystr) (n : nat) : plain s -> plain (take n s).
Proof. apply Forall_take. Qed.

Lemma plain_padded (s : pystr) (width : Z) : plain s -> plain (padded s width).
Proof. intros H. apply plain_app; [done | apply plain_blanks]. Qed.

Lemma plain_truncate (s : pystr) (cutoff : Z) : plain s -> plain (truncate s cutoff).
Proof.
  intros H. unfold truncate. destruct (len s >? cutoff); [| done].
  apply plain_app; [| by repeat constructor].
  unfold slice_to. destruct (0 <=? cutoff - 1); by apply plain_take.
Qed.

Lemma plain_join (lines : list pystr) :
  Forall plain lines -> plain (str_join (str " ") lines).
Proof.
  induction 1 as [|line lines Hline Hlines IH]; [constructor |].
  destruct lines as [|line' lines]; [done |].
  change (plain (line ++ str " " ++ str_join (str " ") (line' :: lines))).
  apply plain_app; [done |]. apply plain_app; [by repeat constructor | done].
Qed.

Lemma len_padded (s : pystr) (width : Z) :
  len s <= width -> len (padded s width) = width.
Proof. intros H. unfold padded. rewrite len_ljust. lia. Qed.

Lemma visible_width_blank_line (col_width : Z) :
  0 <= col_width -> visible_width (blank_line col_width) = col_width.
Proof.
  intros H. unfold visible_width, blank_line.
  rewrite strip_ansi_plain by apply plain_blanks.
  change (str " ") with [SPACE]. rewrite len_str_mul_char. lia.
Qed.

Lemma visible_width_title_cell (text_width : Z) (line : pystr) :
  plain line -> len line <= text_width ->
  visible_width (title_cell text_width line) = text_width + 4.
Proof.
  intros Hplain Hlen. unfold visible_width, title_cell.
  rewrite (strip_ansi_plain_app (str "  ")) by (by repeat constructor).
  rewrite strip_ansi_bold, strip_ansi_plain_app by by apply plain_padded.
  rewrite strip_ansi_reset, strip_ansi_plain by (by repeat constructor).
  rewrite !len_app, len_padded by done. change (len (str "  ")) with 2. lia.
Qed.

Lemma visible_width_locale_line (text_width : Z) (locale : pystr) :
  2 <= text_width -> plain locale -> len locale = 2 ->
  visible_width (locale_line text_width locale) = text_width + 4.
Proof.
  intros Hw Hplain Hlen. unfold visible_width, locale_line.
  rewrite strip_ansi_plain_app by apply plain_blanks.
  rewrite (strip_ansi_plain_app (str "  ")) by (by repeat constructor).
  rewrite strip_ansi_grey, strip_ansi_plain_app by done.
  rewrite strip_ansi_reset, strip_ansi_plain by (by repeat constructor).
  rewrite !len_app. change (str " ") with [SPACE]. rewrite len_str_mul_char.
  change (len (str "  ")) with 2. lia.
Qed.

Lemma visible_width_speaker_line (text_width : Z) (speaker : pystr) :
  plain speaker -> len speaker <= text_width ->
  visible_width
    (str "  " ++ YELLOW ++ padded speaker text_width ++ RESET ++ str "  ")
  = text_width + 4.
Proof.
  intros Hplain Hlen. unfold visible_width.
  rewrite (strip_ansi_plain_app (str "  ")) by (by repeat constructor).
  rewrite strip_ansi_yellow, strip_ansi_plain_app by by apply plain_padded.
  rewrite strip_ansi_reset, strip_ansi_plain by (by repeat constructor).
  rewrite !len_app, len_padded by done. change (len (str "  ")) with 2. lia.
Qed.

Lemma visible_width_joined_line (text_width : Z) (speaker locale : pystr) :
  plain speaker -> len speaker <= text_width - 4 ->
  plain locale -> len locale = 2 ->
  visible_width
    (str "  " ++ YELLOW ++ padded speaker (text_width - 4) ++ RESET
     ++ str "  " ++ GREY ++ padded locale 2 ++ RESET ++ str "  ")
  = text_width + 4.
Proof.
  intros Hplain Hlen Hlocale Hlen2. unfold visible_width.
  rewrite (strip_ansi_plain_app (str "  ")) by (by repeat constructor).
  rewrite strip_ansi_yellow, strip_ansi_plain_app by by apply plain_padded.
  rewrite strip_ansi_reset.
  rewrite (strip_ansi_plain_app (str "  ")) by (by repeat constructor).
  rewrite strip_ansi_grey, strip_ansi_plain_app by by apply plain_padded.
  rewrite strip_ansi_reset, strip_ansi_plain by (by repeat constructor).
  rewrite !len_app, !len_padded by lia. change (len (str "  ")) with 2. lia.
Qed.

Section CardWidth.
Context (wrap_lines : pystr -> Z -> list pystr).

Lemma kept_lines_fit (talk : Talk) (col_width : Z) (kept : list pystr) :
  4 < col_width ->
  Forall (fun line => len line <= col_width - 4 /\ plain line)
    (wrap_lines (card_text talk) (col_width - 4)) ->
  card_titlelines wrap_lines talk col_width = Ok kept ->
  Forall (fun line => len line <= col_width - 4 /\ plain line) kept.
Proof.
  intros Hw Hwrapped Hcard.
  destruct (card_titlelines_kept wrap_lines talk col_width Hw)
    as (kept' & Hcard' & _ & Hsame & Hcut).
  rewrite Hcard in Hcard'. injection Hcard' as <-.
  set (wrapped := wrap_lines (card_text talk) (col_width - 4)) in *.
  destruct (Z.le_gt_cases (len wrapped) (max_title_lines (card_height talk)))
    as [Hshort|Hlong].
  - by rewrite (Hsame Hshort).
  - destruct (Hcut Hlong) as (last_kept & Hlast & ->).
    apply Forall_app_2; [by apply Forall_take |].
    constructor; [| constructor]. split.
    + rewrite len_app, len_take, len_singleton. lia.
    + apply plain_app; [| by repeat constructor]. apply plain_take.
      apply plain_app.
      { by apply (Forall_lookup_1 _ _ _ _ Hwrapped Hlast). }
      apply plain_app; [by repeat constructor |]. apply plain_join.
      apply Forall_drop. eapply Forall_impl; [exact Hwrapped |].
      by intros line [_ H].
Qed.

(** The lines of a card at their visible width; the properties of the
    width below are instances of this lemma. *)
Lemma card_lines_visible_width (talk : Talk) (col_width : Z) :
  8 <= col_width ->
  (col_width = 8 ->
   forall sub, submission talk = Some sub -> display_speaker_names sub = []) ->
  Forall (fun line => len line <= col_width - 4 /\ plain line)
    (wrap_lines (card_text talk) (col_width - 4)) ->
  (forall sub, submission talk = Some sub ->
     plain (display_speaker_names sub)
     /\ plain (content_locale sub) /\ len (content_locale sub) = 2) ->
  outcome (_card wrap_lines talk col_width) = Ok tt
  /\ Forall (fun line => visible_width line = col_width)
       (yielded (_card wrap_lines talk col_width)).
Proof.
  intros Hw Hnarrow Hwrapped Htexts.
  destruct (card_titlelines_kept wrap_lines talk col_width ltac:(lia))
    as (kept & Hcard & _).
  pose proof (kept_lines_fit talk col_width kept ltac:(lia) Hwrapped Hcard)
    as Hkept.
  rewrite (card_closed_form wrap_lines talk col_width kept Hw Hcard).
  split; [done |]. cbn [yielded].
  assert (Hblank : visible_width (blank_line col_width) = col_width)
    by (apply visible_width_blank_line; lia).
  assert (Hoptional : forall b : bool,
    Forall (fun line => visible_width line = col_width)
      (if b then [blank_line col_width] else [])).
  { intros [|]; by repeat constructor. }
  unfold card_layout, card_content.
  repeat apply Forall_app_2; try apply Hoptional.
  - apply Forall_fmap. eapply Forall_impl; [exact Hkept |].
    intros line [Hlen Hplain].
    change (visible_width (title_cell (col_width - 4) line) = col_width).
    rewrite visible_width_title_cell by done. lia.
  - unfold card_speaker_lines.
    destruct (submission talk) as [sub|] eqn:Esub; [| constructor].
    destruct (Htexts sub eq_refl) as (Hspeaker & Hlocale & Hlen). cbn zeta.
    assert (Hlocale_line :
      visible_width (locale_line (col_width - 4) (content_locale sub)) = col_width)
      by (rewrite visible_width_locale_line by (done || lia); lia).
    destruct (truncate _ _) as [|c speaker] eqn:Etr;
      [by repeat constructor |].
    destruct (card_height talk - len kept <=? 3).
    + constructor; [| constructor]. rewrite <- Etr.
      destruct (Z.eq_dec col_width 8) as [->|Hne].
      { rewrite (Hnarrow eq_refl sub eq_refl) in Etr. discriminate Etr. }
      rewrite visible_width_joined_line; [lia | by apply plain_truncate | | done..].
      apply len_truncate_le. lia.
    + rewrite <- Etr. repeat apply Forall_app_2; try apply Hoptional;
        repeat constructor; [| done].
      rewrite visible_width_speaker_line; [lia | by apply plain_truncate |].
      apply len_truncate_le. lia.
  - apply Forall_replicate. done.
Qed.


(** C1, as amended.  From column width 8 on, every line a card yields
    takes exactly [col_width] character cells once its ANSI styling
    sequences are left out, and the generator ends without an exception.
    This is for a talk whose locale has two characters and whose texts hold
    no escape character, with wrapped title lines of at most [text_width]
    characters, as [textwrap.wrap] returns them; at width 8 itself it is
    stated for talks without speaker names. *)
Theorem card_visible_width (talk : Talk) (col_width : Z) :
  8 <= col_width ->
  (col_width = 8 ->
   forall sub, submission talk = Some sub -> display_speaker_names sub = []) ->
  Forall (fun line => len line <= col_width - 4 /\ plain line)
    (wrap_lines (card_text talk) (col_width - 4)) ->
  (forall sub, submission talk = Some sub ->
     plain (display_speaker_names sub)
     /\ plain (content_locale sub) /\ len (content_locale sub) = 2) ->
  outcome (_card wrap_lines talk col_width) = Ok tt
  /\ Forall (fun line => visible_width line = col_width)
       (yielded (_card wrap_lines talk col_width)).
Proof. apply card_lines_visible_width. Qed.

End CardWidth.

Lemma card_visible_width_witness :
  outcome (_card wrap_model (opening 30) 20) = Ok tt
  /\ Forall (fun line => visible_width line = 20)
       (yielded (_card wrap_model (opening 30) 20)).
Proof.
  apply (card_visible_width wrap_model (opening 30) 20).
  - lia.
  - intros H. discriminate H.
  - vm_compute. repeat constructor; first [lia | discriminate].
  - intros sub Hsub. injection Hsub as <-.
    vm_compute. repeat constructor; discriminate.
Defined.

(** C1, the claim as stated fails: the styled lines are longer than the
    column.  At width 20 the title line of the opening talk has 28
    characters, the 20 a terminal shows and two styling sequences of four. *)
Lemma card_title_line_longer_than_width :
  yielded (_card wrap_model (opening 30) 20) !! 1%nat
  = Some (str "  " ++ BOLD ++ str "Opening         " ++ RESET ++ str "  ")
  /\ len <$> yielded (_card wrap_model (opening 30) 20) = [20; 28; 20; 29; 35; 20]
  /\ ~ Forall (fun line => len line = 20)
         (yielded (_card wrap_model (opening 30) 20)).
Proof.
  split; [reflexivity | split; [reflexivity |]].
  intros H. apply Forall_cons_1 in H as [_ H].
  apply Forall_cons_1 in H as [H _]. vm_compute in H. discriminate H.
Qed.

(** At width 8 the joined line has no room for the speaker: the cut with
    cutoff 0 keeps all characters but the last and adds the ellipsis, and
    the line takes 8 cells more than the speaker's name. *)
Lemma card_width_8_speaker_overflow :
  outcome (_card wrap_model (opening 10) 8) = Ok tt
  /\ strip_ansi <$> yielded (_card wrap_model (opening 10) 8)
     = [str "  Ope" ++ [ELLIPSIS] ++ str "  ";
        str "  Ada Lovelac" ++ [ELLIPSIS] ++ str "  en  "]
  /\ visible_width <$> yielded (_card wrap_model (opening 10) 8) = [8; 20].
Proof. repeat split. Qed.

(** ** The table starts with the header row *)

Section TableHeader.
Context (wrap_lines : pystr -> Z -> list pystr).
Context (get_separator : bool -> bool -> bool -> bool -> pystr).
Context (UD LR : pystr).

Lemma result_bind_inv {A B} (m : result A) (f : A -> result B) (b : B) :
  m ≫= f = Ok b -> exists a, m = Ok a /\ f a = Ok b.
Proof. destruct m as [a|e]; [by exists a | discriminate]. Qed.

Lemma table_rows_extend (tick_times : list Z) (talks_by_room : list (list N * list Talk))
    (room_names : list (list N)) (col_width : Z) (hours : list Z)
    (lines lines' : list (list N)) (cards_by_id : gmap Z (Gen unit)) :
  table_rows get_separator UD LR tick_times talks_by_room room_names
    col_width hours lines cards_by_id = Ok lines' ->
  exists rows, lines' = lines ++ rows /\ length rows = length hours.
Proof.
  revert lines cards_by_id. induction hours as [|hour hours IH];
    intros lines cards_by_id H.
  - injection H as <-. exists []. by rewrite app_nil_r.
  - cbn [table_rows] in H.
    apply result_bind_inv in H as (starting & _ & H).
    apply result_bind_inv in H as (running & _ & H).
    apply result_bind_inv in H as (ending & _ & H).
    apply result_bind_inv in H as ([line cards'] & _ & H).
    apply IH in H as (rows & -> & Hlen).
    exists (line :: rows). split; [by rewrite <- app_assoc |].
    cbn [length]. by rewrite Hlen.
Qed.

(** Whenever a table is returned, its first line is the header row of the
    room names, the keys of [talks_by_room]. *)
Lemma table_starts_with_header (date : DateBucket) (col_width : Z) (table : list N) :
  _get_table_for_date wrap_lines get_separator UD LR date col_width
  = Ok (Some table) ->
  exists talks_by_room header rows,
    talks_by_room_of (rooms date) [] = Ok talks_by_room
    /\ header_line (dict_keys talks_by_room) col_width = Ok header
    /\ table = str_join [NEWLINE] (header :: rows).
Proof.
  unfold _get_table_for_date.
  destruct (sorted_by Z.ltb start (day_talks date)) as [|t ts]; [discriminate |].
  intros H.
  apply result_bind_inv in H as (talks_by_room & Hrooms & H).
  apply result_bind_inv in H as (header & Hheader & H).
  apply result_bind_inv in H as (lines & Hlines & H).
  apply table_rows_extend in Hlines as (rows & -> & _).
  injection H as <-. by exists talks_by_room, header, rows.
Qed.

End TableHeader.

(** The day of the opening talk, 09:00 to 09:30 in one room, at the default
    width, as a terminal shows it: the header, a rule at 09:00, five card
    rows and a rule at 09:30. *)
Example opening_day_table :
  (fun table => strip_ansi table) <$>
    match _get_text_table wrap_model ascii_separator ascii_UD ascii_LR
            [opening_day] 20 with
    | Ok table => Some table
    | Raise _ => None
    end
  = Some (mjoin
      [ [NEWLINE]; str "2020-01-01"; [NEWLINE];
        str "        | Main Hall         "; [NEWLINE];
        str "09:00 --+--------------------+"; [NEWLINE];
        str "        |                    |"; [NEWLINE];
        str "        |  Opening           |"; [NEWLINE];
        str "        |                    |"; [NEWLINE];
        str "        |  Ada Lovelace      |"; [NEWLINE];
        str "        |                en  |"; [NEWLINE];
        str "09:30 --+--------------------+" ]).
Proof. reflexivity. Qed.

(** The same day in the list format. *)
Example opening_day_list :
  strip_ansi (_get_text_list (str "No speakers") [opening_day])
  = mjoin [ [NEWLINE]; str "2020-01-01"; [NEWLINE];
            str "* 09:00 Opening, Ada Lovelace (en); in Main Hall"; [NEWLINE] ].
Proof. reflexivity. Qed.

(** ** The model of [textwrap.wrap] keeps the library's promise

    No line of [wrap_model] is longer than the width, and a text without
    escape characters is wrapped into lines without them: the assumption of
    [card_visible_width] on the wrapped title holds for every title when
    the renderer is run with [wrap_model]. *)

Lemma len_join_app (l k : list pystr) : len (mjoin (l ++ k)) = len (mjoin l) + len (mjoin k).
Proof. by rewrite join_app, len_app. Qed.

Lemma plain_mjoin (l : list pystr) : Forall plain l -> plain (mjoin l).
Proof.
  induction 1 as [|x l Hx _ IH]; [constructor |].
  cbn [mjoin list_join]. by apply plain_app.
Qed.

Lemma plain_munge_whitespace (text : pystr) : plain text -> plain (munge_whitespace text).
Proof.
  unfold plain, munge_whitespace. intros H. apply Forall_fmap.
  eapply Forall_impl; [exact H |]. intros c Hc. cbn.
  destruct (_ && _); [discriminate | done].
Qed.

Lemma plain_split_chunks (text : pystr) : plain text -> Forall plain (split_chunks text).
Proof.
  induction 1 as [|c text Hc Htext IH]; [constructor |].
  cbn [split_chunks]. destruct (split_chunks text) as [|[|d w] chunks].
  - by repeat constructor.
  - constructor; [by repeat constructor | done].
  - apply Forall_cons_1 in IH as [Hdw Hchunks].
    destruct (Bool.eqb _ _).
    + constructor; [by constructor | done].
    + constructor; [by repeat constructor |]. by constructor.
Qed.

Lemma fill_line_fits (width : Z) (chunks cur_line : list pystr) (cur_len : Z)
    (cur_line' chunks' : list pystr) (cur_len' : Z) :
  fill_line width cur_line cur_len chunks = (cur_line', cur_len', chunks') ->
  cur_len = len (mjoin cur_line) -> cur_len <= width ->
  Forall plain cur_line -> Forall plain chunks ->
  cur_len' = len (mjoin cur_line') /\ cur_len' <= width
  /\ Forall plain cur_line' /\ Forall plain chunks'.
Proof.
  revert cur_line cur_len. induction chunks as [|c rest IH];
    intros cur_line cur_len Hfill Hlen Hle Hline Hchunks; cbn [fill_line] in Hfill.
  - by injection Hfill as <- <- <-.
  - destruct (Z.leb_spec (cur_len + len c) width) as [Hfit|Hfull].
    + apply Forall_cons_1 in Hchunks as [Hc Hrest].
      apply IH in Hfill; [done | | done | | done].
      * rewrite len_join_app. cbn [mjoin list_join]. rewrite app_nil_r. lia.
      * apply Forall_app_2; [done | by constructor].
    + by injection Hfill as <- <- <-.
Qed.

Lemma plain_slice_to (s : pystr) (k : Z) : plain s -> plain (slice_to s k).
Proof. intros H. unfold slice_to. destruct (0 <=? k); by apply plain_take. Qed.

Lemma plain_slice_from (s : pystr) (k : Z) : plain s -> plain (slice_from s k).
Proof. intros H. unfold slice_from. destruct (0 <=? k); by apply Forall_drop. Qed.

Lemma drop_trailing_blank_fits (width : Z) (cur_line : list pystr) :
  len (mjoin cur_line) <= width -> Forall plain cur_line ->
  len (mjoin (drop_trailing_blank cur_line)) <= width
  /\ Forall plain (drop_trailing_blank cur_line).
Proof.
  intros Hlen Hplain. unfold drop_trailing_blank.
  destruct (last cur_line) as [c|] eqn:Elast; [| done].
  destruct (chunk_blank c); [| done].
  apply last_Some in Elast as [l' ->]. rewrite removelast_last.
  rewrite len_join_app in Hlen. apply Forall_app in Hplain as [Hl' _].
  pose proof (len_nonneg (mjoin [c])). split; [lia | done].
Qed.

Lemma wrap_chunks_fits (fuel : nat) (width : Z) (lines chunks : list pystr) :
  1 <= width -> Forall (fits width) lines -> Forall plain chunks ->
  Forall (fits width) (wrap_chunks fuel width lines chunks).
Proof.
  intros Hwidth. revert lines chunks.
  induction fuel as [|fuel IH]; intros lines chunks Hlines Hchunks; [done |].
  cbn [wrap_chunks]. destruct chunks as [|c0 rest0]; [done |].
  set (chunks1 := if chunk_blank c0 && negb (bool_decide (lines = []))
                  then rest0 else c0 :: rest0).
  assert (Hchunks1 : Forall plain chunks1).
  { unfold chunks1. destruct (_ && _); [| done].
    by apply Forall_cons_1 in Hchunks as [_ H]. }
  destruct (fill_line width [] 0 chunks1) as [[cur_line cur_len] chunks2] eqn:Efill.
  apply fill_line_fits in Efill as (Hlen & Hle & Hline & Hchunks2);
    [| done | lia | constructor | done].
  set (broken := match chunks2 with
                 | c :: _ =>
                     if len c >? width
                     then handle_long_word chunks2 cur_line cur_len width
                     else (cur_line, chunks2)
                 | [] => (cur_line, chunks2)
                 end).
  assert (Hbroken : len (mjoin broken.1) <= width
                    /\ Forall plain broken.1 /\ Forall plain broken.2).
  { unfold broken. destruct chunks2 as [|c chunks2'];
      [cbn [fst snd]; by rewrite <- Hlen |].
    destruct (len c >? width); [| cbn [fst snd]; by rewrite <- Hlen].
    apply Forall_cons_1 in Hchunks2 as [Hc Hrest].
    cbn [handle_long_word fst snd].
    destruct (Z.ltb_spec width 1) as [|_]; [lia |].
    split; [| split].
    - rewrite len_join_app. cbn [mjoin list_join]. rewrite app_nil_r.
      pose proof (len_slice_to_le c (width - cur_len) ltac:(lia)). lia.
    - apply Forall_app_2; [done |]. constructor; [| done].
      by apply plain_slice_to.
    - constructor; [by apply plain_slice_from | done]. }
  destruct broken as [cur_line1 chunks3]. cbn [fst snd] in Hbroken.
  destruct Hbroken as (Hlen1 & Hline1 & Hchunks3).
  destruct (drop_trailing_blank_fits width cur_line1 Hlen1 Hline1)
    as [Hlen2 Hline2].
  apply IH; [| done].
  destruct (drop_trailing_blank cur_line1) as [|x l] eqn:Edrop; [done |].
  apply Forall_app_2; [done |]. constructor; [| done].
  split; [done | by apply plain_mjoin].
Qed.

Lemma wrap_model_fits (text : pystr) (width : Z) :
  1 <= width -> plain text -> Forall (fits width) (wrap_model text width).
Proof.
  intros Hwidth Hplain. unfold wrap_model.
  apply wrap_chunks_fits; [done | constructor |].
  by apply plain_split_chunks, plain_munge_whitespace.
Qed.

(** With [wrap_model] the width of the card lines needs no assumption on
    the wrapped title. *)
Lemma card_visible_width_wrap_model (talk : Talk) (col_width : Z) :
  9 <= col_width ->
  plain (card_text talk) ->
  (forall sub, submission talk = Some sub ->
     plain (display_speaker_names sub)
     /\ plain (content_locale sub) /\ len (content_locale sub) = 2) ->
  outcome (_card wrap_model talk col_width) = Ok tt
  /\ Forall (fun line => visible_width line = col_width)
       (yielded (_card wrap_model talk col_width)).
Proof.
  intros Hw Htitle Htexts.
  apply card_lines_visible_width; [lia | lia | | done].
  apply (wrap_model_fits (card_text talk) (col_width - 4)); [lia | done].
Qed.

(** * Further properties of the code *)

(** ** Cards at small column widths *)

Section CardErrors.
Context (wrap_lines : pystr -> Z -> list pystr).

(** X1.  At a column width of 4 or less there is no room for text:
    [textwrap.wrap] refuses the width, and the card raises [ValueError] at
    its first [next], before any line, whatever the talk is. *)
Theorem card_no_text_width_raises (talk : Talk) (col_width : Z) :
  col_width <= 4 ->
  _card wrap_lines talk col_width = MkGen [] (Raise ValueError).
Proof.
  intros Hw. unfold _card, card_titlelines, textwrap_wrap.
  destruct (Z.leb_spec (col_width - 4) 0) as [_|]; [| lia].
  reflexivity.
Qed.

Lemma format_ljust_negative (s : pystr) (width : Z) :
  width < 0 -> format_ljust s width = Raise ValueError.
Proof. intros H. unfold format_ljust. destruct (Z.ltb_spec width 0); [done | lia]. Qed.

Lemma result_bind_raise {A B} (e : exn) (f : A -> result B) :
  Raise e ≫= f = Raise e.
Proof. reflexivity. Qed.

Lemma truncate_negative_cons (s : pystr) (cutoff : Z) :
  cutoff < 0 -> exists c rest, truncate s cutoff = c :: rest.
Proof.
  intros H. rewrite truncate_long by (pose proof (len_nonneg s); lia).
  destruct (slice_to s (cutoff - 1)) as [|c rest]; by eexists _, _.
Qed.

(** X2.  At column widths 5, 6 and 7 the joined speaker and locale line
    cannot be formatted, its field width [text_width - 4] being negative.
    A card that uses this line (a talk with a submission whose height after
    the title is at most 3) yields its top margin, title lines and the
    blank line after them and then raises [ValueError]; every other card
    ends without an exception. *)
Theorem card_width_5_to_7 (talk : Talk) (col_width : Z) :
  5 <= col_width <= 7 ->
  exists kept,
    card_titlelines wrap_lines talk col_width = Ok kept
    /\ let height_after_title := card_height talk - len kept in
       let title_part :=
         (if card_height talk >? 4 then [blank_line col_width] else [])
         ++ (title_cell (col_width - 4) <$> kept)
         ++ (if height_after_title >? 2 then [blank_line col_width] else []) in
       if bool_decide (is_Some (submission talk)) && (height_after_title <=? 3)
       then _card wrap_lines talk col_width = MkGen title_part (Raise ValueError)
       else outcome (_card wrap_lines talk col_width) = Ok tt
            /\ exists rest,
                 yielded (_card wrap_lines talk col_width) = title_part ++ rest.
Proof.
  intros Hw.
  destruct (card_titlelines_kept wrap_lines talk col_width ltac:(lia))
    as (kept & Hcard & _).
  exists kept. split; [done |]. cbn zeta.
  unfold _card. rewrite Hcard, gen_bind_lift_ok. cbn zeta.
  rewrite gen_bind_optional, yield_titlelines_ok, gen_bind_ok by lia.
  cbn [yielded outcome]. rewrite gen_bind_optional. cbn [yielded outcome].
  fold (blank_line col_width).
  set (hat := card_height talk - len kept).
  set (y0 := 0 + _ + _ + _).
  destruct (submission talk) as [sub|] eqn:Esub.
  - rewrite bool_decide_eq_true_2 by eauto. rewrite andb_true_r, andb_true_l.
    destruct (hat <=? 3) eqn:Ejoin.
    + destruct (truncate_negative_cons (display_speaker_names sub)
                  (col_width - 4 - 4) ltac:(lia)) as (c & rest & ->).
      rewrite format_ljust_negative, result_bind_raise by lia.
      rewrite gen_bind_lift_raise, gen_bind_raise. cbn [yielded outcome].
      by rewrite !app_nil_r.
    + destruct (truncate _ _) as [|c speaker].
      * split; [reflexivity |]. rewrite !app_assoc. by eexists.
      * unfold speaker_line. rewrite format_ljust_ok by lia.
        rewrite result_bind_ok, gen_bind_lift_ok, gen_bind_yield.
        rewrite gen_bind_optional. unfold submission_of. rewrite Esub.
        rewrite gen_bind_lift_ok. cbn [yielded outcome yield_ mbind Gen_bind
          mret Gen_ret app].
        split; [reflexivity |]. rewrite !app_assoc. by eexists.
  - rewrite bool_decide_eq_false_2, andb_false_r by apply is_Some_None.
    rewrite andb_false_l.
    rewrite truncate_short by (unfold len; cbn [length]; lia).
    split; [reflexivity |]. rewrite !app_assoc. by eexists.
Qed.

(** X3.  From column width 8 on no card raises, and no card has fewer
    lines than the talk has five-minute rows ([duration // 5]), which is what
    the grid draws from it; the number is exact for every talk of ten
    minutes or more and for every break of five minutes or more. *)
Theorem card_line_count (talk : Talk) (col_width : Z) :
  8 <= col_width ->
  outcome (_card wrap_lines talk col_width) = Ok tt
  /\ duration talk / 5 <= len (yielded (_card wrap_lines talk col_width))
  /\ (10 <= duration talk \/ (5 <= duration talk /\ submission talk = None) ->
      len (yielded (_card wrap_lines talk col_width)) = duration talk / 5).
Proof.
  intros Hw. split; [| split].
  - destruct (card_titlelines_kept wrap_lines talk col_width ltac:(lia))
      as (kept & Hcard & _).
    by rewrite (card_closed_form wrap_lines talk col_width kept Hw Hcard).
  - destruct (card_titlelines_kept wrap_lines talk col_width ltac:(lia))
      as (kept & Hcard & _).
    rewrite (card_closed_form wrap_lines talk col_width kept Hw Hcard).
    cbn [yielded]. unfold card_layout. rewrite len_app, len_replicate.
    pose proof (len_nonneg (card_content talk col_width kept)).
    unfold card_height. lia.
  - intros Hduration.
    by apply (card_height_invariant wrap_lines talk col_width Hw Hduration).
Qed.

End CardErrors.

Lemma card_no_text_width_raises_witness :
  _card wrap_model (opening 30) 4 = MkGen [] (Raise ValueError).
Proof. apply card_no_text_width_raises. lia. Defined.

Lemma card_width_5_to_7_witness :
  _card wrap_model (opening 10) 7
  = MkGen [title_cell 3 (str "Op" ++ [ELLIPSIS])] (Raise ValueError)
  /\ outcome (_card wrap_model coffee 7) = Ok tt.
Proof.
  split.
  - destruct (card_width_5_to_7 wrap_model (opening 10) 7 ltac:(lia))
      as (kept & Hkept & H).
    vm_compute in Hkept. injection Hkept as <-. exact H.
  - destruct (card_width_5_to_7 wrap_model coffee 7 ltac:(lia))
      as (kept & Hkept & H).
    vm_compute in Hkept. injection Hkept as <-. exact (proj1 H).
Defined.

Lemma card_line_count_witness :
  outcome (_card wrap_model keynote 20) = Ok tt
  /\ duration keynote / 5 <= len (yielded (_card wrap_model keynote 20))
  /\ len (yielded (_card wrap_model keynote 20)) = 6.
Proof.
  destruct (card_line_count wrap_model keynote 20 ltac:(lia)) as (H1 & H2 & H3).
  split; [exact H1 | split; [exact H2 |]].
  apply H3. left. vm_compute. discriminate.
Defined.

(** X4.  The cut of the speaker names keeps its promise for every cutoff
    of at least one: the result is never longer than the cutoff, a string
    that fits is returned as it is, and a longer one keeps its first
    [cutoff - 1] characters in front of one ellipsis.  With the cutoff 0
    (column width 8) the result is as long as the string itself. *)
Theorem truncate_bounds (s : pystr) (cutoff : Z) :
  (1 <= cutoff ->
     len (truncate s cutoff) <= cutoff
     /\ (len s <= cutoff -> truncate s cutoff = s)
     /\ (cutoff < len s ->
         truncate s cutoff = take (Z.to_nat (cutoff - 1)) s ++ [ELLIPSIS]
         /\ len (truncate s cutoff) = cutoff))
  /\ (cutoff = 0 -> len (truncate s cutoff) = len s).
Proof.
  split.
  - intros Hc. split; [by apply len_truncate_le |]. split.
    + apply truncate_short.
    + intros Hlong. split; [| by apply len_truncate_long].
      by rewrite truncate_long, slice_to_nonneg by lia.
  - intros ->. destruct (Z.le_gt_cases (len s) 0) as [H|H].
    + by rewrite truncate_short.
    + rewrite truncate_long, len_app, slice_to_neg, len_take, len_singleton by lia.
      lia.
Qed.

Lemma truncate_bounds_witness :
  len (truncate (str "Ada Lovelace") 8) <= 8
  /\ truncate (str "Ada Lovelace") 8 = str "Ada Lov" ++ [ELLIPSIS]
  /\ len (truncate (str "Ada Lovelace") 0) = 12.
Proof.
  destruct (truncate_bounds (str "Ada Lovelace") 8) as [H _].
  destruct (H ltac:(lia)) as (H1 & _ & H2).
  destruct (truncate_bounds (str "Ada Lovelace") 0) as [_ H0].
  split; [exact H1 | split].
  - exact (proj1 (H2 ltac:(vm_compute; reflexivity))).
  - exact (H0 eq_refl).
Defined.

(** ** The order of the two lists *)

Section StableSort.
Context {A K : Type} `{EqDecision K} (ltb : K -> K -> bool) (key : A -> K).
Hypothesis ltb_irrefl : forall a, ltb a a = false.
Hypothesis ltb_asym : forall a b, ltb a b = true -> ltb b a = false.
Hypothesis ltb_le_trans :
  forall a b c, ltb b a = false -> ltb c b = false -> ltb c a = false.

Lemma ascending_transitive : Transitive (ascending ltb key).
Proof. intros x y z Hxy Hyz. unfold ascending in *. eauto. Qed.

Lemma sorted_by_strongly_sorted (l : list A) :
  StronglySorted (ascending ltb key) (sorted_by ltb key l).
Proof.
  apply Sorted_StronglySorted; [apply ascending_transitive |].
  by apply sorted_by_sorted.
Qed.

(** The elements with one key come out in the order they went in. *)
Lemma insert_sorted_filter (k : K) (x : A) (l : list A) :
  filter (fun y => key y = k) (insert_sorted ltb key x l)
  = filter (fun y => key y = k) (x :: l).
Proof.
  induction l as [|y l IH]; [done |]. cbn [insert_sorted].
  destruct (ltb (key y) (key x)) eqn:E; [| done].
  rewrite filter_cons, IH, !filter_cons.
  destruct (decide (key y = k)) as [Hy|Hy], (decide (key x = k)) as [Hx|Hx];
    try done.
  rewrite Hy, Hx, ltb_irrefl in E. discriminate E.
Qed.

Lemma sorted_by_stable (k : K) (l : list A) :
  filter (fun y => key y = k) (sorted_by ltb key l)
  = filter (fun y => key y = k) l.
Proof.
  induction l as [|x l IH]; [done |]. cbn [sorted_by foldr].
  rewrite insert_sorted_filter, !filter_cons.
  change (foldr (insert_sorted ltb key) [] l) with (sorted_by ltb key l).
  by rewrite IH.
Qed.

End StableSort.

Lemma Z_ltb_le_trans (a b c : Z) :
  (b <? a) = false -> (c <? b) = false -> (c <? a) = false.
Proof. lia. Qed.

Lemma str_ltb_irrefl (a : pystr) : str_ltb a a = false.
Proof.
  induction a as [|x a IH]; [done |]. cbn [str_ltb].
  by rewrite N.ltb_irrefl.
Qed.

Lemma str_ltb_le_trans (a b c : pystr) :
  str_ltb b a = false -> str_ltb c b = false -> str_ltb c a = false.
Proof.
  revert b c. induction a as [|x a IH]; intros [|y b] [|z c]; cbn [str_ltb];
    try done.
  destruct (N.ltb_spec y x), (N.ltb_spec x y), (N.ltb_spec z y),
    (N.ltb_spec y z), (N.ltb_spec z x), (N.ltb_spec x z);
    try done; try lia.
  apply IH.
Qed.

Lemma str_ltb_total (a b : pystr) :
  str_ltb a b = false -> str_ltb b a = false -> a = b.
Proof.
  revert b. induction a as [|x a IH]; intros [|y b]; cbn [str_ltb]; try done.
  destruct (N.ltb_spec x y), (N.ltb_spec y x); try done; try lia.
  intros H1 H2. f_equal; [lia | by apply IH].
Qed.

Lemma list_key_ltb_irrefl (a : Z * pystr) : list_key_ltb a a = false.
Proof. unfold list_key_ltb. rewrite Z.eqb_refl. apply str_ltb_irrefl. Qed.

Lemma list_key_ltb_le_trans (a b c : Z * pystr) :
  list_key_ltb b a = false -> list_key_ltb c b = false ->
  list_key_ltb c a = false.
Proof.
  unfold list_key_ltb. destruct a as [a1 a2], b as [b1 b2], c as [c1 c2].
  cbn [fst snd].
  destruct (Z.eqb_spec b1 a1), (Z.eqb_spec c1 b1), (Z.eqb_spec c1 a1);
    try lia; subst; first [apply str_ltb_le_trans | intros; lia].
Qed.

Lemma list_key_ltb_total (a b : Z * pystr) :
  list_key_ltb a b = false -> list_key_ltb b a = false -> a = b.
Proof.
  unfold list_key_ltb. destruct a as [a1 a2], b as [b1 b2]. cbn [fst snd].
  destruct (Z.eqb_spec a1 b1), (Z.eqb_spec b1 a1); try lia; subst.
  intros H1 H2. f_equal. by apply str_ltb_total.
Qed.

Lemma StronglySorted_weaken {A} (R S : relation A) (l : list A) :
  (forall x y, R x y -> S x y) -> StronglySorted R l -> StronglySorted S l.
Proof.
  intros HRS. induction 1 as [|x l _ IH Hx]; constructor; [done |].
  eapply Forall_impl; [exact Hx | auto].
Qed.

(** X5.  The text list of a day has one entry for every talk of the day,
    taken over all rooms, in ascending order of their start; talks with the
    same start keep the order in which the rooms hold them (the title plays
    no part).  A day without talks gives the empty text. *)
Theorem text_list_date_order (no_speakers : pystr) (date : DateBucket) :
  exists talk_list,
    text_list_date no_speakers date
    = match talk_list with
      | [] => []
      | _ => date_header date ++ mjoin (list_entry no_speakers <$> talk_list)
      end
    /\ talk_list ≡ₚ day_talks date
    /\ StronglySorted (fun x y => start x <= start y) talk_list
    /\ forall t, filter (fun x => start x = t) talk_list
                 = filter (fun x => start x = t) (day_talks date).
Proof.
  exists (sorted_by Z.ltb start (day_talks date)).
  split; [reflexivity |]. split; [apply sorted_by_perm |]. split.
  - eapply StronglySorted_weaken;
      [| apply (sorted_by_strongly_sorted Z.ltb start Z_ltb_asym Z_ltb_le_trans)].
    intros x y H. unfold ascending in H. lia.
  - intros t. apply sorted_by_stable. apply Z.ltb_irrefl.
Qed.

(** X6.  For every day the list view gets the day's talks, all of them and
    no others, in ascending order of the pair of start and title (the empty
    title for a break); talks with the same start and title keep the order
    of the rooms.  The other keys of the day are passed on. *)
Theorem get_schedule_data_list_order (data : list DateBucket) :
  Forall2 (fun date out =>
             dt_start out = date_start date
             /\ dt_first_start out = first_start date
             /\ dt_last_end out = last_end date
             /\ dt_talks out ≡ₚ day_talks date
             /\ StronglySorted
                  (fun x y => list_key_ltb (list_key y) (list_key x) = false)
                  (dt_talks out)
             /\ forall k, filter (fun x => list_key x = k) (dt_talks out)
                          = filter (fun x => list_key x = k) (day_talks date))
    data (get_schedule_data_list data).
Proof.
  unfold get_schedule_data_list. induction data as [|date data IH];
    [constructor |].
  rewrite fmap_cons. constructor; [| done]. cbn [dt_start dt_first_start
    dt_last_end dt_talks]. repeat split.
  - apply sorted_by_perm.
  - apply (sorted_by_strongly_sorted list_key_ltb list_key
             list_key_ltb_asym list_key_ltb_le_trans).
  - intros k. apply sorted_by_stable. apply list_key_ltb_irrefl.
Qed.

(** X7.  When no two talks of a day have the same start and the same
    title, the order of the talks in the list view depends on the talks
    only: two days that hold the same talks, in whatever order of rooms and
    of talks within them, give the same list. *)
Theorem get_schedule_data_list_room_order_irrelevant (date1 date2 : DateBucket) :
  day_talks date1 ≡ₚ day_talks date2 ->
  NoDup (list_key <$> day_talks date1) ->
  dt_talks <$> get_schedule_data_list [date1]
  = dt_talks <$> get_schedule_data_list [date2].
Proof.
  intros Hperm Hkeys. cbn. f_equal.
  apply (StronglySorted_unique_strong (ascending list_key_ltb list_key)).
  - intros x y Hx Hy Hxy Hyx. unfold ascending in *.
    rewrite sorted_by_perm in Hx.
    rewrite sorted_by_perm, <- Hperm in Hy.
    assert (Hk : list_key x = list_key y) by by apply list_key_ltb_total.
    apply list_elem_of_lookup in Hx as [i Hi], Hy as [j Hj].
    assert (i = j) as ->.
    { apply (NoDup_lookup _ i j (list_key x) Hkeys);
        rewrite list_lookup_fmap; [by rewrite Hi | by rewrite Hj, Hk]. }
    congruence.
  - apply (sorted_by_strongly_sorted list_key_ltb list_key
             list_key_ltb_asym list_key_ltb_le_trans).
  - apply (sorted_by_strongly_sorted list_key_ltb list_key
             list_key_ltb_asym list_key_ltb_le_trans).
  - by rewrite !sorted_by_perm.
Qed.

Lemma get_schedule_data_list_room_order_irrelevant_witness :
  dt_talks <$> get_schedule_data_list [zebra_alpha_day]
  = dt_talks <$> get_schedule_data_list
      [a_day [ {| name := str "Side Room"; talks := Some [alpha] |};
               {| name := str "Main Hall"; talks := Some [zebra] |} ]].
Proof.
  apply get_schedule_data_list_room_order_irrelevant.
  - apply Permutation_swap.
  - apply (bool_decide_unpack _). vm_compute. exact I.
Defined.

(** ** The table of a day: errors and rows *)

Section TableRows.
Context (wrap_lines : pystr -> Z -> list pystr).
Context (get_separator : bool -> bool -> bool -> bool -> pystr).
Context (UD LR : pystr).

Lemma talks_by_room_of_missing_key (rs : list Room) (d : list (list N * list Talk)) :
  Exists (fun r => talks r = None) rs -> talks_by_room_of rs d = Raise KeyError.
Proof.
  intros H. revert d. induction H as [r rs Hr|r rs _ IH]; intros d;
    cbn [talks_by_room_of].
  - by rewrite Hr.
  - destruct (talks r); [apply IH | done].
Qed.

Lemma sorted_by_start_cons (date : DateBucket) :
  day_talks date <> [] ->
  exists t ts, sorted_by Z.ltb start (day_talks date) = t :: ts.
Proof.
  intros Hne. destruct (sorted_by Z.ltb start (day_talks date)) as [|t ts] eqn:E.
  - pose proof (sorted_by_perm Z.ltb start (day_talks date)) as Hperm.
    rewrite E in Hperm. by apply Permutation_nil in Hperm.
  - by eexists _, _.
Qed.

(** X8.  The table needs the ["talks"] key of every room, the early return
    for a day without talks apart: a day that has talks and a room without
    the key raises [KeyError], at every column width, while a day without
    any talk returns [None] whether or not its rooms have the key. *)
Theorem table_room_without_talks_key (date : DateBucket) (col_width : Z) :
  Exists (fun r => talks r = None) (rooms date) ->
  (day_talks date <> [] ->
   _get_table_for_date wrap_lines get_separator UD LR date col_width
   = Raise KeyError)
  /\ (day_talks date = [] ->
      _get_table_for_date wrap_lines get_separator UD LR date col_width
      = Ok None).
Proof.
  intros Hmissing. split.
  - intros Hne. unfold _get_table_for_date.
    destruct (sorted_by_start_cons date Hne) as (t & ts & ->).
    by rewrite talks_by_room_of_missing_key.
  - intros Hempty. unfold _get_table_for_date.
    by rewrite sorted_by_start_nil.
Qed.

Lemma text_table_loop_acc (data : list DateBucket) (col_width : Z) (acc : pystr) :
  text_table_loop wrap_lines get_separator UD LR data col_width acc
  = (text ← text_table_loop wrap_lines get_separator UD LR data col_width [];
     Ok (acc ++ text)).
Proof.
  revert acc. induction data as [|date data IH]; intros acc;
    cbn [text_table_loop].
  - by rewrite result_bind_ok, app_nil_r.
  - destruct (text_table_date _ _ _ _ date col_width) as [part|e];
      [| reflexivity].
    rewrite !result_bind_ok. rewrite (IH (acc ++ part)), (IH ([] ++ part)).
    destruct (text_table_loop _ _ _ _ data col_width []) as [text|e];
      [| reflexivity].
    rewrite !result_bind_ok. by rewrite app_assoc.
Qed.

Lemma text_table_loop_app (data1 data2 : list DateBucket) (col_width : Z)
    (acc : pystr) :
  text_table_loop wrap_lines get_separator UD LR (data1 ++ data2) col_width acc
  = (text1 ← text_table_loop wrap_lines get_separator UD LR data1 col_width acc;
     text_table_loop wrap_lines get_separator UD LR data2 col_width text1).
Proof.
  revert acc. induction data1 as [|date data1 IH]; intros acc;
    cbn [app text_table_loop]; [done |].
  destruct (text_table_date _ _ _ _ date col_width) as [part|e];
    [| reflexivity].
  rewrite !result_bind_ok. apply IH.
Qed.

(** X9.  Both text renderers work date by date: the text for a sequence of
    dates is the text for its first part followed by the text for its
    second part.  The table renderer raises what the first failing date
    raises; no date changes what another renders. *)
Theorem text_renderers_compose (no_speakers : pystr)
    (data1 data2 : list DateBucket) (col_width : Z) :
  _get_text_table wrap_lines get_separator UD LR (data1 ++ data2) col_width
  = (text1 ← _get_text_table wrap_lines get_separator UD LR data1 col_width;
     text2 ← _get_text_table wrap_lines get_separator UD LR data2 col_width;
     Ok (text1 ++ text2))
  /\ _get_text_list no_speakers (data1 ++ data2)
     = _get_text_list no_speakers data1 ++ _get_text_list no_speakers data2.
Proof.
  split.
  - unfold _get_text_table. rewrite text_table_loop_app.
    destruct (text_table_loop _ _ _ _ data1 col_width []) as [text1|e];
      [| reflexivity].
    rewrite !result_bind_ok. apply text_table_loop_acc.
  - by rewrite !get_text_list_join, fmap_app, join_app.
Qed.

End TableRows.

Lemma table_room_without_talks_key_witness :
  _get_table_for_date wrap_model ascii_separator ascii_UD ascii_LR
    (a_day [ {| name := str "Main Hall"; talks := Some [opening 30] |};
             {| name := str "Side Room"; talks := None |} ]) 20
  = Raise KeyError.
Proof.
  apply table_room_without_talks_key.
  - right. by left.
  - discriminate.
Defined.

(** ** Dicts *)

Lemma str_eqb_refl (k : pystr) : str_eqb k k = true.
Proof. unfold str_eqb. by apply bool_decide_eq_true_2. Qed.

Lemma str_eqb_ne (k k' : pystr) : k <> k' -> str_eqb k k' = false.
Proof. intros H. unfold str_eqb. by apply bool_decide_eq_false_2. Qed.

Lemma dict_set_fresh {V} (d : list (pystr * V)) (k : pystr) (v : V) :
  k ∉ d.*1 -> dict_set d k v = d ++ [(k, v)].
Proof.
  induction d as [|[k' v'] d IH]; intros Hk; cbn [dict_set]; [done |].
  rewrite fmap_cons in Hk. apply not_elem_of_cons in Hk as [Hne Hk].
  rewrite str_eqb_ne by done. cbn [app]. by rewrite IH.
Qed.

Lemma dict_get_middle {V} (pre suf : list (pystr * V)) (k : pystr) (v : V) :
  k ∉ pre.*1 -> dict_get (pre ++ (k, v) :: suf) k = Ok v.
Proof.
  induction pre as [|[k' v'] pre IH]; intros Hk; cbn [app dict_get].
  - by rewrite str_eqb_refl.
  - rewrite fmap_cons in Hk. apply not_elem_of_cons in Hk as [Hne Hk].
    rewrite str_eqb_ne by done. by apply IH.
Qed.

Lemma NoDup_app_head_notin {V} (pre suf : list (pystr * V)) (k : pystr) (v : V) :
  NoDup (pre ++ (k, v) :: suf).*1 -> k ∉ pre.*1.
Proof.
  rewrite fmap_app, fmap_cons. intros H Hk.
  apply NoDup_app in H as (_ & H & _). apply (H k Hk). by left.
Qed.

Section GridBasics.
Context (wrap_lines : pystr -> Z -> list pystr).

(** With a key in every room and no room name twice, [talks_by_room] is the
    list of the rooms as they come. *)
Lemma talks_by_room_of_ok (pre : list (list N * list Talk)) (rs : list Room) :
  Forall (fun r => is_Some (talks r)) rs ->
  NoDup (pre.*1 ++ (name <$> rs)) ->
  talks_by_room_of rs pre
  = Ok (pre ++ ((fun r => (name r, default [] (talks r))) <$> rs)).
Proof.
  revert pre. induction rs as [|r rs IH]; intros pre Hkeys Hnames;
    cbn [talks_by_room_of].
  - by rewrite app_nil_r.
  - apply Forall_cons_1 in Hkeys as [[ts Hts] Hkeys]. rewrite Hts.
    rewrite fmap_cons in Hnames.
    rewrite dict_set_fresh.
    + rewrite IH; [| done |].
      * rewrite fmap_cons, Hts. cbn [default]. by rewrite <- app_assoc.
      * rewrite fmap_app. cbn [fmap list_fmap fst]. by rewrite <- app_assoc.
    + apply NoDup_app in Hnames as (_ & H & _). intros Hin.
      apply (H _ Hin). by left.
Qed.

Lemma day_talks_dict_talks (date : DateBucket) :
  day_talks date
  = dict_talks ((fun r => (name r, default [] (talks r))) <$> rooms date).
Proof.
  unfold day_talks, dict_talks. generalize (rooms date) as rs.
  induction rs as [|r rs IH]; [done |].
  rewrite bind_cons, !fmap_cons, IH. reflexivity.
Qed.

(** The three dicts of events of a row *)
Lemma events_where_ok (test : Talk -> bool) (pre suf : list (list N * list Talk)) :
  NoDup (pre ++ suf).*1 ->
  events_where test (pre ++ suf) suf.*1
    ((fun e => (e.1, List.find test e.2)) <$> pre)
  = Ok ((fun e => (e.1, List.find test e.2)) <$> (pre ++ suf)).
Proof.
  revert pre. induction suf as [|[k ts] suf IH]; intros pre Hnames;
    cbn [events_where fmap list_fmap fst].
  - by rewrite app_nil_r.
  - rewrite dict_get_middle by by eapply NoDup_app_head_notin.
    rewrite result_bind_ok. rewrite dict_set_fresh.
    + replace (pre ++ (k, ts) :: suf) with ((pre ++ [(k, ts)]) ++ suf)
        by by rewrite <- app_assoc.
      rewrite <- (IH (pre ++ [(k, ts)])) by by rewrite <- app_assoc.
      by rewrite fmap_app.
    + apply NoDup_app_head_notin in Hnames.
      by rewrite <- list_fmap_compose.
Qed.

Lemma events_lookup (test : Talk -> bool) (pre suf : list (list N * list Talk))
    (k : list N) (ts : list Talk) :
  NoDup (pre ++ (k, ts) :: suf).*1 ->
  dict_get ((fun e => (e.1, List.find test e.2)) <$> (pre ++ (k, ts) :: suf)) k
  = Ok (List.find test ts).
Proof.
  intros Hnames. rewrite fmap_app, fmap_cons. apply dict_get_middle.
  apply NoDup_app_head_notin in Hnames. by rewrite <- list_fmap_compose.
Qed.

(** The store of cards holds the card of every talk under its id, when no
    id is used twice. *)
Lemma cards_by_id_of_lookup (talk_list : list Talk) (col_width : Z) (r : Talk) :
  NoDup (pk <$> talk_list) -> r ∈ talk_list ->
  cards_by_id_of wrap_lines talk_list col_width !! pk r
  = Some (_card wrap_lines r col_width).
Proof.
  unfold cards_by_id_of. induction talk_list as [|x l IH] using rev_ind;
    intros Hnodup Hr; [by apply elem_of_nil in Hr |].
  rewrite foldl_app. cbn [foldl].
  rewrite fmap_app in Hnodup. apply NoDup_app in Hnodup as (Hl & Hx & _).
  apply elem_of_app in Hr as [Hr|Hr].
  - rewrite lookup_insert_ne; [by apply IH |].
    intros Heq. apply (Hx (pk r)); [by apply list_elem_of_fmap_2 |].
    rewrite <- Heq. by left.
  - apply list_elem_of_singleton in Hr as ->. apply lookup_insert_eq.
Qed.

End GridBasics.

(** ** Fragments of a row *)

Lemma cell_of_plain (s : pystr) : plain s -> cell_of (len s) s.
Proof.
  intros H. split.
  - intros rest. by rewrite strip_ansi_plain_app, (strip_ansi_plain s).
  - unfold visible_width. by rewrite strip_ansi_plain.
Qed.

Lemma cell_of_app (a b : Z) (s t : pystr) :
  cell_of a s -> cell_of b t -> cell_of (a + b) (s ++ t).
Proof.
  intros [Hs Ha] [Ht Hb]. unfold sealed in *. split.
  - intros rest. by rewrite <- app_assoc, Hs, Ht, Hs, app_assoc.
  - unfold visible_width in *. rewrite Hs, len_app. lia.
Qed.

Lemma cell_of_eq (a b : Z) (s : pystr) : cell_of a s -> a = b -> cell_of b s.
Proof. by intros H <-. Qed.




Lemma cell_of_blank_line (col_width : Z) :
  0 <= col_width -> cell_of col_width (blank_line col_width).
Proof.
  intros H. eapply cell_of_eq; [apply cell_of_plain, plain_blanks |].
  unfold blank_line. change (str " ") with [SPACE]. rewrite len_str_mul_char. lia.
Qed.

Lemma cell_of_glyph (s : pystr) : glyph s -> cell_of 1 s.
Proof.
  intros (c & -> & Hc). apply (cell_of_plain [c]). by repeat constructor.
Qed.

Lemma cell_of_str_mul_glyph (s : pystr) (n : Z) :
  glyph s -> 0 <= n -> cell_of n (str_mul s n).
Proof.
  intros (c & -> & Hc) Hn. eapply cell_of_eq; [apply cell_of_plain |].
  - unfold plain, str_mul. induction (Z.to_nat n) as [|k IH]; [constructor |].
    cbn [replicate mjoin list_join app]. by constructor.
  - rewrite len_str_mul_char. lia.
Qed.

Lemma glyph_char (c : N) : c <> ESC -> glyph [c].
Proof. intros H. by exists c. Qed.





Section CardCells.
Context (wrap_lines : pystr -> Z -> list pystr).


End CardCells.

(** ** One row of the grid *)

Lemma dict_talks_app (l k : list (list N * list Talk)) :
  dict_talks (l ++ k) = dict_talks l ++ dict_talks k.
Proof. unfold dict_talks. by rewrite fmap_app, join_app. Qed.

Lemma dict_talks_cons (name_ : list N) (ts : list Talk)
    (l : list (list N * list Talk)) :
  dict_talks ((name_, ts) :: l) = ts ++ dict_talks l.
Proof. reflexivity. Qed.

Lemma dict_talks_snoc (name_ : list N) (ts : list Talk)
    (l : list (list N * list Talk)) :
  dict_talks (l ++ [(name_, ts)]) = dict_talks l ++ ts.
Proof. rewrite dict_talks_app, dict_talks_cons. unfold dict_talks. cbn. by rewrite app_nil_r. Qed.

Lemma NoDup_fmap_inj_on {A B} (f : A -> B) (l : list A) (x y : A) :
  NoDup (f <$> l) -> x ∈ l -> y ∈ l -> f x = f y -> x = y.
Proof.
  intros Hnodup Hx Hy Heq.
  apply list_elem_of_lookup in Hx as [i Hi], Hy as [j Hj].
  assert (i = j) as ->.
  { apply (NoDup_lookup _ i j (f x) Hnodup);
      rewrite list_lookup_fmap; [by rewrite Hi | by rewrite Hj, Heq]. }
  congruence.
Qed.

Lemma find_running (hour : Z) (ts : list Talk) (r : Talk) :
  List.find (fun e => (start e <? hour) && (hour <? real_end e)) ts = Some r ->
  r ∈ ts /\ running_at hour r = true.
Proof.
  intros H. apply find_some in H as [Hin Hrun]. split; [| done].
  by apply list_elem_of_In.
Qed.

Section Store.
Context (P : pystr -> Prop) (hour : Z) (hours : list Z).

Lemma card_ready_weaken (cards_by_id : gmap Z (Gen unit)) (r : Talk) :
  card_ready P (hour :: hours) cards_by_id r -> card_ready P hours cards_by_id r.
Proof.
  intros (g & Hg & Hok & Hlen & HP). exists g. repeat split; try done.
  cbn [List.filter] in Hlen. destruct (running_at hour r); cbn [length] in Hlen; lia.
Qed.

Lemma card_ready_insert_ne (hs : list Z) (cards_by_id : gmap Z (Gen unit))
    (key : Z) (g : Gen unit) (r : Talk) :
  pk r <> key -> card_ready P hs cards_by_id r ->
  card_ready P hs (<[key := g]> cards_by_id) r.
Proof.
  intros Hne (g0 & Hg & H). exists g0. split; [| done].
  by rewrite lookup_insert_ne.
Qed.

(** Drawing a line for a running talk: the talks of the rooms done ([A]),
    of the room at hand ([B]) and of the rooms to come ([C]). *)
Lemma next_card_ready (A B C : list Talk) (cards_by_id : gmap Z (Gen unit))
    (r0 : Talk) :
  NoDup (pk <$> (A ++ B ++ C)) -> r0 ∈ B -> running_at hour r0 = true ->
  (forall r, r ∈ A -> card_ready P hours cards_by_id r) ->
  (forall r, r ∈ B ++ C -> card_ready P (hour :: hours) cards_by_id r) ->
  exists line cards',
    next_card cards_by_id (pk r0) = Ok (line, cards')
    /\ P line
    /\ (forall r, r ∈ A ++ B -> card_ready P hours cards' r)
    /\ (forall r, r ∈ C -> card_ready P (hour :: hours) cards' r).
Proof.
  intros Hnodup Hr0 Hrun HA HBC.
  destruct (HBC r0 ltac:(apply elem_of_app; by left)) as (g & Hg & Hok & Hlen & HP).
  cbn [List.filter] in Hlen. rewrite Hrun in Hlen. cbn [length] in Hlen.
  destruct g as [[|line rest] out]; cbn [yielded outcome] in *;
    [cbn [length] in Hlen; lia |].
  exists line, (<[pk r0 := MkGen rest out]> cards_by_id).
  apply Forall_cons_1 in HP as [Hline Hrest].
  split; [| split; [done | split]].
  - unfold next_card. rewrite Hg. reflexivity.
  - intros r Hr. destruct (decide (pk r = pk r0)) as [Heq|Hne].
    + assert (r = r0) as ->.
      { apply (NoDup_fmap_inj_on pk (A ++ B ++ C)); [done | | | done].
        - rewrite app_assoc. apply elem_of_app. by left.
        - apply elem_of_app. right. apply elem_of_app. by left. }
      exists (MkGen rest out). rewrite lookup_insert_eq. cbn [yielded outcome].
      repeat split; try done. cbn [length] in Hlen. lia.
    + apply card_ready_insert_ne; [done |].
      apply elem_of_app in Hr as [Hr|Hr]; [by apply HA |].
      apply card_ready_weaken, HBC. apply elem_of_app. by left.
  - intros r Hr. apply card_ready_insert_ne; [| apply HBC, elem_of_app; by right].
    intros Heq.
    assert (r = r0) as ->.
    { apply (NoDup_fmap_inj_on pk (A ++ B ++ C)); [done | | | done].
      - do 2 (apply elem_of_app; right). done.
      - apply elem_of_app. right. apply elem_of_app. by left. }
    rewrite !fmap_app in Hnodup. apply NoDup_app in Hnodup as (_ & _ & Hnodup).
    apply NoDup_app in Hnodup as (_ & Hdisjoint & _).
    apply (Hdisjoint (pk r0)); by apply list_elem_of_fmap_2.
Qed.

End Store.

Lemma mjoin_snoc (l : list (list N)) (x : list N) : mjoin (l ++ [x]) = mjoin l ++ x.
Proof. rewrite join_app. cbn [mjoin list_join]. by rewrite app_nil_r. Qed.

Section GridRow.
Context (get_separator : bool -> bool -> bool -> bool -> pystr).
Context (UD LR : pystr) (P : pystr -> Prop) (col_width : Z).
Context (hour : Z) (hours : list Z) (is_tick : bool).
Context (talks_by_room : list (list N * list Talk)).
Hypothesis names_nodup : NoDup talks_by_room.*1.
Hypothesis ids_nodup : NoDup (pk <$> dict_talks talks_by_room).

Let fill_char : list N := if is_tick then str "-" else str " ".
Let starting := events_of (fun e => start e =? hour) talks_by_room.
Let running :=
  events_of (fun e => (start e <? hour) && (hour <? real_end e)) talks_by_room.
Let ending := events_of (fun e => real_end e =? hour) talks_by_room.

Lemma room_events_at (pre suf : list (list N * list Talk)) (k : list N)
    (ts : list Talk) :
  talks_by_room = pre ++ (k, ts) :: suf ->
  room_events starting running ending k
  = Ok (List.find (fun e => start e =? hour) ts,
        List.find (fun e => (start e <? hour) && (hour <? real_end e)) ts,
        List.find (fun e => real_end e =? hour) ts).
Proof.
  intros Htbr. unfold room_events, starting, running, ending, events_of.
  pose proof names_nodup as Hnames. rewrite Htbr in *.
  by rewrite !events_lookup, !result_bind_ok.
Qed.

Lemma room_events_some (k : list N) :
  k ∈ talks_by_room.*1 ->
  exists events, room_events starting running ending k = Ok events.
Proof.
  intros Hk. apply list_elem_of_fmap in Hk as ([k' ts] & -> & Hin).
  apply list_elem_of_split in Hin as (pre & suf & Htbr).
  eexists. by apply (room_events_at pre suf).
Qed.

Lemma fill_char_glyph : glyph fill_char.
Proof. unfold fill_char. destruct is_tick; by eexists. Qed.

Lemma get_line_parts_glyph (start1 start2 end1 end2 run1 run2 : option Talk) :
  grid_glyphs get_separator UD LR P col_width ->
  exists part,
    _get_line_parts get_separator UD start1 start2 end1 end2 run1 run2 fill_char
    = [part]
    /\ glyph part.
Proof.
  intros (Hsep & HUD & _). unfold _get_line_parts.
  destruct (truthy run1 && _); [eexists; split; [done | by eexists] |].
  destruct (truthy run2 && _); [eexists; split; [done | by eexists] |].
  destruct (existsb _ _); [by eexists |].
  destruct (truthy run1 || truthy run2); [by eexists |].
  eexists. split; [done | apply fill_char_glyph].
Qed.

Lemma get_line_parts_single (start1 start2 end1 end2 run1 run2 : option Talk) :
  exists part,
    _get_line_parts get_separator UD start1 start2 end1 end2 run1 run2 fill_char
    = [part].
Proof.
  unfold _get_line_parts.
  repeat (match goal with |- context [if ?b then _ else _] => destruct b end);
    by eexists.
Qed.

Lemma dt_line_pairs_ok (pairs : list (list N * list N)) :
  forall (pre suf : list (list N * list Talk)) (parts : list (list N))
         (cards_by_id : gmap Z (Gen unit)) (k : Z),
    talks_by_room = pre ++ suf ->
    pairs.*2 = suf.*1 ->
    (forall p, p ∈ pairs -> p.1 ∈ talks_by_room.*1) ->
    (forall r, r ∈ dict_talks pre -> card_ready P hours cards_by_id r) ->
    (forall r, r ∈ dict_talks suf -> card_ready P (hour :: hours) cards_by_id r) ->
    exists parts' cards',
      dt_line_pairs get_separator UD LR starting running ending fill_char
        col_width pairs parts cards_by_id
      = Ok (parts', cards')
      /\ (forall r, r ∈ dict_talks talks_by_room -> card_ready P hours cards' r)
      /\ (grid_glyphs get_separator UD LR P col_width ->
          cell_of k (mjoin parts) ->
          cell_of (k + Z.of_nat (length pairs) * (col_width + 1)) (mjoin parts')).
Proof.
  induction pairs as [|[loc1 loc2] pairs IH];
    intros pre suf parts cards_by_id k Htbr Hpairs Hleft Hpre Hsuf.
  - destruct suf as [|? ?]; [| discriminate Hpairs].
    rewrite app_nil_r in Htbr. subst pre.
    exists parts, cards_by_id. split; [done |]. split; [done |].
    intros _ Hparts. eapply cell_of_eq; [exact Hparts | cbn [length]; lia].
  - destruct suf as [|[k2 ts] suf]; [discriminate Hpairs |].
    rewrite !fmap_cons in Hpairs. injection Hpairs as -> Hpairs.
    cbn [dt_line_pairs].
    destruct (room_events_some loc1) as ([[start1 run1] end1] & ->).
    { apply (Hleft (loc1, k2)). by left. }
    rewrite (room_events_at pre suf k2 ts Htbr), !result_bind_ok.
    cbn beta iota.
    set (start2 := List.find (fun e => start e =? hour) ts).
    set (run2 := List.find (fun e => (start e <? hour) && (hour <? real_end e)) ts).
    set (end2 := List.find (fun e => real_end e =? hour) ts).
    destruct (get_line_parts_single start1 start2 end1 end2 run1 run2)
      as [part Hpart].
    assert (Htbr' : talks_by_room = (pre ++ [(k2, ts)]) ++ suf)
      by by rewrite <- app_assoc.
    assert (Hleft' : forall p, p ∈ pairs -> p.1 ∈ talks_by_room.*1)
      by (intros p Hp; apply Hleft; by right).
    pose proof ids_nodup as Hids. rewrite Htbr in Hids.
    rewrite dict_talks_app, dict_talks_cons in Hids.
    rewrite dict_talks_cons in Hsuf.
    assert (Hglyph : grid_glyphs get_separator UD LR P col_width ->
                     glyph part).
    { intros HG.
      destruct (get_line_parts_glyph start1 start2 end1 end2 run1 run2 HG)
        as (part' & Hpart' & Hg). congruence. }
    rewrite Hpart.
    destruct run2 as [r0|] eqn:Erun.
    + apply find_running in Erun as [Hr0 Hrun].
      destruct (next_card_ready P hour hours (dict_talks pre) ts (dict_talks suf)
                  cards_by_id r0 Hids Hr0 Hrun Hpre Hsuf)
        as (line & cards' & -> & Hline & Hdone & Htodo).
      rewrite result_bind_ok. cbn beta iota. rewrite result_bind_ok.
      destruct (IH (pre ++ [(k2, ts)]) suf ((parts ++ [part]) ++ [line]) cards'
                  (k + (col_width + 1)) Htbr' Hpairs Hleft')
        as (parts' & cards'' & -> & Hready & Hcells).
      { by rewrite dict_talks_snoc. }
      { done. }
      exists parts', cards''. split; [done |]. split; [done |].
      intros HG Hparts. eapply cell_of_eq; [apply (Hcells HG) |].
      * rewrite !mjoin_snoc, <- app_assoc.
        apply cell_of_app; [done |].
        eapply cell_of_eq;
          [apply cell_of_app; [by apply cell_of_glyph, Hglyph |] |].
        -- destruct HG as (_ & _ & _ & HP & _). by apply HP.
        -- lia.
      * cbn [length]. lia.
    + set (cell := if truthy start2 || truthy end2
                   then str_mul LR col_width else str_mul fill_char col_width).
      assert (Hstep :
        (if truthy start2 || truthy end2
         then Ok ((parts ++ [part]) ++ [str_mul LR col_width], cards_by_id)
         else Ok ((parts ++ [part]) ++ [str_mul fill_char col_width], cards_by_id))
        = Ok ((parts ++ [part]) ++ [cell], cards_by_id)).
      { unfold cell. by destruct (truthy start2 || truthy end2). }
      rewrite Hstep, result_bind_ok. cbn beta iota.
      destruct (IH (pre ++ [(k2, ts)]) suf ((parts ++ [part]) ++ [cell])
                  cards_by_id (k + (col_width + 1)) Htbr' Hpairs Hleft')
        as (parts' & cards'' & -> & Hready & Hcells).
      { rewrite dict_talks_snoc. intros r Hr.
        apply elem_of_app in Hr as [Hr|Hr]; [by apply Hpre |].
        apply (card_ready_weaken P hour), Hsuf, elem_of_app. by left. }
      { intros r Hr. apply Hsuf, elem_of_app. by right. }
      exists parts', cards''. split; [done |]. split; [done |].
      intros HG Hparts. eapply cell_of_eq; [apply (Hcells HG) |].
      * rewrite !mjoin_snoc, <- app_assoc.
        apply cell_of_app; [done |].
        eapply cell_of_eq;
          [apply cell_of_app; [by apply cell_of_glyph, Hglyph |] |].
        -- unfold cell. destruct HG as (_ & _ & HLR & _ & Hw).
           destruct (truthy start2 || truthy end2);
             apply cell_of_str_mul_glyph; (done || apply fill_char_glyph).
        -- lia.
      * cbn [length]. lia.
Qed.

End GridRow.

Lemma digit_plain (n : Z) : digit n <> ESC.
Proof. unfold digit, ESC. lia. Qed.

Lemma cell_of_time_label (t : Z) : cell_of 8 (strftime_HM t ++ str " --").
Proof.
  apply (cell_of_plain (strftime_HM t ++ str " --")).
  unfold strftime_HM, pad2. repeat constructor; try apply digit_plain; done.
Qed.

Lemma cell_of_blank_label : cell_of 8 (str_mul (str " ") 8).
Proof. apply (cell_of_blank_line 8). lia. Qed.

Lemma elem_of_take_inv {A} (l : list A) (n : nat) (x : A) : x ∈ take n l -> x ∈ l.
Proof.
  intros H. rewrite <- (take_drop n l). apply elem_of_app. by left.
Qed.

Section GridRowWhole.
Context (get_separator : bool -> bool -> bool -> bool -> pystr).
Context (UD LR : pystr) (P : pystr -> Prop) (col_width : Z).
Context (hour : Z) (hours : list Z) (is_tick : bool).
Context (talks_by_room : list (list N * list Talk)).
Hypothesis names_nodup : NoDup talks_by_room.*1.
Hypothesis ids_nodup : NoDup (pk <$> dict_talks talks_by_room).
Hypothesis rooms_exist : talks_by_room <> [].

(** One row: with a ready card for every running talk the row is built,
    the cards stay ready for the rows to come, and the row takes
    [9 + rooms * (col_width + 1)] cells when every glyph is one character. *)
Lemma get_dt_line_ok (cards_by_id : gmap Z (Gen unit)) :
  (forall r, r ∈ dict_talks talks_by_room ->
     card_ready P (hour :: hours) cards_by_id r) ->
  exists line cards',
    _get_dt_line get_separator UD LR hour is_tick
      (events_of (fun e => start e =? hour) talks_by_room)
      (events_of (fun e => (start e <? hour) && (hour <? real_end e)) talks_by_room)
      (events_of (fun e => real_end e =? hour) talks_by_room)
      (dict_keys talks_by_room) col_width cards_by_id
    = Ok (line, cards')
    /\ (forall r, r ∈ dict_talks talks_by_room -> card_ready P hours cards' r)
    /\ (grid_glyphs get_separator UD LR P col_width ->
        cell_of (9 + Z.of_nat (length talks_by_room) * (col_width + 1)) line).
Proof.
  intros Hready.
  destruct talks_by_room as [|[k1 ts1] rest] eqn:Etbr; [done |].
  rewrite <- Etbr in *.
  assert (Hsplit : talks_by_room = [] ++ (k1, ts1) :: rest) by done.
  assert (Hkeys : dict_keys talks_by_room = k1 :: rest.*1) by by rewrite Etbr.
  unfold _get_dt_line. rewrite Hkeys. cbn [first_item]. rewrite result_bind_ok.
  rewrite (room_events_at hour talks_by_room names_nodup ids_nodup [] rest k1 ts1 Hsplit).
  rewrite result_bind_ok. cbn beta iota.
  set (start1 := List.find (fun e => start e =? hour) ts1).
  set (run1 := List.find (fun e => (start e <? hour) && (hour <? real_end e)) ts1).
  set (end1 := List.find (fun e => real_end e =? hour) ts1).
  set (label := if is_tick then strftime_HM hour ++ str " --"
                else str_mul (str " ") 8).
  set (fill_char := if is_tick then str "-" else str " ").
  assert (Hlabel : cell_of 8 (mjoin [label])).
  { cbn [mjoin list_join]. rewrite app_nil_r. unfold label.
    destruct is_tick; [apply cell_of_time_label | apply cell_of_blank_label]. }
  pose proof ids_nodup as Hids. rewrite Etbr, dict_talks_cons in Hids.
  assert (Hready' : forall r, r ∈ ts1 ++ dict_talks rest ->
                      card_ready P (hour :: hours) cards_by_id r).
  { intros r Hr. apply Hready. by rewrite Etbr, dict_talks_cons. }
  (* the cell of the first room *)
  assert (Hfirst : exists parts1 cards1,
    (if truthy start1 || truthy end1
     then Ok ([label] ++ [get_separator (truthy end1) (truthy start1) false false
                          ++ str_mul LR col_width], cards_by_id)
     else match run1 with
          | Some r =>
              '(line, cards_by_id0) ← next_card cards_by_id (pk r);
              Ok ([label] ++ [UD ++ line], cards_by_id0)
          | None => Ok ([label] ++ [str_mul fill_char (col_width + 1)], cards_by_id)
          end) = Ok (parts1, cards1)
    /\ (forall r, r ∈ dict_talks [(k1, ts1)] -> card_ready P hours cards1 r)
    /\ (forall r, r ∈ dict_talks rest -> card_ready P (hour :: hours) cards1 r)
    /\ (grid_glyphs get_separator UD LR P col_width ->
        cell_of (8 + (col_width + 1)) (mjoin parts1))).
  { assert (Hkeep : forall r, r ∈ dict_talks [(k1, ts1)] ->
                      card_ready P hours cards_by_id r).
    { intros r Hr. apply (card_ready_weaken P hour), Hready'.
      rewrite dict_talks_cons in Hr. unfold dict_talks in Hr. cbn in Hr.
      rewrite app_nil_r in Hr. apply elem_of_app. by left. }
    assert (Hrest : forall r, r ∈ dict_talks rest ->
                      card_ready P (hour :: hours) cards_by_id r).
    { intros r Hr. apply Hready', elem_of_app. by right. }
    destruct (truthy start1 || truthy end1).
    - eexists _, _. split; [done |]. split; [done |]. split; [done |].
      intros (Hsep & _ & HLR & _ & Hw).
      change ([label] ++ [?x]) with ([label] ++ [x]). rewrite mjoin_snoc.
      apply cell_of_app; [done |].
      eapply cell_of_eq;
        [apply cell_of_app;
           [apply cell_of_glyph, Hsep | by apply cell_of_str_mul_glyph] | lia].
    - destruct run1 as [r0|] eqn:Erun.
      + unfold run1 in Erun. apply find_running in Erun as [Hr0 Hrun].
        destruct (next_card_ready P hour hours [] ts1 (dict_talks rest)
                    cards_by_id r0 Hids Hr0 Hrun) as
          (line & cards1 & -> & Hline & Hdone & Htodo).
        { intros r Hr. by apply elem_of_nil in Hr. }
        { done. }
        rewrite result_bind_ok. cbn beta iota.
        eexists _, _. split; [done |]. split.
        { intros r Hr. apply Hdone. rewrite dict_talks_cons in Hr.
          unfold dict_talks in Hr. cbn in Hr. by rewrite app_nil_r in Hr. }
        split; [done |].
        intros (_ & HUD & _ & HP & _). rewrite mjoin_snoc.
        apply cell_of_app; [done |].
        eapply cell_of_eq;
          [apply cell_of_app; [by apply cell_of_glyph | by apply HP] | lia].
      + eexists _, _. split; [done |]. split; [done |]. split; [done |].
        intros (_ & _ & _ & _ & Hw). rewrite mjoin_snoc.
        apply cell_of_app; [done |].
        apply cell_of_str_mul_glyph; [| lia].
        unfold fill_char. destruct is_tick; by eexists. }
  destruct Hfirst as (parts1 & cards1 & -> & Hdone1 & Htodo1 & Hcells1).
  rewrite result_bind_ok. cbn beta iota. subst fill_char.
  (* the other rooms *)
  set (pairs := zip (slice_to (k1 :: rest.*1) (-1)) (slice_from (k1 :: rest.*1) 1)).
  assert (Hpairs2 : pairs.*2 = rest.*1).
  { unfold pairs, slice_from, slice_to. cbn [Z.leb Z.compare].
    change (drop (Z.to_nat 1) (k1 :: rest.*1)) with rest.*1.
    apply snd_zip. rewrite length_take. unfold len. cbn [length]. lia. }
  assert (Hpairs1 : forall p, p ∈ pairs -> p.1 ∈ talks_by_room.*1).
  { intros [a b] Hp. unfold pairs in Hp. apply elem_of_zip_l in Hp.
    apply elem_of_take_inv in Hp. by rewrite Etbr. }
  assert (Hlen : length pairs = length rest).
  { rewrite <- (length_fmap snd pairs), Hpairs2. apply length_fmap. }
  destruct (dt_line_pairs_ok get_separator UD LR P col_width hour hours is_tick
              talks_by_room names_nodup ids_nodup pairs [(k1, ts1)] rest parts1
              cards1 (8 + (col_width + 1)))
    as (parts2 & cards2 & -> & Hready2 & Hcells2);
    [by rewrite Etbr | done | done | done | done |].
  rewrite result_bind_ok. cbn beta iota.
  (* the right edge *)
  destruct (reverse (k1 :: rest.*1)) as [|klast others] eqn:Erev.
  { apply (f_equal length) in Erev. rewrite length_reverse in Erev.
    cbn [length] in Erev. lia. }
  cbn [first_item]. rewrite result_bind_ok.
  destruct (room_events_some hour talks_by_room names_nodup ids_nodup klast)
    as ([[start_ run_] end__] & ->).
  { rewrite Etbr. change ((k1, ts1) :: rest).*1 with (k1 :: rest.*1).
    apply elem_of_reverse. rewrite Erev. by left. }
  rewrite result_bind_ok. cbn beta iota.
  eexists _, _. split; [done |]. split; [done |].
  intros HG. rewrite mjoin_snoc.
  eapply cell_of_eq; [apply cell_of_app; [by apply Hcells2, Hcells1 |] |].
  - apply cell_of_glyph. destruct HG as (Hsep & HUD & _).
    destruct (truthy start_ || truthy end__); [apply Hsep |].
    destruct (truthy run_); [done |].
    destruct is_tick; by eexists.
  - rewrite Hlen, Etbr. cbn [length]. lia.
Qed.

End GridRowWhole.

(** ** The rows of a day *)

Lemma elem_of_rrule_hourly (byminute : Z -> bool) (dtstart until t : Z) :
  t ∈ rrule_hourly byminute dtstart until
  <-> dtstart <= t <= until /\ byminute (t mod 60) = true.
Proof.
  unfold rrule_hourly. rewrite list_elem_of_In, filter_In, <- list_elem_of_In.
  rewrite elem_of_seqZ. intuition lia.
Qed.

Lemma NoDup_rrule_hourly (byminute : Z -> bool) (dtstart until : Z) :
  NoDup (rrule_hourly byminute dtstart until).
Proof.
  unfold rrule_hourly.
  apply NoDup_ListNoDup, List.NoDup_filter, NoDup_ListNoDup, NoDup_seqZ.
Qed.

Lemma elem_of_row_instants (global_start global_end t : Z) :
  t ∈ row_instants global_start global_end
  <-> global_start <= t <= global_end /\ t mod 5 = 0.
Proof.
  unfold row_instants. rewrite elem_of_rrule_hourly.
  assert ((t mod 60 mod 5 =? 0) = true <-> t mod 5 = 0)
    by (rewrite Z.eqb_eq; Z.div_mod_to_equations; lia).
  tauto.
Qed.

(** A talk that starts on the five-minute grid and ends no later than its
    duration says is running at no more than [duration // 5] rows. *)
Lemma running_rows_bound (r : Talk) (global_start global_end : Z) :
  start r mod 5 = 0 -> real_end r <= start r + duration r ->
  (length (List.filter (fun h => running_at h r)
             (row_instants global_start global_end))
   <= Z.to_nat (duration r / 5))%nat.
Proof.
  intros Haligned Hend.
  set (running := List.filter _ _).
  set (slots := (fun k => start r + 5 * k) <$> seqZ 1 ((duration r - 1) / 5)).
  assert (Hsub : running ⊆+ slots).
  { apply NoDup_submseteq.
    - apply NoDup_ListNoDup, List.NoDup_filter, NoDup_ListNoDup,
        NoDup_rrule_hourly.
    - intros h Hh. unfold running in Hh.
      apply list_elem_of_In, filter_In in Hh as [Hin Hrun].
      apply list_elem_of_In, elem_of_row_instants in Hin as [_ Hmod].
      unfold running_at in Hrun. apply andb_prop in Hrun as [H1 H2].
      apply Z.ltb_lt in H1, H2.
      apply list_elem_of_fmap. exists ((h - start r) / 5). split.
      + Z.div_mod_to_equations. lia.
      + apply elem_of_seqZ. Z.div_mod_to_equations. lia. }
  apply submseteq_length in Hsub. unfold slots in Hsub.
  rewrite length_fmap, length_seqZ in Hsub.
  assert ((duration r - 1) / 5 <= duration r / 5)
    by (Z.div_mod_to_equations; lia).
  lia.
Qed.

Lemma length_row_instants (global_start global_end : Z) :
  global_start mod 5 = 0 -> global_start <= global_end ->
  length (row_instants global_start global_end)
  = Z.to_nat ((global_end - global_start) / 5 + 1).
Proof.
  intros Haligned Hle.
  set (n := (global_end - global_start) / 5 + 1).
  assert (Hperm : row_instants global_start global_end
                  ≡ₚ (fun k => global_start + 5 * k) <$> seqZ 0 n).
  { apply NoDup_Permutation.
    - apply NoDup_rrule_hourly.
    - apply NoDup_fmap_2; [intros x y; lia | apply NoDup_seqZ].
    - intros t. rewrite elem_of_row_instants, list_elem_of_fmap. split.
      + intros [Hrange Hmod]. exists ((t - global_start) / 5). split.
        * Z.div_mod_to_equations. lia.
        * apply elem_of_seqZ. unfold n. Z.div_mod_to_equations. lia.
      + intros (k & -> & Hk). apply elem_of_seqZ in Hk. unfold n in Hk.
        split; Z.div_mod_to_equations; lia. }
  rewrite Hperm, length_fmap, length_seqZ. reflexivity.
Qed.

Section Table.
Context (wrap_lines : pystr -> Z -> list pystr).
Context (get_separator : bool -> bool -> bool -> bool -> pystr).
Context (UD LR : pystr) (P : pystr -> Prop) (col_width : Z).
Context (talks_by_room : list (list N * list Talk)).
Hypothesis names_nodup : NoDup talks_by_room.*1.
Hypothesis ids_nodup : NoDup (pk <$> dict_talks talks_by_room).
Hypothesis rooms_exist : talks_by_room <> [].

Lemma events_where_all (test : Talk -> bool) :
  events_where test talks_by_room (dict_keys talks_by_room) []
  = Ok (events_of test talks_by_room).
Proof. apply (events_where_ok test [] talks_by_room). exact names_nodup. Qed.

Lemma table_rows_ok (tick_times hours : list Z) :
  forall (lines : list (list N)) (cards_by_id : gmap Z (Gen unit)),
    (forall r, r ∈ dict_talks talks_by_room -> card_ready P hours cards_by_id r) ->
    exists rows,
      table_rows get_separator UD LR tick_times talks_by_room
        (dict_keys talks_by_room) col_width hours lines cards_by_id
      = Ok (lines ++ rows)
      /\ length rows = length hours
      /\ (grid_glyphs get_separator UD LR P col_width ->
          Forall (cell_of (9 + Z.of_nat (length talks_by_room) * (col_width + 1)))
            rows).
Proof.
  induction hours as [|hour hours IH]; intros lines cards_by_id Hready.
  - exists []. cbn [table_rows]. rewrite app_nil_r. by repeat split.
  - cbn [table_rows]. rewrite !events_where_all, !result_bind_ok.
    destruct (get_dt_line_ok get_separator UD LR P col_width hour hours
                (bool_decide (hour ∈ tick_times)) talks_by_room names_nodup
                ids_nodup rooms_exist cards_by_id Hready)
      as (line & cards' & -> & Hready' & Hcell).
    rewrite result_bind_ok. cbn beta iota.
    destruct (IH (lines ++ [line]) cards' Hready') as (rows & -> & Hlen & Hcells).
    exists (line :: rows). split; [by rewrite <- app_assoc |].
    split; [cbn [length]; by rewrite Hlen |].
    intros HG. constructor; [by apply Hcell | by apply Hcells].
Qed.

End Table.

(** ** The table of a well-formed day *)

Lemma header_line_ok (rooms : list (list N)) (col_width : Z) :
  2 <= col_width -> exists header, header_line rooms col_width = Ok header.
Proof.
  intros Hw. unfold header_line.
  assert (exists cells,
    result_map (fun room => format_ljust room (col_width - 2)) rooms = Ok cells)
    as [cells ->].
  { induction rooms as [|room rooms [cells IH]]; [by eexists |].
    cbn [result_map]. rewrite format_ljust_ok, result_bind_ok, IH by lia.
    by eexists. }
  by eexists.
Qed.

Section TableOfDay.
Context (wrap_lines : pystr -> Z -> list pystr).
Context (get_separator : bool -> bool -> bool -> bool -> pystr).
Context (UD LR : pystr).

Lemma card_enough_lines (talk : Talk) (col_width : Z) :
  8 <= col_width ->
  outcome (_card wrap_lines talk col_width) = Ok tt
  /\ (Z.to_nat (duration talk / 5)
      <= length (yielded (_card wrap_lines talk col_width)))%nat.
Proof.
  intros Hw.
  destruct (card_titlelines_kept wrap_lines talk col_width ltac:(lia))
    as (kept & Hcard & _).
  rewrite (card_closed_form wrap_lines talk col_width kept Hw Hcard).
  split; [done |]. cbn [yielded]. unfold card_layout.
  rewrite length_app, length_replicate.
  pose proof (len_nonneg (card_content talk col_width kept)) as H.
  unfold card_height, len in *. lia.
Qed.

(** The table of a day, from a store of cards that are ready for its rows *)
Lemma table_for_date_ok (P : list N -> Prop) (date : DateBucket) (col_width : Z) :
  2 <= col_width ->
  day_talks date <> [] ->
  Forall (fun r => is_Some (talks r)) (rooms date) ->
  NoDup (name <$> rooms date) ->
  NoDup (pk <$> day_talks date) ->
  (forall r, r ∈ day_talks date ->
     card_ready P (row_instants (global_bounds date).1 (global_bounds date).2)
       (cards_by_id_of wrap_lines (sorted_by Z.ltb start (day_talks date))
          col_width) r) ->
  exists header rows,
    _get_table_for_date wrap_lines get_separator UD LR date col_width
    = Ok (Some (str_join [NEWLINE] (header :: rows)))
    /\ header_line (name <$> rooms date) col_width = Ok header
    /\ length rows
       = length (row_instants (global_bounds date).1 (global_bounds date).2)
    /\ (grid_glyphs get_separator UD LR P col_width ->
        Forall (cell_of (9 + Z.of_nat (length (rooms date)) * (col_width + 1)))
          rows).
Proof.
  intros Hw Htalks Hkeys Hnames Hids Hready.
  set (tbr := (fun r => (name r, default [] (talks r))) <$> rooms date).
  assert (Htbr : talks_by_room_of (rooms date) [] = Ok tbr)
    by by apply (talks_by_room_of_ok [] (rooms date)).
  assert (Hkeys' : dict_keys tbr = name <$> rooms date).
  { unfold dict_keys, tbr. rewrite <- list_fmap_compose. done. }
  assert (Hall : dict_talks tbr = day_talks date)
    by (symmetry; apply day_talks_dict_talks).
  assert (Hne : tbr <> []).
  { intros Hnil. apply Htalks. rewrite <- Hall, Hnil. done. }
  assert (Hlen : length tbr = length (rooms date)) by apply length_fmap.
  unfold _get_table_for_date, global_bounds in *.
  destruct (sorted_by Z.ltb start (day_talks date)) as [|t ts] eqn:Esorted.
  { destruct (sorted_by_start_cons date Htalks) as (t & ts & E). congruence. }
  cbn [fst snd] in Hready. rewrite Htbr, result_bind_ok. cbn zeta.
  rewrite Hkeys'.
  destruct (header_line_ok (name <$> rooms date) col_width Hw) as [header Hheader].
  rewrite Hheader, result_bind_ok.
  rewrite <- Hkeys'.
  destruct (table_rows_ok get_separator UD LR P col_width tbr
              ltac:(by rewrite <- Hkeys' in Hnames)
              ltac:(by rewrite Hall) Hne
              (rrule_hourly (fun m => (m =? 0) || (m =? 30))
                 (default (min_of start t ts) (first_start date))
                 (default (max_of end_ t ts) (last_end date)))
              (row_instants (default (min_of start t ts) (first_start date))
                 (default (max_of end_ t ts) (last_end date)))
              [header] (cards_by_id_of wrap_lines (t :: ts) col_width))
    as (rows & Hrows & Hcount & Hcells).
  { intros r Hr. apply Hready. by rewrite <- Hall. }
  unfold row_instants in Hrows. rewrite Hrows, result_bind_ok.
  exists header, rows. split; [done |]. split; [done |]. split; [done |].
  rewrite <- Hlen. exact Hcells.
Qed.

Lemma cards_initially_ready (P : list N -> Prop) (date : DateBucket)
    (col_width : Z) (hours : list Z) (r : Talk) :
  NoDup (pk <$> day_talks date) ->
  r ∈ day_talks date ->
  outcome (_card wrap_lines r col_width) = Ok tt ->
  (length (List.filter (fun h => running_at h r) hours)
   <= length (yielded (_card wrap_lines r col_width)))%nat ->
  Forall P (yielded (_card wrap_lines r col_width)) ->
  card_ready P hours
    (cards_by_id_of wrap_lines (sorted_by Z.ltb start (day_talks date)) col_width)
    r.
Proof.
  intros Hids Hr Hok Hlen HP. exists (_card wrap_lines r col_width).
  split; [| done].
  apply cards_by_id_of_lookup.
  - by rewrite sorted_by_perm.
  - by rewrite sorted_by_perm.
Qed.

Lemma table_for_date_renders (date : DateBucket) (col_width : Z) :
  8 <= col_width ->
  day_talks date <> [] ->
  Forall (fun r => is_Some (talks r)) (rooms date) ->
  NoDup (name <$> rooms date) ->
  NoDup (pk <$> day_talks date) ->
  Forall (fun r => start r mod 5 = 0 /\ real_end r <= start r + duration r)
    (day_talks date) ->
  exists header rows,
    _get_table_for_date wrap_lines get_separator UD LR date col_width
    = Ok (Some (str_join [NEWLINE] (header :: rows)))
    /\ header_line (name <$> rooms date) col_width = Ok header
    /\ length rows
       = length (row_instants (global_bounds date).1 (global_bounds date).2).
Proof.
  intros Hw Htalks Hkeys Hnames Hids Hgrid.
  destruct (table_for_date_ok (fun _ => True) date col_width ltac:(lia)
              Htalks Hkeys Hnames Hids) as (header & rows & H1 & H2 & H3 & _).
  - intros r Hr.
    destruct (card_enough_lines r col_width Hw) as [Hok Hlen].
    rewrite Forall_forall in Hgrid. destruct (Hgrid r Hr) as [Hstart Hend].
    apply cards_initially_ready; try done.
    + etrans; [by apply running_rows_bound | done].
    + by apply Forall_true.
  - by exists header, rows.
Qed.

(** X10.  The table of a well-formed day is rendered.  For a column width
    of at least 8 and a day that has talks, whose rooms all carry their
    ["talks"] key and have different names, whose talks have different ids,
    start on the five-minute grid and end no later than their duration
    says: [_get_table_for_date] returns a table, made of the header row of
    the room names and of one row for every five-minute instant from
    [global_start] to [global_end]; no card runs out of lines and nothing
    raises, whatever [textwrap.wrap] and the glyph table return. *)
Theorem table_renders (date : DateBucket) (col_width : Z) :
  8 <= col_width ->
  day_talks date <> [] ->
  Forall (fun r => is_Some (talks r)) (rooms date) ->
  NoDup (name <$> rooms date) ->
  NoDup (pk <$> day_talks date) ->
  Forall (fun r => start r mod 5 = 0 /\ real_end r <= start r + duration r)
    (day_talks date) ->
  exists header rows,
    _get_table_for_date wrap_lines get_separator UD LR date col_width
    = Ok (Some (str_join [NEWLINE] (header :: rows)))
    /\ header_line (name <$> rooms date) col_width = Ok header
    /\ length rows
       = length (row_instants (global_bounds date).1 (global_bounds date).2).
Proof. apply table_for_date_renders. Qed.


End TableOfDay.

(** ** The rows of the table and the bounds of the day *)

Lemma foldl_min_spec (f : Talk -> Z) (ts : list Talk) (m : Z) :
  let r := foldl (fun m x => if f x <? m then f x else m) m ts in
  r <= m /\ (forall x, x ∈ ts -> r <= f x)
  /\ (r = m \/ exists x, x ∈ ts /\ r = f x).
Proof.
  induction ts as [|t ts IH] in m |- *; cbn zeta; cbn [foldl].
  - split; [lia |]. split; [| by left]. intros x Hx. by apply elem_of_nil in Hx.
  - destruct (IH (if f t <? m then f t else m)) as (H1 & H2 & H3).
    cbn zeta in *.
    split; [destruct (Z.ltb_spec (f t) m); lia |]. split.
    + intros x [-> | Hx]%elem_of_cons; [| by apply H2].
      destruct (Z.ltb_spec (f t) m); lia.
    + destruct H3 as [H3 | (x & Hx & H3)].
      * destruct (Z.ltb_spec (f t) m).
        -- right. exists t. split; [left | done].
        -- by left.
      * right. exists x. split; [by right | done].
Qed.

Lemma foldl_max_spec (f : Talk -> Z) (ts : list Talk) (m : Z) :
  let r := foldl (fun m x => if m <? f x then f x else m) m ts in
  m <= r /\ (forall x, x ∈ ts -> f x <= r)
  /\ (r = m \/ exists x, x ∈ ts /\ r = f x).
Proof.
  induction ts as [|t ts IH] in m |- *; cbn zeta; cbn [foldl].
  - split; [lia |]. split; [| by left]. intros x Hx. by apply elem_of_nil in Hx.
  - destruct (IH (if m <? f t then f t else m)) as (H1 & H2 & H3).
    cbn zeta in *.
    split; [destruct (Z.ltb_spec m (f t)); lia |]. split.
    + intros x [-> | Hx]%elem_of_cons; [| by apply H2].
      destruct (Z.ltb_spec m (f t)); lia.
    + destruct H3 as [H3 | (x & Hx & H3)].
      * destruct (Z.ltb_spec m (f t)).
        -- right. exists t. split; [left | done].
        -- by left.
      * right. exists x. split; [by right | done].
Qed.

Lemma min_of_spec (f : Talk -> Z) (t : Talk) (ts : list Talk) :
  (forall x, x ∈ t :: ts -> min_of f t ts <= f x)
  /\ exists x, x ∈ t :: ts /\ min_of f t ts = f x.
Proof.
  unfold min_of. destruct (foldl_min_spec f ts (f t)) as (H1 & H2 & H3).
  cbn zeta in *. split.
  - intros x [-> | Hx]%elem_of_cons; [done | by apply H2].
  - destruct H3 as [H3 | (x & Hx & H3)].
    + exists t. split; [left | done].
    + exists x. split; [by right | done].
Qed.

Lemma max_of_spec (f : Talk -> Z) (t : Talk) (ts : list Talk) :
  (forall x, x ∈ t :: ts -> f x <= max_of f t ts)
  /\ exists x, x ∈ t :: ts /\ max_of f t ts = f x.
Proof.
  unfold max_of. destruct (foldl_max_spec f ts (f t)) as (H1 & H2 & H3).
  cbn zeta in *. split.
  - intros x [-> | Hx]%elem_of_cons; [done | by apply H2].
  - destruct H3 as [H3 | (x & Hx & H3)].
    + exists t. split; [left | done].
    + exists x. split; [by right | done].
Qed.

(** Without declared bounds the table runs from the earliest start to the
    latest end of the talks of the day. *)
Lemma global_bounds_undeclared (date : DateBucket) :
  day_talks date <> [] ->
  first_start date = None -> last_end date = None ->
  ((forall r, r ∈ day_talks date -> (global_bounds date).1 <= start r)
   /\ exists r, r ∈ day_talks date /\ (global_bounds date).1 = start r)
  /\ ((forall r, r ∈ day_talks date -> end_ r <= (global_bounds date).2)
      /\ exists r, r ∈ day_talks date /\ (global_bounds date).2 = end_ r).
Proof.
  intros Hne Hfirst Hlast. unfold global_bounds.
  destruct (sorted_by_start_cons date Hne) as (t & ts & Esorted).
  pose proof (sorted_by_perm Z.ltb start (day_talks date)) as Hperm.
  rewrite Esorted in *. rewrite Hfirst, Hlast. cbn [default fst snd].
  destruct (min_of_spec start t ts) as [Hmin (rmin & Hrmin & Emin)].
  destruct (max_of_spec end_ t ts) as [Hmax (rmax & Hrmax & Emax)].
  repeat split.
  - intros r Hr. apply Hmin. by rewrite Hperm.
  - exists rmin. by rewrite <- Hperm.
  - intros r Hr. apply Hmax. by rewrite Hperm.
  - exists rmax. by rewrite <- Hperm.
Qed.

Lemma length_row_instants_aligned (global_start global_end : Z) :
  global_start mod 5 = 0 ->
  length (row_instants global_start global_end)
  = Z.to_nat ((global_end - global_start) / 5 + 1).
Proof.
  intros Haligned. destruct (Z.le_gt_cases global_start global_end) as [Hle | Hgt].
  - by apply length_row_instants.
  - replace (Z.to_nat ((global_end - global_start) / 5 + 1)) with 0%nat
      by (Z.div_mod_to_equations; lia).
    destruct (row_instants global_start global_end) as [|t ts] eqn:E; [done |].
    assert (Ht : t ∈ row_instants global_start global_end)
      by (rewrite E; left).
    apply elem_of_row_instants in Ht. lia.
Qed.

Section TableRowCount.
Context (wrap_lines : pystr -> Z -> list pystr).
Context (get_separator : bool -> bool -> bool -> bool -> pystr).
Context (UD LR : pystr).

(** X12.  The number of rows of the table.  For a well-formed day that
    declares neither ["first_start"] nor ["last_end"], whose earliest talk
    starts at [first] and whose latest talk ends at [last], the table has,
    below the header row, [(last - first) // 5 + 1] rows: one for every five
    minutes from the earliest start to the latest end, both included. *)
Theorem table_row_count (date : DateBucket) (col_width : Z) (first last : Z) :
  8 <= col_width ->
  Forall (fun r => is_Some (talks r)) (rooms date) ->
  NoDup (name <$> rooms date) ->
  NoDup (pk <$> day_talks date) ->
  Forall (fun r => start r mod 5 = 0 /\ real_end r <= start r + duration r)
    (day_talks date) ->
  first_start date = None -> last_end date = None ->
  (exists r, r ∈ day_talks date /\ start r = first) ->
  (forall r, r ∈ day_talks date -> first <= start r) ->
  (exists r, r ∈ day_talks date /\ end_ r = last) ->
  (forall r, r ∈ day_talks date -> end_ r <= last) ->
  exists header rows,
    _get_table_for_date wrap_lines get_separator UD LR date col_width
    = Ok (Some (str_join [NEWLINE] (header :: rows)))
    /\ length rows = Z.to_nat ((last - first) / 5 + 1).
Proof.
  intros Hw Hkeys Hnames Hids Hgrid Hfirst Hlast
    (rfirst & Hrfirst & Efirst) Hlower (rlast & Hrlast & Elast) Hupper.
  assert (Hne : day_talks date <> []).
  { intros Hnil. rewrite Hnil in Hrfirst. by apply elem_of_nil in Hrfirst. }
  destruct (table_for_date_renders wrap_lines get_separator UD LR date col_width
              Hw Hne Hkeys Hnames Hids Hgrid) as (header & rows & H1 & _ & H3).
  exists header, rows. split; [done |]. rewrite H3.
  destruct (global_bounds_undeclared date Hne Hfirst Hlast)
    as [[Hmin (rmin & Hrmin & Emin)] [Hmax (rmax & Hrmax & Emax)]].
  assert (Egs : (global_bounds date).1 = first).
  { specialize (Hmin rfirst Hrfirst). specialize (Hlower rmin Hrmin). lia. }
  assert (Ege : (global_bounds date).2 = last).
  { specialize (Hmax rlast Hrlast). specialize (Hupper rmax Hrmax). lia. }
  rewrite Egs, Ege. apply length_row_instants_aligned.
  rewrite Forall_forall in Hgrid. destruct (Hgrid rfirst Hrfirst) as [Hmod _].
  by rewrite <- Efirst.
Qed.

End TableRowCount.

Lemma table_renders_witness :
  exists header rows,
    _get_table_for_date wrap_model ascii_separator ascii_UD ascii_LR
      zebra_alpha_day 20
    = Ok (Some (str_join [NEWLINE] (header :: rows)))
    /\ header_line (name <$> rooms zebra_alpha_day) 20 = Ok header
    /\ length rows
       = length (row_instants (global_bounds zebra_alpha_day).1
                   (global_bounds zebra_alpha_day).2).
Proof.
  apply (table_renders wrap_model ascii_separator ascii_UD ascii_LR
           zebra_alpha_day 20).
  - lia.
  - intros H. discriminate H.
  - repeat (constructor; [by eexists |]). constructor.
  - apply (bool_decide_unpack _). vm_compute. exact I.
  - apply (bool_decide_unpack _). vm_compute. exact I.
  - repeat (constructor; [split; [reflexivity | vm_compute; discriminate] |]).
    constructor.
Defined.


Lemma table_row_count_witness :
  exists header rows,
    _get_table_for_date wrap_model ascii_separator ascii_UD ascii_LR
      zebra_alpha_day 20
    = Ok (Some (str_join [NEWLINE] (header :: rows)))
    /\ length rows = Z.to_nat ((nine + 30 - nine) / 5 + 1).
Proof.
  apply (table_row_count wrap_model ascii_separator ascii_UD ascii_LR
           zebra_alpha_day 20 nine (nine + 30)).
  - lia.
  - repeat (constructor; [by eexists |]). constructor.
  - apply (bool_decide_unpack _). vm_compute. exact I.
  - apply (bool_decide_unpack _). vm_compute. exact I.
  - repeat (constructor; [split; [reflexivity | vm_compute; discriminate] |]).
    constructor.
  - reflexivity.
  - reflexivity.
  - exists zebra. split; [left | reflexivity].
  - intros r Hr.
    change (day_talks zebra_alpha_day) with [zebra; alpha] in Hr.
    apply elem_of_cons in Hr as [-> | Hr]; [vm_compute; discriminate |].
    apply elem_of_cons in Hr as [-> | Hr]; [vm_compute; discriminate |].
    by apply elem_of_nil in Hr.
  - exists zebra. split; [left | reflexivity].
  - intros r Hr.
    change (day_talks zebra_alpha_day) with [zebra; alpha] in Hr.
    apply elem_of_cons in Hr as [-> | Hr]; [vm_compute; discriminate |].
    apply elem_of_cons in Hr as [-> | Hr]; [vm_compute; discriminate |].
    by apply elem_of_nil in Hr.
Defined.

(** ** Which answer a request gets *)

(** X13.  The text of the schedule is never built with accepted talks.
    Whenever [get] does not answer with the page of the template, that is,
    whenever it answers with [get_text] or with a redirect, [answer_type] is
    ["text"]; so the argument [with_accepted] that [get_text] gives to
    [ScheduleData] is [False], also for the WIP schedule. *)
Theorem text_answer_without_accepted (self : ScheduleView.View) :
  ScheduleView.get self <> ScheduleView.TemplatePage ->
  ScheduleView.answer_type self = str "text"
  /\ ScheduleView.with_accepted self = false.
Proof.
  unfold ScheduleView.get, ScheduleView.with_accepted, ScheduleView.answer_type.
  destruct (default false (ScheduleView.is_html_export self));
    destruct (str_in (str "text/html") (default [] (ScheduleView.accept self)));
    cbn [orb andb negb]; intros H; try done.
Qed.

Lemma text_answer_without_accepted_witness :
  ScheduleView.answer_type curl_view = str "text"
  /\ ScheduleView.with_accepted curl_view = false.
Proof.
  apply (text_answer_without_accepted curl_view).
  vm_compute. discriminate.
Defined.

(** X14.  The page of the template as the answer of last resort.  A
    request whose [Accept] header is not empty, is neither ["plain"] nor
    ["text/plain"] and names none of [text/html], [application/xml],
    [text/xml], [application/json] and [*/*] gets the page of the template,
    although [answer_type] is ["text"] for it: the page is then built as
    the text is, with [with_accepted] [False].  A header that asks for
    [text/plain] with a parameter is such a header. *)
Theorem template_page_of_last_resort (self : ScheduleView.View)
    (accept_header : pystr) :
  ScheduleView.accept self = Some accept_header ->
  default false (ScheduleView.is_html_export self) = false ->
  accept_header <> [] ->
  accept_header <> str "plain" -> accept_header <> str "text/plain" ->
  Forall (fun needle => str_in needle accept_header = false)
    [str "text/html"; str "application/xml"; str "text/xml";
     str "application/json"; str "*/*"] ->
  ScheduleView.get self = ScheduleView.TemplatePage
  /\ ScheduleView.answer_type self = str "text"
  /\ ScheduleView.with_accepted self = false.
Proof.
  intros Haccept Hexport Hne Hplain Htext Hnone.
  apply Forall_cons_1 in Hnone as [Hhtml Hnone].
  apply Forall_cons_1 in Hnone as [Hxml Hnone].
  apply Forall_cons_1 in Hnone as [Htxml Hnone].
  apply Forall_cons_1 in Hnone as [Hjson Hnone].
  apply Forall_cons_1 in Hnone as [Hany _].
  unfold ScheduleView.get, ScheduleView.with_accepted, ScheduleView.answer_type.
  rewrite Haccept, Hexport.
  change (default [] (Some accept_header)) with accept_header.
  rewrite Hhtml. cbn [orb andb negb].
  split; [| done].
  unfold str_truthy. rewrite bool_decide_eq_false_2 by done. cbn [negb orb].
  rewrite bool_decide_eq_false_2
    by (intros [-> | [-> | H]%elem_of_cons]%elem_of_cons;
        [done | done | by apply elem_of_nil in H]).
  unfold ScheduleView.export_headers. cbn [ScheduleView.export_loop existsb].
  rewrite Hxml, Htxml, Hjson, Hany. reflexivity.
Qed.

Lemma template_page_of_last_resort_witness :
  ScheduleView.get plain_q_view = ScheduleView.TemplatePage
  /\ ScheduleView.answer_type plain_q_view = str "text"
  /\ ScheduleView.with_accepted plain_q_view = false.
Proof.
  apply (template_page_of_last_resort plain_q_view (str "text/plain;q=0.9")).
  - reflexivity.
  - reflexivity.
  - discriminate.
  - discriminate.
  - discriminate.
  - repeat constructor.
Defined.

(** ** The exporter view *)

Lemma startswith_app (prefix s : pystr) : startswith (prefix ++ s) prefix = true.
Proof.
  induction prefix as [|p prefix IH]; [by destruct s |].
  cbn [app startswith]. by rewrite N.eqb_refl, IH.
Qed.

Lemma slice_from_app_len (prefix s : pystr) :
  slice_from (prefix ++ s) (len prefix) = s.
Proof.
  unfold slice_from, len. destruct (Z.leb_spec 0 (Z.of_nat (length prefix))); [| lia].
  rewrite Nat2Z.id. by rewrite drop_app_length.
Qed.

Section ExporterViewFacts.
Context {Schedule : Type}.
Context (unquote sha1_hexdigest safe_filename : pystr -> pystr).

Lemma exporter_loop_some (request : ExporterView.Request (Schedule := Schedule))
    (name_ : pystr) (responses : list ExporterView.Exporter)
    (ex : ExporterView.Exporter) :
  ExporterView.exporter_loop request name_ responses = Returned (Some ex) ->
  ex ∈ responses
  /\ ExporterView.identifier ex = name_
  /\ (ExporterView.public ex = true \/ ExporterView.is_orga request = Some true).
Proof.
  induction responses as [|ex' responses IH]; cbn [ExporterView.exporter_loop];
    [discriminate |].
  unfold str_eqb. case_bool_decide as Hid.
  - destruct (ExporterView.public ex') eqn:Hpublic.
    + intros [= <-]. split; [left |]. split; [done | by left].
    + destruct (ExporterView.is_orga request) as [[] |] eqn:Horga.
      * intros [= <-]. split; [left |]. split; [done | by right].
      * intros H. destruct (IH H) as (H1 & H2 & H3).
        split; [by right |]. split; [done |]. destruct H3; [by left | done].
      * discriminate.
  - intros H. destruct (IH H) as (H1 & H2 & H3). split; [by right | done].
Qed.

Lemma exporter_loop_is_orga
    (request1 request2 : ExporterView.Request (Schedule := Schedule))
    (name_ : pystr) (responses : list ExporterView.Exporter) :
  ExporterView.is_orga request1 = ExporterView.is_orga request2 ->
  ExporterView.exporter_loop request1 name_ responses
  = ExporterView.exporter_loop request2 name_ responses.
Proof.
  intros Horga. induction responses as [|ex responses IH];
    cbn [ExporterView.exporter_loop]; [done |].
  by rewrite Horga, IH.
Qed.

Lemma get_exporter_with_if_none_match
    (request : ExporterView.Request (Schedule := Schedule)) (etag : pystr) :
  ExporterView.get_exporter unquote (ExporterView.with_if_none_match request etag)
  = ExporterView.get_exporter unquote request.
Proof.
  unfold ExporterView.get_exporter.
  change (ExporterView.requested_identifier unquote
            (ExporterView.with_if_none_match request etag))
    with (ExporterView.requested_identifier unquote request).
  destruct (ExporterView.requested_identifier unquote request); [| done].
  by apply exporter_loop_is_orga.
Qed.

Lemma response_etag (etag file_name file_type : pystr) (cors : option pystr) :
  let response := [(str "ETag", etag)] in
  let response :=
    if negb (bool_decide (file_type ∈ [str "application/json"; str "text/xml"]))
    then dict_set response (str "Content-Disposition")
           (str "attachment; filename=" ++ [QUOTE]
            ++ safe_filename file_name ++ [QUOTE])
    else response in
  let response :=
    if opt_str_truthy cors
    then dict_set response (str "Access-Control-Allow-Origin") (default [] cors)
    else response in
  dict_get response (str "ETag") = Ok etag.
Proof.
  cbn zeta.
  destruct (negb _); destruct (opt_str_truthy cors); reflexivity.
Qed.

(** The view answers from a permitted exporter or not at all *)
Lemma get_returned (request : ExporterView.Request (Schedule := Schedule))
    (activated : option pystr) (response : ExporterView.HttpResponse) :
  ExporterView.get unquote sha1_hexdigest safe_filename request
  = (activated, Returned response) ->
  exists ex name_ file_name file_type data,
    ExporterView.requested_identifier unquote request = Returned name_
    /\ ExporterView.exporter_loop request name_ (ExporterView.exporters request)
       = Returned (Some ex)
    /\ ExporterView.render ex (ExporterView.schedule request)
         (default false (ExporterView.is_orga request))
       = Some (file_name, file_type, data)
    /\ activated = ExporterView.activated_language request
    /\ (response = ExporterView.NotModified
        /\ ExporterView.if_none_match request = Some (sha1_hexdigest data)
        \/ ExporterView.if_none_match request <> Some (sha1_hexdigest data)
           /\ exists headers,
                response = ExporterView.Response data file_type headers
                /\ dict_get headers (str "ETag") = Ok (sha1_hexdigest data)).
Proof.
  unfold ExporterView.get, ExporterView.get_exporter.
  destruct (ExporterView.requested_identifier unquote request) as [name_ |];
    [| discriminate].
  destruct (ExporterView.exporter_loop request name_ _) as [[ex |] |] eqn:Hloop;
    [| discriminate | discriminate].
  destruct (ExporterView.render ex _ _) as [[[file_name file_type] data] |] eqn:Hrender;
    [| discriminate].
  cbn zeta. case_bool_decide as Hmatch.
  - intros [= <- <-]. exists ex, name_, file_name, file_type, data.
    repeat split; try done. by left.
  - intros [= <- <-]. exists ex, name_, file_name, file_type, data.
    repeat split; try done. right. split; [done |]. eexists. split; [done |].
    apply response_etag.
Qed.

(** X15.  An export is answered from a permitted exporter only.  Whenever
    the exporter view returns a response, with the data or as
    [304 Not Modified], one of the registered exporters has the identifier
    the request asks for and is public, or else the request is an
    organiser's; this exporter has rendered the data without raising, and
    the response carries the data, the exporter's content type and the
    SHA-1 of the data as its [ETag].  A request that is not an organiser's
    never gets the data of an exporter that is not public. *)
Theorem export_access_control
    (request : ExporterView.Request (Schedule := Schedule))
    (activated : option pystr) (response : ExporterView.HttpResponse) :
  ExporterView.get unquote sha1_hexdigest safe_filename request
  = (activated, Returned response) ->
  exists ex name_ file_name file_type data,
    ExporterView.requested_identifier unquote request = Returned name_
    /\ ex ∈ ExporterView.exporters request
    /\ ExporterView.identifier ex = name_
    /\ (ExporterView.public ex = true
        \/ ExporterView.is_orga request = Some true)
    /\ ExporterView.render ex (ExporterView.schedule request)
         (default false (ExporterView.is_orga request))
       = Some (file_name, file_type, data)
    /\ (response = ExporterView.NotModified
        \/ exists headers,
             response = ExporterView.Response data file_type headers
             /\ dict_get headers (str "ETag") = Ok (sha1_hexdigest data)).
Proof.
  intros Hget.
  destruct (get_returned request activated response Hget)
    as (ex & name_ & file_name & file_type & data & Hname & Hloop & Hrender
        & _ & Hresponse).
  destruct (exporter_loop_some request name_ _ ex Hloop) as (Hin & Hid & Hallowed).
  exists ex, name_, file_name, file_type, data.
  repeat split; try done.
  destruct Hresponse as [[-> _] | [_ (headers & -> & Hetag)]]; [by left |].
  right. by exists headers.
Qed.

(** X16.  The [ETag] of a response makes the next request conditional.
    When the view has answered a request with data, the response has an
    [ETag]; the same request sent again with this value as its
    [If-None-Match] header is answered with [304 Not Modified] (as long as
    the exporter renders the same data), after the same language has been
    activated. *)
Theorem etag_round_trip
    (request : ExporterView.Request (Schedule := Schedule))
    (activated : option pystr) (data file_type : pystr) (headers : dict pystr) :
  ExporterView.get unquote sha1_hexdigest safe_filename request
  = (activated, Returned (ExporterView.Response data file_type headers)) ->
  exists etag,
    dict_get headers (str "ETag") = Ok etag
    /\ ExporterView.get unquote sha1_hexdigest safe_filename
         (ExporterView.with_if_none_match request etag)
       = (activated, Returned ExporterView.NotModified).
Proof.
  intros Hget.
  destruct (get_returned request activated _ Hget)
    as (ex & name_ & file_name & file_type' & data' & Hname & Hloop & Hrender
        & Hactivated & Hresponse).
  destruct Hresponse as [[[=] _] | [_ (headers' & [= <- <- <-] & Hetag)]].
  exists (sha1_hexdigest data). split; [done |].
  unfold ExporterView.get. rewrite get_exporter_with_if_none_match.
  unfold ExporterView.get_exporter. rewrite Hname, Hloop.
  change (ExporterView.schedule (ExporterView.with_if_none_match request _))
    with (ExporterView.schedule request).
  change (ExporterView.is_orga (ExporterView.with_if_none_match request _))
    with (ExporterView.is_orga request).
  rewrite Hrender. cbn zeta.
  change (ExporterView.if_none_match (ExporterView.with_if_none_match request _))
    with (Some (sha1_hexdigest data)).
  rewrite bool_decide_eq_true_2 by done.
  by rewrite Hactivated.
Qed.

(** X17.  The prefix [export.] of the name of an exporter is optional, and
    it is taken off once.  A request for [export.] followed by a name asks
    for the exporter with the identifier name, in the URL [export] with the
    name as its argument as in a URL of its own; what follows the prefix is
    the identifier as it is, also when it begins with [export.] itself.  A
    name without the prefix asks for itself. *)
Theorem export_prefix_taken_off_once
    (request : ExporterView.Request (Schedule := Schedule)) (name_ : pystr) :
  (ExporterView.url_name request = str "export" ->
   ExporterView.url_kwargs_name request = Some (str "export." ++ name_) ->
   ExporterView.requested_identifier unquote request = Returned name_)
  /\ (ExporterView.url_name request = str "export." ++ name_ ->
      ExporterView.requested_identifier unquote request = Returned name_)
  /\ (ExporterView.url_name request = str "export" ->
      ExporterView.url_kwargs_name request = Some name_ ->
      name_ <> [] -> startswith name_ (str "export.") = false ->
      ExporterView.requested_identifier unquote request = Returned name_).
Proof.
  unfold ExporterView.requested_identifier. split; [| split].
  - intros -> ->. unfold str_eqb. rewrite bool_decide_eq_true_2 by done.
    change (opt_str_truthy (Some (str "export." ++ name_))) with true.
    cbn match.
    change (default [] (Some (str "export." ++ name_)))
      with (str "export." ++ name_).
    by rewrite startswith_app, slice_from_app_len.
  - intros ->. unfold str_eqb.
    rewrite bool_decide_eq_false_2 by discriminate.
    by rewrite startswith_app, slice_from_app_len.
  - intros -> -> Hne Hprefix. unfold str_eqb.
    rewrite bool_decide_eq_true_2 by done.
    unfold opt_str_truthy, str_truthy. rewrite bool_decide_eq_false_2 by done.
    cbn [negb]. change (default [] (Some name_)) with name_.
    by rewrite Hprefix.
Qed.

End ExporterViewFacts.

Lemma export_access_control_witness :
  exists ex name_ file_name file_type data,
    ExporterView.requested_identifier (fun s => s)
      (export_request (str "export.schedule.json") false) = Returned name_
    /\ ex ∈ ExporterView.exporters
              (export_request (str "export.schedule.json") false)
    /\ ExporterView.identifier ex = name_
    /\ (ExporterView.public ex = true
        \/ ExporterView.is_orga
             (export_request (str "export.schedule.json") false) = Some true)
    /\ ExporterView.render ex
         (ExporterView.schedule
            (export_request (str "export.schedule.json") false))
         (default false
            (ExporterView.is_orga
               (export_request (str "export.schedule.json") false)))
       = Some (file_name, file_type, data)
    /\ (ExporterView.Response (str "{}") (str "application/json")
          [(str "ETag", str "{}"); (str "Access-Control-Allow-Origin", str "*")]
        = ExporterView.NotModified
        \/ exists headers,
             ExporterView.Response (str "{}") (str "application/json")
               [(str "ETag", str "{}");
                (str "Access-Control-Allow-Origin", str "*")]
             = ExporterView.Response data file_type headers
             /\ dict_get headers (str "ETag") = Ok data).
Proof.
  apply (export_access_control (fun s => s) (fun s => s) (fun s => s)
           (export_request (str "export.schedule.json") false) None).
  reflexivity.
Defined.

Lemma etag_round_trip_witness :
  exists etag,
    dict_get [(str "ETag", str "{}"); (str "Access-Control-Allow-Origin", str "*")]
      (str "ETag") = Ok etag
    /\ ExporterView.get (fun s => s) (fun s => s) (fun s => s)
         (ExporterView.with_if_none_match
            (export_request (str "export.schedule.json") false) etag)
       = (None, Returned ExporterView.NotModified).
Proof.
  apply (etag_round_trip (fun s => s) (fun s => s) (fun s => s)
           (export_request (str "export.schedule.json") false) None
           (str "{}") (str "application/json")).
  reflexivity.
Defined.

Lemma export_prefix_taken_off_once_witness :
  ExporterView.requested_identifier (fun s => s)
    (export_request (str "export.schedule.json") false)
  = Returned (str "schedule.json")
  /\ ExporterView.requested_identifier (fun s => s)
       (export_request (str "schedule.json") false)
     = Returned (str "schedule.json").
Proof.
  split.
  - destruct (export_prefix_taken_off_once (fun s => s)
                (export_request (str "export.schedule.json") false)
                (str "schedule.json")) as (Hprefix & _ & _).
    apply Hprefix; reflexivity.
  - destruct (export_prefix_taken_off_once (fun s => s)
                (export_request (str "schedule.json") false)
                (str "schedule.json")) as (_ & _ & Hplain).
    apply Hplain; first [reflexivity | discriminate].
Defined.

(** ** The proportional view *)

Section ProportionalFacts.
Context (utcoffset : datetime -> Z).
Context (now : datetime).

Lemma hours_loop_closed (fuel : nat) (step end_ wall : Z) (hours : list pystr) :
  (Z.to_nat ((end_ - step + 59) / 60) <= fuel)%nat ->
  hours_loop fuel step end_ wall hours
  = hours ++ ((fun k : nat => strftime_HM (step + 60 * Z.of_nat k + wall))
              <$> seq 0 (Z.to_nat ((end_ - step + 59) / 60))).
Proof.
  induction fuel as [|fuel IH] in step, hours |- *; intros Hfuel.
  - replace (Z.to_nat ((end_ - step + 59) / 60)) with 0%nat by lia.
    cbn. by rewrite app_nil_r.
  - cbn [hours_loop]. destruct (Z.ltb_spec step end_) as [Hlt | Hge].
    + assert (Hrounds : Z.to_nat ((end_ - step + 59) / 60)
                        = S (Z.to_nat ((end_ - (step + 60) + 59) / 60)))
        by (Z.div_mod_to_equations; lia).
      rewrite IH by lia. rewrite Hrounds. cbn [seq fmap list_fmap].
      rewrite <- fmap_S_seq, <- list_fmap_compose, <- app_assoc.
      cbn [app]. f_equal. f_equal.
      * f_equal. lia.
      * apply list_fmap_ext. intros _ k _. unfold compose. f_equal. lia.
    + replace (Z.to_nat ((end_ - step + 59) / 60)) with 0%nat
        by (Z.div_mod_to_equations; lia).
      cbn. by rewrite app_nil_r.
Qed.

Lemma strftime_HM_full_hour (t : Z) :
  t mod 60 = 0 -> strftime_HM t = pad2 ((t / 60) mod 24) ++ str ":00".
Proof. intros H. unfold strftime_HM. by rewrite H. Qed.

(** X18.  The column of a day in the proportional view.  For a day with
    both bounds the column begins where the hour of [first_start] began on
    the wall clock of the event's time zone, at most 59 minutes before
    [first_start]; its height is two pixels for every minute up to
    [last_end]; and it has one label for every hour begun before
    [last_end], each a full hour ([HH:00]), counting on from the hour of
    [first_start]. *)
Theorem proportional_hours (date : DateBucket) (first last : datetime) :
  first_start date = Some first -> last_end date = Some last ->
  exists display,
    date_display utcoffset now date = Some display
    /\ first - 59 <= display_start display <= first
    /\ (display_start display + utcoffset first) mod 60 = 0
    /\ display_height display = 2 * (last - display_start display)
    /\ display_hours display
       = (fun k : nat =>
            pad2 (((first + utcoffset first) / 60 + Z.of_nat k) mod 24)
            ++ str ":00")
         <$> seq 0 (Z.to_nat ((last - display_start display + 59) / 60)).
Proof.
  intros Hfirst Hlast. unfold date_display. rewrite Hfirst, Hlast.
  eexists. split; [done |]. cbn [display_start display_height display_hours].
  unfold hour_floor.
  split; [Z.div_mod_to_equations; lia |].
  split; [Z.div_mod_to_equations; lia |].
  split; [lia |].
  rewrite hours_loop_closed by (Z.div_mod_to_equations; lia).
  cbn [app]. apply list_fmap_ext. intros _ k _.
  rewrite strftime_HM_full_hour by (Z.div_mod_to_equations; lia).
  f_equal. f_equal. f_equal. Z.div_mod_to_equations; lia.
Qed.

(** X19.  The boxes of the talks in the proportional view.  For a day with
    both bounds every talk of the day gets a box, in the order of the rooms:
    its height is two pixels for every minute of its duration and its top
    two pixels for every minute from the beginning of the column to its
    start.  A talk that starts no earlier than [first_start] has its box
    below the top of the column, and a talk that ends, by its duration, no
    later than [last_end] has its box within the height of the column. *)
Theorem proportional_boxes (date : DateBucket) (first last : datetime) :
  first_start date = Some first -> last_end date = Some last ->
  exists display,
    date_display utcoffset now date = Some display
    /\ Forall2 (fun talk box =>
                  box_talk box = talk
                  /\ box_height box = 2 * duration talk
                  /\ box_top box = 2 * (start talk - display_start display)
                  /\ (first <= start talk -> 0 <= box_top box)
                  /\ (start talk + duration talk <= last ->
                      box_top box + box_height box <= display_height display))
         (day_talks date) (display_boxes display).
Proof.
  intros Hfirst Hlast. unfold date_display. rewrite Hfirst, Hlast.
  eexists. split; [done |]. cbn [display_start display_height display_boxes].
  apply Forall2_fmap_r, Forall_Forall2_diag, Forall_forall. intros talk _.
  cbv beta iota delta [talk_box hour_floor box_talk box_top box_height].
  split; [done |]. split; [lia |]. split; [lia |].
  split; intros H; Z.div_mod_to_equations; lia.
Qed.

Lemma proportional_loop_spec (data : list DateBucket) (max_rooms0 : Z) :
  let '(out, max_rooms) := proportional_loop utcoffset now data max_rooms0 in
  out = (fun date => (date, date_display utcoffset now date)) <$> data
  /\ max_rooms0 <= max_rooms
  /\ (forall date, date ∈ data -> is_Some (date_display utcoffset now date) ->
        len (rooms date) <= max_rooms)
  /\ (max_rooms = max_rooms0
      \/ exists date, date ∈ data
           /\ is_Some (date_display utcoffset now date)
           /\ max_rooms = len (rooms date)).
Proof.
  induction data as [|date data IH] in max_rooms0 |- *; cbn [proportional_loop].
  - split; [done |]. split; [lia |]. split; [| by left].
    intros date Hdate. by apply elem_of_nil in Hdate.
  - set (m1 := if bool_decide _ then _ else _).
    specialize (IH m1).
    destruct (proportional_loop utcoffset now data m1) as [out max_rooms].
    destruct IH as (Hout & Hle & Hall & Hattained).
    assert (Hm1 : max_rooms0 <= m1
                  /\ (is_Some (date_display utcoffset now date) ->
                      len (rooms date) <= m1)
                  /\ (m1 = max_rooms0
                      \/ is_Some (date_display utcoffset now date)
                         /\ m1 = len (rooms date))).
    { unfold m1. case_bool_decide as Hdisplay.
      - split; [lia |]. split; [lia |].
        destruct (Z.max_spec max_rooms0 (len (rooms date))) as [[_ ->] | [_ ->]];
          [by right | by left].
      - split; [lia |]. split; [done | by left]. }
    destruct Hm1 as (Hm1 & Hm2 & Hm3).
    split; [by rewrite Hout |]. split; [lia |]. split.
    + intros date' [-> | Hdate']%elem_of_cons Hdisplay.
      * specialize (Hm2 Hdisplay). lia.
      * by apply Hall.
    + destruct Hattained as [-> | (date' & Hdate' & Hdisplay & ->)].
      * destruct Hm3 as [-> | [Hdisplay ->]]; [by left |].
        right. exists date. split; [left | done].
      * right. exists date'. split; [by right | done].
Qed.

(** X20.  Which days count in the proportional view.  Every day is passed
    on, in its place; a day is given its column exactly if it has both
    [first_start] and [last_end].  [max_rooms] is the largest number of
    rooms among the days that have both, and 0 if there is no such day: a
    day that lacks one of the bounds does not count, however many rooms it
    has. *)
Theorem proportional_max_rooms (data : list DateBucket) :
  let '(out, max_rooms) := get_schedule_data_proportional utcoffset now data in
  out.*1 = data
  /\ Forall2 (fun date display =>
                is_Some display
                <-> is_Some (first_start date) /\ is_Some (last_end date))
       data out.*2
  /\ (forall date, date ∈ data ->
        is_Some (first_start date) -> is_Some (last_end date) ->
        len (rooms date) <= max_rooms)
  /\ (max_rooms = 0
      \/ exists date, date ∈ data
           /\ is_Some (first_start date) /\ is_Some (last_end date)
           /\ max_rooms = len (rooms date)).
Proof.
  unfold get_schedule_data_proportional.
  pose proof (proportional_loop_spec data 0) as Hspec.
  destruct (proportional_loop utcoffset now data 0) as [out max_rooms].
  destruct Hspec as (-> & _ & Hall & Hattained).
  assert (Hdisplay : forall date,
            is_Some (date_display utcoffset now date)
            <-> is_Some (first_start date) /\ is_Some (last_end date)).
  { intros date. unfold date_display.
    destruct (first_start date), (last_end date);
      rewrite !is_Some_alt; tauto. }
  split; [| split; [| split]].
  - rewrite <- list_fmap_compose. apply list_fmap_id.
  - rewrite <- list_fmap_compose.
    apply Forall2_fmap_r, Forall_Forall2_diag, Forall_forall.
    intros date _. apply Hdisplay.
  - intros date Hdate Hfirst Hlast. apply Hall; [done |]. by apply Hdisplay.
  - destruct Hattained as [-> | (date & Hdate & Hsome & ->)]; [by left |].
    right. exists date. apply Hdisplay in Hsome as [Hfirst Hlast]. done.
Qed.

End ProportionalFacts.

Lemma proportional_hours_witness :
  exists display,
    date_display (fun _ => 60) nine bounded_day = Some display
    /\ nine + 10 - 59 <= display_start display <= nine + 10
    /\ (display_start display + 60) mod 60 = 0
    /\ display_height display = 2 * (nine + 120 - display_start display)
    /\ display_hours display
       = (fun k : nat =>
            pad2 (((nine + 10 + 60) / 60 + Z.of_nat k) mod 24) ++ str ":00")
         <$> seq 0 (Z.to_nat ((nine + 120 - display_start display + 59) / 60)).
Proof.
  apply (proportional_hours (fun _ => 60) nine bounded_day (nine + 10) (nine + 120));
    reflexivity.
Defined.

Lemma proportional_boxes_witness :
  exists display,
    date_display (fun _ => 60) nine bounded_day = Some display
    /\ Forall2 (fun talk box =>
                  box_talk box = talk
                  /\ box_height box = 2 * duration talk
                  /\ box_top box = 2 * (start talk - display_start display)
                  /\ (nine + 10 <= start talk -> 0 <= box_top box)
                  /\ (start talk + duration talk <= nine + 120 ->
                      box_top box + box_height box <= display_height display))
         (day_talks bounded_day) (display_boxes display).
Proof.
  apply (proportional_boxes (fun _ => 60) nine bounded_day (nine + 10) (nine + 120));
    reflexivity.
Defined.

(** ** The text of a well-formed schedule *)

Section TextOfSchedule.
Context (wrap_lines : pystr -> Z -> list pystr).
Context (get_separator : bool -> bool -> bool -> bool -> pystr).
Context (UD LR no_speakers : pystr).




End TextOfSchedule.

